(** * The AI provider layer of suitcaseApp

    A shallow embedding of [src/services/aiProviderService.ts],
    [src/services/groqService.ts], [src/services/geminiService.ts] and
    [src/services/fallbackService.ts], and the properties of the provider
    selection, of the fallback chain and of the response normalizers.
    The Open Library client of [aiProviderService.ts], the storage and
    authentication services, the onboarding wizard, the helpers of the book
    card, the earlier Gemini service kept in [groqService.ts] and the
    highlights of the reader follow, with the properties of their results.

    Conventions of the embedding.
    - A JavaScript value is a [JsVal]; objects are association lists in
      insertion order, arrays are lists.  The values the services handle
      come from [JSON.parse], so they hold no functions.
    - An [async] function is a computation in [Async]: it yields the trace
      of what it did (each request to a provider, each entry into the
      static fallback) and either a value (the promise resolves) or an
      exception (the promise rejects).
    - The network is an oracle: for each request it fixes what [fetch] (or
      the Gemini SDK) answers.  The envelope of a provider reply is modelled
      at the type the services read it at; the text written by the language
      model inside that envelope is an arbitrary string.
    - The builtins whose result depends on IEEE-754 formatting or parsing
      ([JSON.parse], [JSON.stringify], [Number.prototype.toString], the
      string-to-number conversion) are fields of a [Runtime] record; every
      general theorem holds for all runtimes.  [RefRuntime.runtime] is an
      executable instance with exact decimal arithmetic, used to evaluate the
      services on concrete inputs.
    - [console.warn] and [console.error] are not modelled. *)

From Stdlib Require Import Strings.String Strings.Ascii Lists.List.
From Stdlib Require Import ZArith QArith Bool Lia.
From Stdlib Require Import Numbers.DecimalString DecimalZ DecimalPos.
Import ListNotations.

Local Open Scope string_scope.
Local Open Scope list_scope.

(** ** JavaScript values *)

Module JS.

(** A JavaScript number: a finite value kept as an exact rational, the two
    infinities and NaN.  [Math.min], [Math.max] and comparisons never round,
    so they are exact on this representation. *)
Inductive JsNum :=
| NaN
| NegInf
| Fin (q : Q)
| PosInf.

#[local] Set Warnings "-register-all".
Inductive JsVal :=
| JUndefined
| JNull
| JBool (b : bool)
| JNum (n : JsNum)
| JStr (s : string)
| JArr (items : list JsVal)
| JObj (fields : list (string * JsVal)).

Definition num (z : Z) : JsVal := JNum (Fin (inject_Z z)).

(** Exceptions.  They are only ever caught and logged by the services. *)
Inductive JsError :=
| Error (message : string)
| TypeError
| SyntaxError.

Inductive Completion (A : Type) :=
| Ok (a : A)
| Throw (e : JsError).
Arguments Ok {A} a.
Arguments Throw {A} e.

(** ToBoolean *)
Definition num_truthy (n : JsNum) : bool :=
  match n with
  | NaN => false
  | Fin q => negb (Qeq_bool q 0)
  | NegInf | PosInf => true
  end.

Definition truthy (v : JsVal) : bool :=
  match v with
  | JUndefined | JNull => false
  | JBool b => b
  | JNum n => num_truthy n
  | JStr s => negb (String.eqb s "")
  | JArr _ | JObj _ => true
  end.

(** [a || b] *)
Definition or_else (a b : JsVal) : JsVal := if truthy a then a else b.

(** [Array.isArray] *)
Definition isArray (v : JsVal) : bool :=
  match v with JArr _ => true | _ => false end.

(** Own data properties of an object, in insertion order.  (A JavaScript
    engine lists integer-like keys first; no service depends on the order
    of keys.) *)
Fixpoint lookup (k : string) (fields : list (string * JsVal)) : option JsVal :=
  match fields with
  | [] => None
  | (k', v) :: rest => if String.eqb k k' then Some v else lookup k rest
  end.

Definition has_key (k : string) (fields : list (string * JsVal)) : bool :=
  match lookup k fields with Some _ => true | None => false end.

(** [o[k] = v] on an ordinary object: an existing key keeps its position. *)
Fixpoint set_prop (k : string) (v : JsVal) (fields : list (string * JsVal))
  : list (string * JsVal) :=
  match fields with
  | [] => [(k, v)]
  | (k', v') :: rest =>
      if String.eqb k k' then (k, v) :: rest else (k', v') :: set_prop k v rest
  end.

(** [v.k] for the property names the services read ([title], [author],
    [coverColor], [isbn], [description], [publishedYear], [categories],
    [matchReason], [reviewerName], [rating], [text], [date], [avatarColor],
    [reply], [suggestions]): none of them is an index, [length] or a member
    of a builtin prototype, so on anything but an object the read yields
    [undefined]; on [null] and [undefined] it throws. *)
Definition get (v : JsVal) (k : string) : Completion JsVal :=
  match v with
  | JUndefined | JNull => Throw TypeError
  | JObj fields =>
      Ok (match lookup k fields with Some x => x | None => JUndefined end)
  | _ => Ok JUndefined
  end.

(** Comparison of numbers; [None] when either side is NaN. *)
Definition num_leb (a b : JsNum) : option bool :=
  match a, b with
  | NaN, _ | _, NaN => None
  | NegInf, _ => Some true
  | _, PosInf => Some true
  | PosInf, _ => Some false
  | _, NegInf => Some false
  | Fin x, Fin y => Some (Qle_bool x y)
  end.

(** [Math.max] and [Math.min] on two numbers. *)
Definition num_max (a b : JsNum) : JsNum :=
  match num_leb a b with
  | None => NaN
  | Some true => b
  | Some false => a
  end.

Definition num_min (a b : JsNum) : JsNum :=
  match num_leb a b with
  | None => NaN
  | Some true => a
  | Some false => b
  end.

End JS.
Export JS.

(** ** Text helpers: the string builtins and the regular expressions of the
    services

    Strings are sequences of bytes that hold UTF-8 text.  The white space
    of JavaScript, which [\s], [trim] and [parseInt] skip, is made of the
    six ASCII characters (tab, line feed, vertical tab, form feed, carriage
    return, space) and of U+00A0, U+1680, U+2000 to U+200A, U+2028, U+2029,
    U+202F, U+205F, U+3000 and U+FEFF, which take two or three bytes. *)

Module Text.

Definition chr (n : nat) : string := String (ascii_of_nat n) EmptyString.
Definition dq : string := chr 34.
Definition nl : string := chr 10.

Definition Z_to_string (z : Z) : string := NilZero.string_of_int (Z.to_int z).
Definition nat_to_string (n : nat) : string := Z_to_string (Z.of_nat n).

(** [l.join(sep)] on strings *)
Fixpoint join (sep : string) (l : list string) : string :=
  match l with
  | [] => ""
  | [x] => x
  | x :: rest => x ++ sep ++ join sep rest
  end.

(** [l.slice(-n)] *)
Definition last_n {A} (n : nat) (l : list A) : list A :=
  skipn (length l - n) l.

(** A white space character of one byte. *)
Definition is_space (c : ascii) : bool :=
  let n := nat_of_ascii c in
  ((9 <=? n) && (n <=? 13))%nat || (n =? 32)%nat.

(** The two bytes of U+00A0. *)
Definition is_space2 (a b : ascii) : bool :=
  ((nat_of_ascii a =? 194) && (nat_of_ascii b =? 160))%nat.

(** The three bytes of U+1680, of U+2000 to U+200A, U+2028, U+2029 and
    U+202F, of U+205F, of U+3000 and of U+FEFF. *)
Definition is_space3 (a b c : ascii) : bool :=
  let x := nat_of_ascii a in
  let y := nat_of_ascii b in
  let z := nat_of_ascii c in
  ((x =? 225) && (y =? 154) && (z =? 128)
   || (x =? 226) && (y =? 128)
      && ((128 <=? z) && (z <=? 138) || (z =? 168) || (z =? 169) || (z =? 175))
   || (x =? 226) && (y =? 129) && (z =? 159)
   || (x =? 227) && (y =? 128) && (z =? 128)
   || (x =? 239) && (y =? 187) && (z =? 191))%nat.

(** [s] without the white space it starts with. *)
Fixpoint skip_spaces (s : string) : string :=
  match s with
  | String a r =>
      if is_space a then skip_spaces r
      else
        match r with
        | String b r2 =>
            if is_space2 a b then skip_spaces r2
            else
              match r2 with
              | String c r3 => if is_space3 a b c then skip_spaces r3 else s
              | EmptyString => s
              end
        | EmptyString => s
        end
  | EmptyString => s
  end.

(** [s] without the white space it ends with: a suffix made of white space
    only is dropped. *)
Fixpoint trim_end (s : string) : string :=
  match s with
  | String a r =>
      match skip_spaces s with
      | EmptyString => EmptyString
      | String _ _ => String a (trim_end r)
      end
  | EmptyString => EmptyString
  end.



(** [s.trim()] *)
Definition trim (s : string) : string := trim_end (skip_spaces s).

(** The rest of [s] after the prefix [p], when [s] starts with [p]. *)
Fixpoint strip_prefix (p s : string) : option string :=
  match p, s with
  | EmptyString, _ => Some s
  | String a p', String b s' =>
      if Ascii.eqb a b then strip_prefix p' s' else None
  | String _ _, EmptyString => None
  end.

Definition fence : string := "```".

(** The shortest prefix of [s] that is followed by a fence: the lazy group
    [([\s\S]*?)] followed by the closing fence. *)
Fixpoint before_fence (s : string) : option string :=
  match strip_prefix fence s with
  | Some _ => Some ""
  | None =>
      match s with
      | EmptyString => None
      | String c r =>
          match before_fence r with
          | Some m => Some (String c m)
          | None => None
          end
      end
  end.

(** Group 1 of the leftmost match of [/```json?\s*([\s\S]*?)```/]: the
    opening is the four characters fence-j-s-o, an optional [n] and any
    white space, both greedy; neither can swallow a back-tick, so no
    backtracking is involved. *)
Definition fence_body_at (s : string) : option string :=
  match strip_prefix (fence ++ "jso") s with
  | None => None
  | Some r =>
      let r1 := match strip_prefix "n" r with Some r' => r' | None => r end in
      before_fence (skip_spaces r1)
  end.

Fixpoint match_fence (s : string) : option string :=
  match fence_body_at s with
  | Some body => Some body
  | None =>
      match s with
      | EmptyString => None
      | String _ r => match_fence r
      end
  end.

(** The prefix of [s] up to and including the last [c]: the greedy
    [[\s\S]*] followed by [c]. *)
Fixpoint upto_last (c : ascii) (s : string) : option string :=
  match s with
  | EmptyString => None
  | String d r =>
      match upto_last c r with
      | Some m => Some (String d m)
      | None => if Ascii.eqb d c then Some (String d EmptyString) else None
      end
  end.

(** The leftmost match of [/o[\s\S]*c/] (equally [/o.*c/s]). *)
Fixpoint match_between (o c : ascii) (s : string) : option string :=
  match s with
  | EmptyString => None
  | String d r =>
      if Ascii.eqb d o then
        match upto_last c r with
        | Some m => Some (String d m)
        | None => match_between o c r
        end
      else match_between o c r
  end.

(** The leftmost match of [/\[[\s\S]*\]|\{[\s\S]*\}/]: at each position
    the bracket alternative is tried before the brace alternative. *)
Fixpoint match_json_span (s : string) : option string :=
  match s with
  | EmptyString => None
  | String d r =>
      if Ascii.eqb d "["%char then
        match upto_last "]"%char r with
        | Some m => Some (String d m)
        | None => match_json_span r
        end
      else if Ascii.eqb d "{"%char then
        match upto_last "}"%char r with
        | Some m => Some (String d m)
        | None => match_json_span r
        end
      else match_json_span r
  end.

(** [s.replace(/```json\n?|```/g, '')]: [skip] counts the characters of the
    current match that are still to be dropped. *)
Fixpoint remove_fences_from (skip : nat) (s : string) : string :=
  match s with
  | EmptyString => EmptyString
  | String c r =>
      match skip with
      | S k => remove_fences_from k r
      | O =>
          match strip_prefix (fence ++ "json") s with
          | Some after =>
              match strip_prefix nl after with
              | Some _ => remove_fences_from 7 r
              | None => remove_fences_from 6 r
              end
          | None =>
              match strip_prefix fence s with
              | Some _ => remove_fences_from 2 r
              | None => String c (remove_fences_from 0 r)
              end
          end
      end
  end.

Definition remove_fences (s : string) : string := remove_fences_from 0 s.

(** [s.replace(/```html|```/g, '')] *)
Fixpoint remove_html_fences_from (skip : nat) (s : string) : string :=
  match s with
  | EmptyString => EmptyString
  | String c r =>
      match skip with
      | S k => remove_html_fences_from k r
      | O =>
          match strip_prefix (fence ++ "html") s with
          | Some _ => remove_html_fences_from 6 r
          | None =>
              match strip_prefix fence s with
              | Some _ => remove_html_fences_from 2 r
              | None => String c (remove_html_fences_from 0 r)
              end
          end
      end
  end.

Definition remove_html_fences (s : string) : string :=
  remove_html_fences_from 0 s.

End Text.

(** ** Data of [src/types.ts] and the arguments of the capability functions *)

Inductive Role := RoleUser | RoleModel.

(** One entry of a conversation history, [{ role, text }]. *)
Record HistoryEntry := { role : Role; text : string }.

Record UserPreferences := {
  name : option string;
  genres : list string;
  readingGoal : string;
  onboardingComplete : bool;
  joinDate : Z
}.

(** ** The language runtime *)

Record Runtime := {
  (** [JSON.parse]; [None] when it throws a SyntaxError *)
  JSON_parse : string -> option JsVal;
  (** [JSON.stringify] on a conversation history *)
  JSON_stringify : list HistoryEntry -> string;
  (** [Number.prototype.toString] *)
  Number_toString : JsNum -> string;
  (** the conversion of a string to a number *)
  StringToNumber : string -> JsNum
}.

(** An executable runtime.  Numbers are exact decimals: the rounding of a
    literal to the nearest double is not performed.  [StringToNumber] reads
    decimal literals only, and [Number_toString] prints the exact decimal
    expansion. *)
Module RefRuntime.
Import Text.

Definition is_digit (c : ascii) : bool :=
  let n := nat_of_ascii c in ((48 <=? n) && (n <=? 57))%nat.

Definition digit_val (c : ascii) : Z := Z.of_nat (nat_of_ascii c) - 48.

Definition is_json_ws (c : ascii) : bool :=
  let n := nat_of_ascii c in
  ((n =? 32) || (n =? 9) || (n =? 10) || (n =? 13))%nat.

Fixpoint skip_ws (s : string) : string :=
  match s with
  | String c r => if is_json_ws c then skip_ws r else s
  | EmptyString => s
  end.

(** Reads a run of digits: the value accumulated, the number of digits and
    the rest. *)
Fixpoint digits (s : string) (acc : Z) (n : nat) : Z * nat * string :=
  match s with
  | String c r => if is_digit c then digits r (10 * acc + digit_val c) (S n)
                  else (acc, n, s)
  | EmptyString => (acc, n, s)
  end.

(** [m * 10^e] *)
Definition decimal (m e : Z) : Q :=
  if (0 <=? e)%Z then inject_Z (m * 10 ^ e)
  else Qred (Qmake m (Z.to_pos (10 ^ (- e)))).

Definition exponent_part (s : string) : option (Z * string) :=
  match s with
  | String c r =>
      if (Ascii.eqb c "e" || Ascii.eqb c "E")%bool then
        let '(sign, r1) :=
          match r with
          | String "+" r' => (1%Z, r')
          | String "-" r' => ((-1)%Z, r')
          | _ => (1%Z, r)
          end in
        match digits r1 0 0 with
        | (_, O, _) => None
        | (e, S _, r2) => Some ((sign * e)%Z, r2)
        end
      else Some (0%Z, s)
  | EmptyString => Some (0%Z, s)
  end.

Definition fraction_part (s : string) : option (Z * nat * string) :=
  match s with
  | String "." r =>
      match digits r 0 0 with
      | (_, O, _) => None
      | (f, S k, r1) => Some (f, S k, r1)
      end
  | _ => Some (0%Z, O, s)
  end.

(** A JSON number: an optional minus sign, an integer part without leading
    zero, an optional fraction and an optional exponent. *)
Definition json_number (s : string) : option (JsNum * string) :=
  let '(sign, s1) :=
    match s with
    | String "-" r => ((-1)%Z, r)
    | _ => (1%Z, s)
    end in
  let int_part :=
    match s1 with
    | String "0" r => Some (0%Z, r)
    | _ => match digits s1 0 0 with
           | (_, O, _) => None
           | (i, S _, r) => Some (i, r)
           end
    end in
  match int_part with
  | None => None
  | Some (i, s2) =>
      match fraction_part s2 with
      | None => None
      | Some (f, k, s3) =>
          match exponent_part s3 with
          | None => None
          | Some (e, s4) =>
              let m := (sign * (i * 10 ^ Z.of_nat k + f))%Z in
              Some (Fin (decimal m (e - Z.of_nat k)), s4)
          end
      end
  end.

Definition hex_val (c : ascii) : option N :=
  let n := N.of_nat (nat_of_ascii c) in
  if ((48 <=? n) && (n <=? 57))%N then Some (n - 48)%N
  else if ((97 <=? n) && (n <=? 102))%N then Some (n - 87)%N
  else if ((65 <=? n) && (n <=? 70))%N then Some (n - 55)%N
  else None.

Definition byte (n : N) : ascii := ascii_of_N n.

(** The UTF-8 bytes of one UTF-16 code unit (surrogates are not paired). *)
Definition utf8 (u : N) : string :=
  if (u <? 128)%N then String (byte u) ""
  else if (u <? 2048)%N then
    String (byte (192 + u / 64)) (String (byte (128 + u mod 64)) "")
  else
    String (byte (224 + u / 4096))
      (String (byte (128 + (u / 64) mod 64)) (String (byte (128 + u mod 64)) "")).

Definition unicode_escape (s : string) : option (string * string) :=
  match s with
  | String a (String b (String c (String d r))) =>
      match hex_val a, hex_val b, hex_val c, hex_val d with
      | Some x, Some y, Some z, Some w =>
          Some (utf8 (((x * 16 + y) * 16 + z) * 16 + w)%N, r)
      | _, _, _, _ => None
      end
  | _ => None
  end.

(** The characters of a JSON string after its opening quote, up to the
    closing quote. *)
Fixpoint json_string (s : string) : option (string * string) :=
  match s with
  | EmptyString => None
  | String c r =>
      if Ascii.eqb c (ascii_of_nat 34) then Some ("", r)
      else if Ascii.eqb c "\"%char then
        match r with
        | String e r1 =>
            let simple (x : string) :=
              match json_string r1 with
              | Some (t, r2) => Some ((x ++ t)%string, r2)
              | None => None
              end in
            if Ascii.eqb e (ascii_of_nat 34) then simple dq
            else if Ascii.eqb e "\"%char then simple "\"
            else if Ascii.eqb e "/"%char then simple "/"
            else if Ascii.eqb e "b"%char then simple (chr 8)
            else if Ascii.eqb e "f"%char then simple (chr 12)
            else if Ascii.eqb e "n"%char then simple (chr 10)
            else if Ascii.eqb e "r"%char then simple (chr 13)
            else if Ascii.eqb e "t"%char then simple (chr 9)
            else if Ascii.eqb e "u"%char then
              match r1 with
              | String _ (String _ (String _ (String _ r2))) =>
                  match unicode_escape r1, json_string r2 with
                  | Some (x, _), Some (t, r3) => Some ((x ++ t)%string, r3)
                  | _, _ => None
                  end
              | _ => None
              end
            else None
        | EmptyString => None
        end
      else if (nat_of_ascii c <? 32)%nat then None
      else
        match json_string r with
        | Some (t, r1) => Some (String c t, r1)
        | None => None
        end
  end.

Fixpoint json_value (fuel : nat) (s : string) : option (JsVal * string) :=
  match fuel with
  | O => None
  | S f =>
      match skip_ws s with
      | EmptyString => None
      | String c r as s0 =>
          if Ascii.eqb c "["%char then
            match skip_ws r with
            | String "]" r1 => Some (JArr [], r1)
            | _ => json_elements f r []
            end
          else if Ascii.eqb c "{"%char then
            match skip_ws r with
            | String "}" r1 => Some (JObj [], r1)
            | _ => json_members f r []
            end
          else if Ascii.eqb c (ascii_of_nat 34) then
            match json_string r with
            | Some (t, r1) => Some (JStr t, r1)
            | None => None
            end
          else
            match strip_prefix "null" s0, strip_prefix "true" s0,
                  strip_prefix "false" s0 with
            | Some r1, _, _ => Some (JNull, r1)
            | _, Some r1, _ => Some (JBool true, r1)
            | _, _, Some r1 => Some (JBool false, r1)
            | None, None, None =>
                match json_number s0 with
                | Some (n, r1) => Some (JNum n, r1)
                | None => None
                end
            end
      end
  end

with json_elements (fuel : nat) (s : string) (acc : list JsVal)
  : option (JsVal * string) :=
  match fuel with
  | O => None
  | S f =>
      match json_value f s with
      | None => None
      | Some (v, r) =>
          match skip_ws r with
          | String "," r1 => json_elements f r1 (v :: acc)
          | String "]" r1 => Some (JArr (rev (v :: acc)), r1)
          | _ => None
          end
      end
  end

with json_members (fuel : nat) (s : string) (acc : list (string * JsVal))
  : option (JsVal * string) :=
  match fuel with
  | O => None
  | S f =>
      match skip_ws s with
      | String c r =>
          if Ascii.eqb c (ascii_of_nat 34) then
            match json_string r with
            | None => None
            | Some (k, r1) =>
                match skip_ws r1 with
                | String ":" r2 =>
                    match json_value f r2 with
                    | None => None
                    | Some (v, r3) =>
                        match skip_ws r3 with
                        | String "," r4 => json_members f r4 (set_prop k v acc)
                        | String "}" r4 => Some (JObj (set_prop k v acc), r4)
                        | _ => None
                        end
                    end
                | _ => None
                end
            end
          else None
      | EmptyString => None
      end
  end.

Definition json_parse (s : string) : option JsVal :=
  match json_value (2 * String.length s + 2) s with
  | Some (v, r) =>
      match skip_ws r with
      | EmptyString => Some v
      | String _ _ => None
      end
  | None => None
  end.

(** The decimal expansion of the fraction [r / d], [0 <= r < d]. *)
Fixpoint fraction_digits (fuel : nat) (r d : Z) : string :=
  match fuel with
  | O => ""
  | S f =>
      if (r =? 0)%Z then ""
      else (Z_to_string (10 * r / d) ++ fraction_digits f (10 * r mod d) d)%string
  end.

Definition number_to_string (n : JsNum) : string :=
  match n with
  | NaN => "NaN"
  | PosInf => "Infinity"
  | NegInf => "-Infinity"
  | Fin q =>
      let q := Qred q in
      let d := Zpos (Qden q) in
      let a := Z.abs (Qnum q) in
      ((if (Qnum q <? 0)%Z then "-" else "") ++ Z_to_string (a / d) ++
       (if (a mod d =? 0)%Z then "" else "." ++ fraction_digits 400 (a mod d) d))%string
  end.

(** Decimal literals, [Infinity] and the empty string; anything else reads
    as NaN. *)
Definition string_to_number (s : string) : JsNum :=
  let s := trim s in
  if String.eqb s "" then Fin 0
  else
    let '(sign, s1) :=
      match s with
      | String "-" r => ((-1)%Z, r)
      | String "+" r => (1%Z, r)
      | _ => (1%Z, s)
      end in
    if String.eqb s1 "Infinity" then (if (sign <? 0)%Z then NegInf else PosInf)
    else
      let '(i, ni, s2) := digits s1 0 0 in
      let '(f, nf, s3) :=
        match s2 with
        | String "." r => digits r 0 0
        | _ => (0%Z, O, s2)
        end in
      match (ni + nf)%nat, exponent_part s3 with
      | S _, Some (e, EmptyString) =>
          Fin (decimal (sign * (i * 10 ^ Z.of_nat nf + f)) (e - Z.of_nat nf))
      | _, _ => NaN
      end.

Definition hex_digit (n : nat) : string :=
  if (n <? 10)%nat then chr (48 + n) else chr (87 + n).

Fixpoint json_escape (s : string) : string :=
  match s with
  | EmptyString => EmptyString
  | String c r =>
      let n := nat_of_ascii c in
      ((if (n =? 34)%nat then "\" ++ dq
        else if (n =? 92)%nat then "\\"
        else if (n =? 8)%nat then "\b"
        else if (n =? 12)%nat then "\f"
        else if (n =? 10)%nat then "\n"
        else if (n =? 13)%nat then "\r"
        else if (n =? 9)%nat then "\t"
        else if (n <? 32)%nat then
          "\u00" ++ hex_digit (n / 16) ++ hex_digit (n mod 16)
        else String c "") ++ json_escape r)%string
  end.

Definition json_quote (s : string) : string := (dq ++ json_escape s ++ dq)%string.

Definition stringify_entry (h : HistoryEntry) : string :=
  ("{" ++ json_quote "role" ++ ":" ++
   json_quote (match role h with RoleUser => "user" | RoleModel => "model" end) ++
   "," ++ json_quote "text" ++ ":" ++ json_quote (text h) ++ "}")%string.

Definition stringify_history (l : list HistoryEntry) : string :=
  ("[" ++ join "," (map stringify_entry l) ++ "]")%string.

Definition runtime : Runtime := {|
  JSON_parse := json_parse;
  JSON_stringify := stringify_history;
  Number_toString := number_to_string;
  StringToNumber := string_to_number
|}.

End RefRuntime.

(** ** Conversions that go through the runtime *)

Section Conversions.
Context (rt : Runtime).

(** ToString.  The values are plain data, so an object converts to
    ["[object Object]"] unless an own [toString] property (never callable)
    hides the inherited method, in which case the conversion throws. *)
Fixpoint to_string (v : JsVal) : Completion string :=
  match v with
  | JUndefined => Ok "undefined"
  | JNull => Ok "null"
  | JBool b => Ok (if b then "true" else "false")
  | JNum n => Ok (Number_toString rt n)
  | JStr s => Ok s
  | JArr items =>
      (fix join_items (l : list JsVal) : Completion string :=
         match l with
         | [] => Ok ""
         | x :: rest =>
             match (match x with
                    | JUndefined | JNull => Ok ""
                    | _ => to_string x
                    end) with
             | Throw e => Throw e
             | Ok sx =>
                 match rest with
                 | [] => Ok sx
                 | _ :: _ =>
                     match join_items rest with
                     | Ok sr => Ok (sx ++ "," ++ sr)%string
                     | Throw e => Throw e
                     end
                 end
             end
         end) items
  | JObj fields =>
      if has_key "toString" fields then Throw TypeError
      else Ok "[object Object]"
  end.

(** [v?.toString()] *)
Definition opt_toString (v : JsVal) : Completion JsVal :=
  match v with
  | JUndefined | JNull => Ok JUndefined
  | _ => match to_string v with
         | Ok s => Ok (JStr s)
         | Throw e => Throw e
         end
  end.

(** ToNumber *)
Definition to_number (v : JsVal) : Completion JsNum :=
  match v with
  | JUndefined => Ok NaN
  | JNull => Ok (Fin 0)
  | JBool b => Ok (Fin (if b then 1 else 0))
  | JNum n => Ok n
  | JStr s => Ok (StringToNumber rt s)
  | JArr _ | JObj _ =>
      match to_string v with
      | Ok s => Ok (StringToNumber rt s)
      | Throw e => Throw e
      end
  end.

(** [Math.max(a, b)] and [Math.min(a, b)]: both arguments are converted,
    left to right, before they are compared. *)
Definition Math_max (a b : JsVal) : Completion JsNum :=
  match to_number a with
  | Throw e => Throw e
  | Ok x => match to_number b with
            | Throw e => Throw e
            | Ok y => Ok (num_max x y)
            end
  end.

Definition Math_min (a b : JsVal) : Completion JsNum :=
  match to_number a with
  | Throw e => Throw e
  | Ok x => match to_number b with
            | Throw e => Throw e
            | Ok y => Ok (num_min x y)
            end
  end.

(** [JSON.parse(text)] as a call that may throw *)
Definition parse (text : string) : Completion JsVal :=
  match JSON_parse rt text with
  | Some v => Ok v
  | None => Throw SyntaxError
  end.

End Conversions.

(** ** The environment, the network and asynchronous computations *)

(** The environment variables read at module load.  A variable is a string
    or undefined; [present] is its truthiness, so an empty string counts as
    absent. *)
Record Env := {
  VITE_GROQ_API_KEY : option string;
  VITE_GEMINI_API_KEY : option string;
  VITE_HF_TOKEN : option string;
  (** [process.env.API_KEY], read by the Gemini service *)
  process_env_API_KEY : option string
}.

Definition present (k : option string) : bool :=
  match k with
  | Some s => negb (String.eqb s "")
  | None => false
  end.

Definition key_text (k : option string) : string :=
  match k with Some s => s | None => "undefined" end.

(** What a [fetch] followed by [response.json()] can produce. *)
Inductive Reply (D E : Type) :=
| FetchRejects                      (* the request itself fails *)
| HttpFailure (body : option E)     (* [response.ok] is false *)
| HttpSuccess (body : option D).    (* [response.ok] is true *)
Arguments FetchRejects {D E}.
Arguments HttpFailure {D E} body.
Arguments HttpSuccess {D E} body.
(** In both cases the body is [None] when [response.json()] rejects. *)

Inductive ChatRole := System | User | Assistant.
Record ChatMessage := { chat_role : ChatRole; content : string }.

(** The POST sent by [callGroq]; the model name and the temperature are
    constants of the service. *)
Record GroqRequest := {
  groq_bearer : string;
  messages : list ChatMessage;
  max_tokens : Z;
  json_object_format : bool
}.

(** The body of a chat completion as [callGroq] reads it,
    [data.choices[0]?.message?.content]. *)
Inductive GroqData :=
| NoChoices                                  (* [data.choices] cannot be indexed *)
| Choices (contents : list (option string)). (* per choice, [message?.content] *)

(** The body of an error reply as [callGroq] reads it,
    [error.error?.message]. *)
Record GroqErrorBody := { error_message : option string }.

(** The POST sent by [callLLM]; the generation parameters are constants. *)
Record HfRequest := {
  hf_bearer : string;
  inputs : string
}.

(** The body of an inference reply as [callLLM] reads it,
    [result[0]?.generated_text]. *)
Inductive HfData :=
| HfNull                                     (* [result] cannot be indexed *)
| HfGenerated (texts : list (option string)).

Inductive GeminiSchema :=
| BookListSchema
| ConciergeSchema
| RecommendationListSchema
| ReviewListSchema.

(** The argument of [ai.models.generateContent]. *)
Record GeminiRequest := {
  contents : string;
  responseSchema : option GeminiSchema
}.

Record World := {
  env : Env;
  fetch_groq : GroqRequest -> Reply GroqData GroqErrorBody;
  fetch_hf : HfRequest -> Reply HfData unit;
  (** [response.text] of the SDK's reply, or the exception it throws *)
  generateContent : GeminiRequest -> Completion (option string);
  (** the value [Date.now()] returns while item [i] of a list is mapped,
      a whole number of milliseconds *)
  Date_now : nat -> Z
}.

Inductive Operation :=
| OpSearchBooks
| OpConsultConcierge
| OpGetOnboardingRecommendations
| OpGenerateReviews
| OpChatAboutBook
| OpTranslateText
| OpExplainContext
| OpGenerateBookContent
| OpGetBookSummary
| OpGetBookRecap.

(** What a capability call does that can be observed from outside. *)
Inductive Event :=
| PostGroq (r : GroqRequest)
| PostHf (r : HfRequest)
| CallGemini (r : GeminiRequest)
| EnterFallback (op : Operation).

Definition Async (A : Type) : Type := list Event * Completion A.

Module AsyncNotations.

Definition ret {A} (a : A) : Async A := ([], Ok a).

Definition throw {A} (e : JsError) : Async A := ([], Throw e).

Definition bind {A B} (m : Async A) (k : A -> Async B) : Async B :=
  match m with
  | (t1, Ok a) => let '(t2, r) := k a in (t1 ++ t2, r)
  | (t1, Throw e) => (t1, Throw e)
  end.

(** [try { m } catch (e) { h e }] *)
Definition try_catch {A} (m : Async A) (h : JsError -> Async A) : Async A :=
  match m with
  | (t1, Ok a) => (t1, Ok a)
  | (t1, Throw e) => let '(t2, r) := h e in (t1 ++ t2, r)
  end.

Definition emit (e : Event) : Async unit := ([e], Ok tt).

(** An [async] function that returns a promise without awaiting it adopts
    its outcome; a [try] around the [return] does not see its rejection. *)
Definition adopt {A} (m : Async (Async A)) : Async A :=
  match m with
  | (t1, Ok p) => let '(t2, r) := p in (t1 ++ t2, r)
  | (t1, Throw e) => (t1, Throw e)
  end.

(** Sequencing and [try]/[catch] for synchronous code. *)
Definition and_then {A B} (c : Completion A) (k : A -> Completion B)
  : Completion B :=
  match c with
  | Ok a => k a
  | Throw e => Throw e
  end.

Definition catch {A} (c : Completion A) (h : JsError -> Completion A)
  : Completion A :=
  match c with
  | Ok a => Ok a
  | Throw e => h e
  end.

Notation "'let!' x ':=' c 'in' k" := (and_then c (fun x => k))
  (at level 10, x name, c at level 100, k at level 200).

Definition lift {A} (c : Completion A) : Async A := ([], c).

Notation "x <- m ;; k" := (bind m (fun x => k))
  (at level 100, m at next level, right associativity).
Notation "m ;;; k" := (bind m (fun _ => k))
  (at level 100, right associativity).

(** [l.map((item, index) => f item index)] for a callback that may throw. *)
Fixpoint map_indexed_from {A B} (f : A -> nat -> Completion B) (i : nat)
  (l : list A) : Completion (list B) :=
  match l with
  | [] => Ok []
  | x :: rest =>
      match f x i with
      | Throw e => Throw e
      | Ok y =>
          match map_indexed_from f (S i) rest with
          | Throw e => Throw e
          | Ok ys => Ok (y :: ys)
          end
      end
  end.

Definition map_indexed {A B} (f : A -> nat -> Completion B) (l : list A)
  : Completion (list B) := map_indexed_from f 0 l.

(** [v.map(f)]: only an array has a [map] method. *)
Definition array_map (f : JsVal -> nat -> Completion JsVal) (v : JsVal)
  : Completion JsVal :=
  match v with
  | JArr items =>
      match map_indexed f items with
      | Ok l => Ok (JArr l)
      | Throw e => Throw e
      end
  | _ => Throw TypeError
  end.

End AsyncNotations.

(** ** [fallbackService.ts] *)

Module Fallback.
Import Text AsyncNotations.
#[local] Open Scope string_scope.

(** The own enumerable properties copied by an object spread [{...v}]. *)
Fixpoint index_fields (i : nat) (l : list JsVal) : list (string * JsVal) :=
  match l with
  | [] => []
  | x :: rest => (nat_to_string i, x) :: index_fields (S i) rest
  end.

(** The UTF-16 code units of a text, each as a text of its own.  A character
    written with one, two or three bytes is one code unit and keeps its
    bytes; a character written with four bytes is a surrogate pair, and each
    half is written with the three bytes of a code unit.  A byte that does
    not start a complete character counts on its own. *)
Fixpoint code_units (s : string) : list string :=
  match s with
  | EmptyString => []
  | String a r =>
      let x := N.of_nat (nat_of_ascii a) in
      let alone := String a "" :: code_units r in
      if (x <? 192)%N then alone
      else
        match r with
        | EmptyString => alone
        | String b r2 =>
            if (x <? 224)%N then String a (String b "") :: code_units r2
            else
              match r2 with
              | EmptyString => alone
              | String c r3 =>
                  if (x <? 240)%N
                  then String a (String b (String c "")) :: code_units r3
                  else
                    match r3 with
                    | EmptyString => alone
                    | String d r4 =>
                        let y := N.of_nat (nat_of_ascii b) in
                        let z := N.of_nat (nat_of_ascii c) in
                        let t := N.of_nat (nat_of_ascii d) in
                        let v := ((((x mod 8) * 64 + y mod 64) * 64 + z mod 64) * 64
                                  + t mod 64 - 65536)%N in
                        RefRuntime.utf8 (55296 + v / 1024)%N
                        :: RefRuntime.utf8 (56320 + v mod 1024)%N
                        :: code_units r4
                    end
              end
        end
  end.

Fixpoint unit_fields (i : nat) (units : list string) : list (string * JsVal) :=
  match units with
  | [] => []
  | u :: rest => (nat_to_string i, JStr u) :: unit_fields (S i) rest
  end.

(** The properties a spread copies from a string: one per code unit. *)
Definition char_fields (i : nat) (s : string) : list (string * JsVal) :=
  unit_fields i (code_units s).

Definition spread (v : JsVal) : list (string * JsVal) :=
  match v with
  | JObj fields => fields
  | JArr items => index_fields 0 items
  | JStr s => char_fields 0 s
  | _ => []
  end.

(** The literal results of the [catch] branches and of the two functions
    that never call the network. *)
Definition offline_books : JsVal :=
  JArr [
    JObj [("id", JStr "offline-1");
          ("title", JStr "The Offline Library");
          ("author", JStr "System Backup");
          ("description", JStr "We could not reach our AI services, but here is a classic placeholder.");
          ("publishedYear", JStr "2024");
          ("categories", JArr [JStr "System"]);
          ("coverColor", JStr "#e2e8f0");
          ("isbn", JStr "9780141439518");
          ("isLocal", JBool false)]
  ].

Definition offline_concierge : JsVal :=
  JObj [("reply", JStr "I'm having trouble connecting to the cloud, but I'm here listening.");
        ("suggestions", JArr [])].

Definition offline_book (id title author description publishedYear category
                           coverColor isbn matchReason : string) : JsVal :=
  JObj [("id", JStr id); ("title", JStr title); ("author", JStr author);
        ("description", JStr description);
        ("publishedYear", JStr publishedYear);
        ("categories", JArr [JStr category]);
        ("coverColor", JStr coverColor); ("isbn", JStr isbn);
        ("matchReason", JStr matchReason); ("isLocal", JBool false)].

Definition offline_recommendations : JsVal :=
  JArr [
    offline_book "off-1" "The Great Gatsby" "F. Scott Fitzgerald"
      "A classic of the Jazz Age." "1925" "Classic" "#fef3c7"
      "9780743273565" "Timeless classic";
    offline_book "off-2" "1984" "George Orwell"
      "Dystopian social science fiction." "1949" "Sci-Fi" "#f3f4f6"
      "9780451524935" "Essential reading";
    offline_book "off-3" "Dune" "Frank Herbert"
      "Epic science fiction." "1965" "Sci-Fi" "#fed7aa"
      "9780441013593" "Masterpiece";
    offline_book "off-4" "Sapiens" "Yuval Noah Harari"
      "A brief history of humankind." "2011" "History" "#e0f2fe"
      "9780062316097" "Thought provoking"
  ].

Definition offline_review (id reviewerName : string) (rating : Z)
  (text date avatarColor : string) : JsVal :=
  JObj [("id", JStr id); ("reviewerName", JStr reviewerName);
        ("rating", num rating); ("text", JStr text); ("date", JStr date);
        ("avatarColor", JStr avatarColor)].

Definition offline_reviews : JsVal :=
  JArr [
    offline_review "rev-1" "Offline Reader" 5 "This book is a masterpiece!"
      "Today" "#3b82f6";
    offline_review "rev-2" "Bookworm" 4 "Really enjoyed the plot twists."
      "Yesterday" "#ef4444"
  ].

Section Service.
Context (rt : Runtime) (w : World).

(** [const API_KEY = import.meta.env.VITE_HF_TOKEN] *)
Definition API_KEY : option string := VITE_HF_TOKEN (env w).

Definition callLLM (systemPrompt userPrompt : string) : Async string :=
  if negb (present API_KEY) then throw (Error "No Fallback Key")
  else
    let request := {|
      hf_bearer := "Bearer " ++ key_text API_KEY;
      inputs := "<s>[INST] " ++ systemPrompt ++ " " ++ nl ++ nl ++ " "
                ++ userPrompt ++ " [/INST]"
    |} in
    emit (PostHf request) ;;;
    match fetch_hf w request with
    | FetchRejects => throw TypeError
    | HttpFailure _ => throw (Error "Fallback API Failed")
    | HttpSuccess None => throw SyntaxError
    | HttpSuccess (Some HfNull) => throw TypeError
    | HttpSuccess (Some (HfGenerated texts)) =>
        ret (match texts with
             | Some generated_text :: _ => generated_text
             | _ => ""
             end)
    end.

(** [text.match(/\[.*\]/s) || text.match(/\{.*\}/s)], then [JSON.parse] of
    the match; [null] when nothing matches or the parse throws. *)
Definition extractJSON (text : string) : JsVal :=
  let matched :=
    match match_between "["%char "]"%char text with
    | Some m => Some m
    | None => match_between "{"%char "}"%char text
    end in
  match matched with
  | Some m => match JSON_parse rt m with
              | Some v => v
              | None => JNull
              end
  | None => JNull
  end.

Definition searchBooks (query : string) : Async JsVal :=
  emit (EnterFallback OpSearchBooks) ;;;
  try_catch
    (let system := "You are a book search engine. Return a JSON array of 5 books matching the query. properties: title, author, description, publishedYear, coverColor (hex), isbn (13 digit)." in
     text <- callLLM system ("Search for: " ++ query) ;;
     let json := extractJSON text in
     if truthy json && isArray json then
       lift (array_map
               (fun b i =>
                  let id := "fallback-" ++ Z_to_string (Date_now w i) ++ "-"
                            ++ nat_to_string i in
                  match get b "categories" with
                  | Throw e => Throw e
                  | Ok categories =>
                      Ok (JObj (set_prop "isLocal" (JBool false)
                             (set_prop "categories"
                                (or_else categories (JArr [JStr "General"]))
                                (set_prop "id" (JStr id) (spread b)))))
                  end)
               json)
     else throw (Error "Parse failed"))
    (fun _ => ret offline_books).

Definition consultConcierge (userMessage : string) (history : list HistoryEntry)
  : Async JsVal :=
  emit (EnterFallback OpConsultConcierge) ;;;
  try_catch
    (let system := "You are a helpful book concierge named Suitcase (Backup Mode). Reply kindly. If asked for books, provide a JSON object with 'reply' (string) and 'suggestions' (array of books with title, author, isbn)." in
     text <- callLLM system userMessage ;;
     let json := extractJSON text in
     reply <- lift (if truthy json then get json "reply" else Ok json) ;;
     if truthy json && truthy reply then
       suggestions <- lift (get json "suggestions") ;;
       mapped <- lift (if isArray suggestions then
                         array_map
                           (fun s i =>
                              Ok (JObj (set_prop "categories" (JArr [])
                                     (set_prop "isLocal" (JBool false)
                                        (set_prop "coverColor" (JStr "#cbd5e1")
                                           (set_prop "id"
                                              (JStr ("fb-con-" ++ nat_to_string i))
                                              (spread s)))))))
                           suggestions
                       else Ok (JArr [])) ;;
       ret (JObj [("reply", reply); ("suggestions", mapped)])
     else ret (JObj [("reply", JStr text); ("suggestions", JArr [])]))
    (fun _ => ret offline_concierge).

Definition getOnboardingRecommendations (prefs : UserPreferences) : Async JsVal :=
  emit (EnterFallback OpGetOnboardingRecommendations) ;;;
  ret offline_recommendations.

Definition generateReviews (title author : string) : Async JsVal :=
  emit (EnterFallback OpGenerateReviews) ;;;
  ret offline_reviews.

Definition chatAboutBook (bookTitle userMessage : string)
  (history : list HistoryEntry) : Async JsVal :=
  emit (EnterFallback OpChatAboutBook) ;;;
  try_catch
    (let system := "You are a literary assistant discussing " ++ dq ++ bookTitle
                   ++ dq ++ ". Keep answers short." in
     text <- callLLM system userMessage ;;
     ret (JStr text))
    (fun _ => ret (JStr "I can't analyze this book right now due to connection issues.")).

Definition translateText (text : string) : Async JsVal :=
  emit (EnterFallback OpTranslateText) ;;;
  try_catch
    (let system := "Translate the following text to English." in
     translated <- callLLM system text ;;
     ret (JStr translated))
    (fun _ => ret (JStr "Translation service unavailable.")).

Definition explainContext (text bookTitle : string) : Async JsVal :=
  emit (EnterFallback OpExplainContext) ;;;
  try_catch
    (let system := "Explain the context of this text from " ++ dq ++ bookTitle
                   ++ dq ++ "." in
     explained <- callLLM system text ;;
     ret (JStr explained))
    (fun _ => ret (JStr "Context service unavailable.")).

(** The text of the [catch] branch of [generateBookContent]: a template
    filled with the chapter number and the title. *)
Definition content_unavailable (title : string) (chapter : JsNum) : string :=
  "
            <h3>Chapter " ++ Number_toString rt chapter ++ "</h3>
            <p>We are currently unable to generate the full text for <strong>" ++ title ++ "</strong> due to high demand on our AI services.</p>
            <p>Please try again later or upload a local PDF copy of this book to continue reading.</p>
        ".

(** [chapter] is optional and defaults to 1. *)
Definition generateBookContent (title author : string) (chapter_arg : option JsNum)
  : Async JsVal :=
  let chapter := match chapter_arg with Some c => c | None => Fin 1 end in
  emit (EnterFallback OpGenerateBookContent) ;;;
  try_catch
    (let system := "Write the detailed narrative for Chapter "
                   ++ Number_toString rt chapter ++ " of " ++ dq ++ title ++ dq
                   ++ " by " ++ author ++ ". 
        PUBLIC DOMAIN: Provide VERBATIM text. 
        COPYRIGHTED: Provide a detailed 2000-word adaptation. 
        Use HTML <p>. Do not trim content." in
     text <- callLLM system "Write the full chapter content." ;;
     ret (JStr (if String.eqb text "" then "<p>Content generation failed.</p>"
                else text)))
    (fun _ => ret (JStr (content_unavailable title chapter))).

Definition getBookSummary (title : string) : Async JsVal :=
  emit (EnterFallback OpGetBookSummary) ;;;
  try_catch
    (text <- callLLM ("Summarize " ++ dq ++ title ++ dq ++ ".") "Summary:" ;;
     ret (JStr text))
    (fun _ => ret (JStr "Summary unavailable offline.")).

Definition getBookRecap (title : string) : Async JsVal :=
  emit (EnterFallback OpGetBookRecap) ;;;
  try_catch
    (text <- callLLM ("Recap the plot of " ++ dq ++ title ++ dq ++ ".") "Recap:" ;;
     ret (JStr text))
    (fun _ => ret (JStr "Recap unavailable offline.")).

End Service.
End Fallback.

(** ** [groqService.ts] *)

Module Groq.
Import Text AsyncNotations.
#[local] Open Scope string_scope.

Definition default_maxTokens : Z := 2048.

Section Service.
Context (rt : Runtime) (w : World).

(** [const API_KEY = import.meta.env.VITE_GROQ_API_KEY] *)
Definition API_KEY : option string := VITE_GROQ_API_KEY (env w).

Definition callGroq (messages : list ChatMessage) (jsonMode : bool)
  (maxTokens : Z) : Async string :=
  if negb (present API_KEY) then throw (Error "No Groq API Key")
  else
    let request := {|
      groq_bearer := "Bearer " ++ key_text API_KEY;
      messages := messages;
      max_tokens := maxTokens;
      json_object_format := jsonMode
    |} in
    emit (PostGroq request) ;;;
    match fetch_groq w request with
    | FetchRejects => throw TypeError
    | HttpFailure None => throw SyntaxError
    | HttpFailure (Some error) =>
        throw (Error (match error_message error with
                      | Some m => if String.eqb m "" then "Groq API Error" else m
                      | None => "Groq API Error"
                      end))
    | HttpSuccess None => throw SyntaxError
    | HttpSuccess (Some NoChoices) => throw TypeError
    | HttpSuccess (Some (Choices contents)) =>
        ret (match contents with
             | Some c :: _ => c
             | _ => ""
             end)
    end.

Definition parseJSON (text : string) : Completion JsVal :=
  catch (parse rt text)
    (fun _ =>
       match match_fence text with
       | Some group1 =>
           catch (parse rt (trim group1)) (fun _ => Ok JNull)
       | None =>
           match match_json_span text with
           | Some jsonMatch => catch (parse rt jsonMatch) (fun _ => Ok JNull)
           | None => Ok JNull
           end
       end).

Definition search_item (item : JsVal) (index : nat) : Completion JsVal :=
  let id := "groq-search-" ++ Z_to_string (Date_now w index) ++ "-"
            ++ nat_to_string index in
  let! title := get item "title" in
  let! author := get item "author" in
  let! coverColor := get item "coverColor" in
  let! isbn := get item "isbn" in
  let! description := get item "description" in
  let! publishedYear := get item "publishedYear" in
  let! year_text := opt_toString rt publishedYear in
  let! categories := get item "categories" in
  Ok (JObj [("id", JStr id);
            ("title", or_else title (JStr "Unknown"));
            ("author", or_else author (JStr "Unknown"));
            ("coverColor", or_else coverColor (JStr "#e2e8f0"));
            ("isbn", isbn);
            ("description", or_else description (JStr "A great book."));
            ("isLocal", JBool false);
            ("publishedYear", or_else year_text (JStr "Unknown"));
            ("categories", or_else categories (JArr []));
            ("source", JStr "groq")]).

Definition searchBooks_messages (query : string) : list ChatMessage :=
  [ {| chat_role := System;
       content := "You are a knowledgeable book search engine. Return a JSON array of 6 real books matching the query.
Each book must have: title, author, description (2 sentences), publishedYear, categories (array), coverColor (pastel hex), isbn (valid ISBN-13).
Only return real, existing books. If the query makes no sense, return an empty array []." |};
    {| chat_role := User;
       content := "Search for books: " ++ dq ++ query ++ dq |} ].

Definition searchBooks (query : string) : Async JsVal :=
  if negb (present API_KEY) then Fallback.searchBooks rt w query
  else
    adopt (try_catch
      (response <- callGroq (searchBooks_messages query) true default_maxTokens ;;
       data <- lift (parseJSON response) ;;
       if negb (truthy data) || negb (isArray data)
       then ret (Fallback.searchBooks rt w query)
       else
         books <- lift (array_map search_item data) ;;
         ret (ret books))
      (fun error => ret (Fallback.searchBooks rt w query))).

Definition chat_history (n : nat) (history : list HistoryEntry)
  : list ChatMessage :=
  map (fun msg => {| chat_role := match role msg with
                                  | RoleUser => User
                                  | RoleModel => Assistant
                                  end;
                     content := text msg |})
      (last_n n history).

(** The item mapping shared, field for field, by [consultConcierge] and
    [getOnboardingRecommendations]; they differ in the id prefix and in the
    default cover colour. *)
Definition suggestion_item (prefix defaultColor : string) (item : JsVal)
  (index : nat) : Completion JsVal :=
  let id := prefix ++ Z_to_string (Date_now w index) ++ "-"
            ++ nat_to_string index in
  let! title := get item "title" in
  let! author := get item "author" in
  let! coverColor := get item "coverColor" in
  let! isbn := get item "isbn" in
  let! description := get item "description" in
  let! publishedYear := get item "publishedYear" in
  let! year_text := opt_toString rt publishedYear in
  let! categories := get item "categories" in
  let! matchReason := get item "matchReason" in
  Ok (JObj [("id", JStr id);
            ("title", title);
            ("author", author);
            ("coverColor", or_else coverColor (JStr defaultColor));
            ("isbn", isbn);
            ("description", description);
            ("isLocal", JBool false);
            ("publishedYear", year_text);
            ("categories", or_else categories (JArr []));
            ("matchReason", matchReason);
            ("source", JStr "groq")]).

Definition consultConcierge_messages (userMessage : string)
  (history : list HistoryEntry) : list ChatMessage :=
  ({| chat_role := System;
      content := "You are " ++ dq ++ "Suitcase" ++ dq ++ ", a warm and witty literary concierge. Have natural conversations about books.
Return JSON with: { " ++ dq ++ "reply" ++ dq ++ ": " ++ dq ++ "your conversational response" ++ dq ++ ", " ++ dq ++ "suggestions" ++ dq ++ ": [] }
If recommending books, include in suggestions array: title, author, description, publishedYear, categories, coverColor (pastel hex), isbn, matchReason.
Only suggest 1-3 books when relevant. Can have empty suggestions for casual chat." |}
   :: chat_history 6 history
   ++ [ {| chat_role := User; content := userMessage |} ])%list.

Definition consultConcierge (userMessage : string) (history : list HistoryEntry)
  : Async JsVal :=
  if negb (present API_KEY) then Fallback.consultConcierge rt w userMessage history
  else
    adopt (try_catch
      (response <- callGroq (consultConcierge_messages userMessage history) true
                     default_maxTokens ;;
       data <- lift (parseJSON response) ;;
       if negb (truthy data)
       then ret (ret (JObj [("reply", JStr response); ("suggestions", JArr [])]))
       else
         listed <- lift (get data "suggestions") ;;
         suggestions <- lift (array_map (suggestion_item "groq-concierge-" "#cbd5e1")
                                (or_else listed (JArr []))) ;;
         reply <- lift (get data "reply") ;;
         ret (ret (JObj [("reply", or_else reply (JStr "I'm thinking about that..."));
                         ("suggestions", suggestions)])))
      (fun error => ret (Fallback.consultConcierge rt w userMessage history))).

Definition getOnboardingRecommendations_messages (prefs : UserPreferences)
  : list ChatMessage :=
  let prompt := "Based on these preferences, recommend 4 books:
Genres: " ++ join ", " (genres prefs) ++ "
Reading Goal: " ++ readingGoal prefs ++ "

Return JSON array with: title, author, description, publishedYear, categories, coverColor (pastel hex), isbn, matchReason." in
  [ {| chat_role := System;
       content := "You are a book recommendation expert. Return only a JSON array of books." |};
    {| chat_role := User; content := prompt |} ].

Definition getOnboardingRecommendations (prefs : UserPreferences) : Async JsVal :=
  if negb (present API_KEY) then Fallback.getOnboardingRecommendations prefs
  else
    adopt (try_catch
      (response <- callGroq (getOnboardingRecommendations_messages prefs) true
                     default_maxTokens ;;
       data <- lift (parseJSON response) ;;
       if negb (truthy data) || negb (isArray data)
       then ret (Fallback.getOnboardingRecommendations prefs)
       else
         books <- lift (array_map (suggestion_item "groq-rec-" "#e2e8f0") data) ;;
         ret (ret books))
      (fun error => ret (Fallback.getOnboardingRecommendations prefs))).

Definition review_item (item : JsVal) (index : nat) : Completion JsVal :=
  let! reviewerName := get item "reviewerName" in
  let! rating := get item "rating" in
  let! lower := Math_max rt (num 1) (or_else rating (num 4)) in
  let! clamped := Math_min rt (num 5) (JNum lower) in
  let! text := get item "text" in
  let! date := get item "date" in
  let! avatarColor := get item "avatarColor" in
  Ok (JObj [("id", JStr ("groq-review-" ++ nat_to_string index));
            ("reviewerName", or_else reviewerName (JStr "Reader"));
            ("rating", JNum clamped);
            ("text", or_else text (JStr "Great book!"));
            ("date", or_else date (JStr "Recently"));
            ("avatarColor", or_else avatarColor (JStr "#3b82f6"))]).

Definition generateReviews_messages (title author : string) : list ChatMessage :=
  [ {| chat_role := System;
       content := "Generate 3 realistic book reviews. Return JSON array with: reviewerName, rating (1-5), text, date, avatarColor (hex)." |};
    {| chat_role := User;
       content := "Generate reviews for " ++ dq ++ title ++ dq ++ " by " ++ author |} ].

Definition generateReviews (title author : string) : Async JsVal :=
  if negb (present API_KEY) then Fallback.generateReviews title author
  else
    adopt (try_catch
      (response <- callGroq (generateReviews_messages title author) true
                     default_maxTokens ;;
       data <- lift (parseJSON response) ;;
       if negb (truthy data) || negb (isArray data)
       then ret (Fallback.generateReviews title author)
       else
         reviews <- lift (array_map review_item data) ;;
         ret (ret reviews))
      (fun error => ret (Fallback.generateReviews title author))).

Definition chatAboutBook_messages (bookTitle userMessage : string)
  (history : list HistoryEntry) : list ChatMessage :=
  ({| chat_role := System;
      content := "You are a literary companion discussing " ++ dq ++ bookTitle ++ dq ++ ". Be helpful, insightful, and engaging. Keep responses concise (2-3 paragraphs max)." |}
   :: chat_history 4 history
   ++ [ {| chat_role := User; content := userMessage |} ])%list.

Definition chatAboutBook (bookTitle userMessage : string)
  (history : list HistoryEntry) : Async JsVal :=
  if negb (present API_KEY) then Fallback.chatAboutBook w bookTitle userMessage history
  else
    adopt (try_catch
      (response <- callGroq (chatAboutBook_messages bookTitle userMessage history)
                     false 512 ;;
       ret (ret (JStr response)))
      (fun error => ret (Fallback.chatAboutBook w bookTitle userMessage history))).

Definition translateText_messages (text targetLang : string) : list ChatMessage :=
  [ {| chat_role := System;
       content := "You are a translator. Translate the text to " ++ targetLang ++ ". Return only the translation." |};
    {| chat_role := User; content := text |} ].

(** [targetLang] is optional and defaults to ["English"]. *)
Definition translateText (text : string) (targetLang_arg : option string)
  : Async JsVal :=
  let targetLang := match targetLang_arg with Some l => l | None => "English" end in
  if negb (present API_KEY) then Fallback.translateText w text
  else
    adopt (try_catch
      (response <- callGroq (translateText_messages text targetLang) false 512 ;;
       ret (ret (JStr response)))
      (fun error => ret (Fallback.translateText w text))).

Definition explainContext_messages (text bookTitle : string) : list ChatMessage :=
  [ {| chat_role := System;
       content := "Explain the context and meaning of this text from " ++ dq ++ bookTitle ++ dq ++ ". Be concise but insightful (2-3 paragraphs)." |};
    {| chat_role := User; content := text |} ].

Definition explainContext (text bookTitle : string) : Async JsVal :=
  if negb (present API_KEY) then Fallback.explainContext w text bookTitle
  else
    adopt (try_catch
      (response <- callGroq (explainContext_messages text bookTitle) false 512 ;;
       ret (ret (JStr response)))
      (fun error => ret (Fallback.explainContext w text bookTitle))).

Definition generateBookContent_messages (title author : string) (chapter : JsNum) : list ChatMessage :=
  [ {| chat_role := System;
       content := "Write the content for Chapter " ++ Number_toString rt chapter ++ " of " ++ dq ++ title ++ dq ++ " by " ++ author ++ ". 
CRITICAL INSTRUCTION:
1. If this book is in the PUBLIC DOMAIN (classic), you MUST provide the ORIGINAL, VERBATIM text for this chapter. Do not summarize, do not adapt. Give me the real text.
2. If it is copyrighted, write a detail-rich, scene-by-scene adaptation that is at least 2000 words long.
3. Allow the response to be very long. Do not cut it short.
4. Use HTML formatting (<h3>, <p>, <em>)." |};
    {| chat_role := User;
       content := "Write full Chapter " ++ Number_toString rt chapter ++ " verbatim if possible" |} ].

(** [chapter] is optional and defaults to 1. *)
Definition generateBookContent (title author : string) (chapter_arg : option JsNum)
  : Async JsVal :=
  let chapter := match chapter_arg with Some c => c | None => Fin 1 end in
  if negb (present API_KEY)
  then Fallback.generateBookContent rt w title author (Some chapter)
  else
    adopt (try_catch
      (response <- callGroq (generateBookContent_messages title author chapter)
                     false 6000 ;;
       if negb (String.eqb response "")
       then ret (ret (JStr response))
       else ret (Fallback.generateBookContent rt w title author (Some chapter)))
      (fun error => ret (Fallback.generateBookContent rt w title author (Some chapter)))).

Definition getBookSummary_messages (title : string) : list ChatMessage :=
  [ {| chat_role := System;
       content := "Provide a concise, engaging summary of this book in 2-3 paragraphs." |};
    {| chat_role := User; content := "Summarize " ++ dq ++ title ++ dq |} ].

Definition getBookSummary (title : string) : Async JsVal :=
  if negb (present API_KEY) then Fallback.getBookSummary w title
  else
    adopt (try_catch
      (response <- callGroq (getBookSummary_messages title) false 512 ;;
       ret (ret (JStr response)))
      (fun error => ret (Fallback.getBookSummary w title))).

Definition getBookRecap_messages (title : string) : list ChatMessage :=
  [ {| chat_role := System;
       content := "Provide a detailed plot recap of this book, covering major events and themes. 3-4 paragraphs." |};
    {| chat_role := User; content := "Recap " ++ dq ++ title ++ dq |} ].

Definition getBookRecap (title : string) : Async JsVal :=
  if negb (present API_KEY) then Fallback.getBookRecap w title
  else
    adopt (try_catch
      (response <- callGroq (getBookRecap_messages title) false 768 ;;
       ret (ret (JStr response)))
      (fun error => ret (Fallback.getBookRecap w title))).

Definition isGroqAvailable : bool := present API_KEY.

End Service.
End Groq.

(** ** [geminiService.ts] *)

Module Gemini.
Import Text AsyncNotations.
#[local] Open Scope string_scope.

Section Service.
Context (rt : Runtime) (w : World).

(** [process.env.API_KEY] *)
Definition API_KEY : option string := process_env_API_KEY (env w).

(** [response.text || fallbackText] *)
Definition text_or (response_text : option string) (fallbackText : string)
  : string :=
  match response_text with
  | Some t => if String.eqb t "" then fallbackText else t
  | None => fallbackText
  end.

(** [await ai.models.generateContent(...)], yielding [response.text] *)
Definition generate (prompt : string) (schema : option GeminiSchema)
  : Async (option string) :=
  let request := {| contents := prompt; responseSchema := schema |} in
  emit (CallGemini request) ;;;
  lift (generateContent w request).

Definition parseJSON (text : option string) : Completion JsVal :=
  match text with
  | None => Ok (JArr [])
  | Some text =>
      if String.eqb text "" then Ok (JArr [])
      else
        catch (parse rt text)
          (fun e =>
             let clean := trim (remove_fences text) in
             catch (parse rt clean) (fun e2 => Ok (JArr [])))
  end.

Definition search_item (item : JsVal) (index : nat) : Completion JsVal :=
  let id := "gemini-search-" ++ Z_to_string (Date_now w index) ++ "-"
            ++ nat_to_string index in
  let! title := get item "title" in
  let! author := get item "author" in
  let! coverColor := get item "coverColor" in
  let! isbn := get item "isbn" in
  let! description := get item "description" in
  let! publishedYear := get item "publishedYear" in
  let! categories := get item "categories" in
  Ok (JObj [("id", JStr id);
            ("title", title);
            ("author", author);
            ("coverColor", or_else coverColor (JStr "#E2E8F0"));
            ("isbn", isbn);
            ("description", description);
            ("isLocal", JBool false);
            ("publishedYear", publishedYear);
            ("categories", or_else categories (JArr []));
            ("fileUrl", JUndefined)]).

Definition searchBooks_prompt (query : string) : string :=
  ("
      You are the search engine for the world's largest digital library.
      The user is searching for: " ++ dq ++ query ++ dq ++ ".
      
      Instructions:
      1. If the query specifies a particular book title (e.g., " ++ dq ++ "The Great Gatsby" ++ dq ++ "), return that specific book first.
      2. If the query is a genre or topic (e.g., " ++ dq ++ "Sci-Fi" ++ dq ++ ", " ++ dq ++ "Cooking" ++ dq ++ "), return 6 popular, high-quality books in that category.
      3. If the query is nonsense, random characters, or matches no known books (e.g., " ++ dq ++ "asdfghjkl" ++ dq ++ "), return an EMPTY array [].
      4. CRITICAL: Provide a valid real-world 'isbn' (ISBN-13 preferred) for every book so we can display the cover.
      
      For 'description', write a compelling 2-sentence hook.
      For 'coverColor', generate a unique, aesthetic pastel hex code for each book as a fallback.
    ").

Definition searchBooks (query : string) : Async JsVal :=
  if negb (present API_KEY) then Fallback.searchBooks rt w query
  else
    adopt (try_catch
      (response_text <- generate (searchBooks_prompt query) (Some BookListSchema) ;;
       data <- lift (parseJSON response_text) ;;
       books <- lift (array_map search_item data) ;;
       ret (ret books))
      (fun error => ret (Fallback.searchBooks rt w query))).

(** The item mapping shared, field for field, by [consultConcierge] and
    [getOnboardingRecommendations]; they differ in the id prefix. *)
Definition suggestion_item (prefix : string) (item : JsVal) (index : nat)
  : Completion JsVal :=
  let id := prefix ++ Z_to_string (Date_now w index) ++ "-"
            ++ nat_to_string index in
  let! title := get item "title" in
  let! author := get item "author" in
  let! coverColor := get item "coverColor" in
  let! isbn := get item "isbn" in
  let! description := get item "description" in
  let! publishedYear := get item "publishedYear" in
  let! categories := get item "categories" in
  let! matchReason := get item "matchReason" in
  Ok (JObj [("id", JStr id);
            ("title", title);
            ("author", author);
            ("coverColor", or_else coverColor (JStr "#E2E8F0"));
            ("isbn", isbn);
            ("description", description);
            ("isLocal", JBool false);
            ("publishedYear", publishedYear);
            ("categories", or_else categories (JArr []));
            ("matchReason", matchReason);
            ("fileUrl", JUndefined)]).

Definition consultConcierge_prompt (userMessage : string) (history : list HistoryEntry) : string :=
  ("
            You are a sophisticated, warm, and highly knowledgeable literary concierge named " ++ dq ++ "Suitcase" ++ dq ++ ".
            Your goal is to have a natural conversation with the user to help them find the perfect book.
            
            Conversation History:
            " ++ JSON_stringify rt (last_n 6 history) ++ "
            
            Current User Input: " ++ dq ++ userMessage ++ dq ++ "
            
            Instructions:
            1. Respond conversationally to the user's input. Be witty and helpful.
            2. If the user is asking for books, feeling a certain way, or discussing genres, provide 1-3 highly curated recommendations.
            3. If the user is just saying hello or asking a general question, reply without suggestions.
            4. 'matchReason' should be a personalized sentence about why you picked this book for them.
        ").

Definition consultConcierge (userMessage : string) (history : list HistoryEntry)
  : Async JsVal :=
  if negb (present API_KEY) then Fallback.consultConcierge rt w userMessage history
  else
    adopt (try_catch
      (response_text <- generate (consultConcierge_prompt userMessage history) (Some ConciergeSchema) ;;
       data <- lift (parseJSON response_text) ;;
       listed <- lift (get data "suggestions") ;;
       suggestions <- lift (array_map (suggestion_item "concierge-")
                              (or_else listed (JArr []))) ;;
       reply <- lift (get data "reply") ;;
       ret (ret (JObj [("reply", or_else reply (JStr "I'm pondering that thought..."));
                       ("suggestions", suggestions)])))
      (fun e => ret (Fallback.consultConcierge rt w userMessage history))).

Definition getOnboardingRecommendations_prompt (prefs : UserPreferences) : string :=
  ("
        The user loves these genres: " ++ join ", " (genres prefs) ++ ".
        Their reading goal is: " ++ readingGoal prefs ++ ".
        
        Recommend 4 diverse, highly-rated books that fit this profile.
        Use soft, elegant colors for coverColor as fallback.
        CRITICAL: Provide a valid 'isbn' for each book for cover lookup.
      ").

Definition getOnboardingRecommendations (prefs : UserPreferences) : Async JsVal :=
  if negb (present API_KEY) then Fallback.getOnboardingRecommendations prefs
  else
    adopt (try_catch
      (response_text <- generate (getOnboardingRecommendations_prompt prefs) (Some RecommendationListSchema) ;;
       data <- lift (parseJSON response_text) ;;
       books <- lift (array_map (suggestion_item "gemini-onboarding-") data) ;;
       ret (ret books))
      (fun error => ret (Fallback.getOnboardingRecommendations prefs))).

Definition colors : list string :=
  ["#EF4444"; "#F59E0B"; "#10B981"; "#3B82F6"; "#8B5CF6"; "#EC4899"].

Definition review_item (item : JsVal) (index : nat) : Completion JsVal :=
  let! reviewerName := get item "reviewerName" in
  let! rating := get item "rating" in
  let! text := get item "text" in
  let! date := get item "date" in
  Ok (JObj [("id", JStr ("review-" ++ nat_to_string index));
            ("reviewerName", reviewerName);
            ("rating", rating);
            ("text", text);
            ("date", date);
            ("avatarColor", JStr (nth (index mod length colors) colors ""))]).

Definition generateReviews_prompt (title author : string) : string :=
  ("
      Generate 4 realistic user reviews for " ++ dq ++ title ++ dq ++ " by " ++ author ++ ".
      Style: Goodreads or Amazon reviews. 
      Mix of lengths. Some detailed, some short. 
      Vary the ratings (mostly positive but maybe one critical).
    ").

Definition generateReviews (title author : string) : Async JsVal :=
  if negb (present API_KEY) then Fallback.generateReviews title author
  else
    adopt (try_catch
      (response_text <- generate (generateReviews_prompt title author) (Some ReviewListSchema) ;;
       data <- lift (parseJSON response_text) ;;
       reviews <- lift (array_map review_item data) ;;
       ret (ret reviews))
      (fun error => ret (Fallback.generateReviews title author))).

Definition chatAboutBook_prompt (bookTitle userMessage : string)
  (chatHistory : list HistoryEntry) : string :=
  ("
            You are an expert literary scholar and reading companion.
            Context: The user is currently reading " ++ dq ++ bookTitle ++ dq ++ ".
            
            Previous Conversation:
            " ++ JSON_stringify rt (last_n 5 chatHistory) ++ "
            
            User Question: " ++ dq ++ userMessage ++ dq ++ "
            
            Answer concisely but deeply. If they ask about plot, be careful with spoilers unless asked.
        ").

Definition chatAboutBook (bookTitle userMessage : string)
  (chatHistory : list HistoryEntry) : Async JsVal :=
  if negb (present API_KEY)
  then Fallback.chatAboutBook w bookTitle userMessage chatHistory
  else
    adopt (try_catch
      (response_text <- generate (chatAboutBook_prompt bookTitle userMessage chatHistory) None ;;
       ret (ret (JStr (text_or response_text "I couldn't generate a response."))))
      (fun e => ret (Fallback.chatAboutBook w bookTitle userMessage chatHistory))).

Definition translateText_prompt (text targetLang : string) : string :=
  ("Translate the following literary text to " ++ targetLang ++ ". Preserve the tone and style: " ++ dq ++ text ++ dq).

(** [targetLang] is optional and defaults to ["English"]. *)
Definition translateText (text : string) (targetLang_arg : option string)
  : Async JsVal :=
  let targetLang := match targetLang_arg with Some l => l | None => "English" end in
  if negb (present API_KEY) then Fallback.translateText w text
  else
    adopt (try_catch
      (response_text <- generate (translateText_prompt text targetLang) None ;;
       ret (ret (JStr (text_or response_text "Translation failed."))))
      (fun e => ret (Fallback.translateText w text))).

Definition explainContext_prompt (text bookTitle : string) : string :=
  ("The user is reading " ++ dq ++ bookTitle ++ dq ++ " and highlighted this text: " ++ dq ++ text ++ dq ++ ".
        Explain this excerpt in simple terms. Provide necessary context, historical background, or define archaic words.").

Definition explainContext (text bookTitle : string) : Async JsVal :=
  if negb (present API_KEY) then Fallback.explainContext w text bookTitle
  else
    adopt (try_catch
      (response_text <- generate (explainContext_prompt text bookTitle) None ;;
       ret (ret (JStr (text_or response_text "Could not explain context."))))
      (fun e => ret (Fallback.explainContext w text bookTitle))).

Definition generateBookContent_prompt (title author : string) (chapter : JsNum) : string :=
  ("
          The user wants to read **Chapter " ++ Number_toString rt chapter ++ "** of the book " ++ dq ++ title ++ dq ++ " by " ++ author ++ ".
          
          Instructions:
          1. Write the FULL text for **Chapter " ++ Number_toString rt chapter ++ "**. 
          2. If it is a public domain book, provide the exact text.
          3. If it is copyrighted, write a very detailed, high-fidelity narrative adaptation that covers all events, dialogue, and descriptions of the chapter so the user can read it like a real book.
          4. Length: Write at least 800-1200 words. Do not be brief.
          5. Formatting: Use clean HTML. Use <h3> for the Chapter Title. Use <p> for paragraphs.
          
          Do NOT use markdown code blocks. Just return the HTML string.
        ").

(** [chapter] is optional and defaults to 1. *)
Definition generateBookContent (title author : string) (chapter_arg : option JsNum)
  : Async JsVal :=
  let chapter := match chapter_arg with Some c => c | None => Fin 1 end in
  if negb (present API_KEY)
  then Fallback.generateBookContent rt w title author (Some chapter)
  else
    adopt (try_catch
      (response_text <- generate (generateBookContent_prompt title author chapter) None ;;
       let text := text_or response_text "<p>Content unavailable.</p>" in
       ret (ret (JStr (trim (remove_html_fences text)))))
      (fun e => ret (Fallback.generateBookContent rt w title author (Some chapter)))).

Definition getBookSummary_prompt (title : string) : string :=
  ("Provide a comprehensive summary of the book " ++ dq ++ title ++ dq ++ ". Cover the main plot points, themes, and character arcs.").

Definition getBookSummary (title : string) : Async JsVal :=
  if negb (present API_KEY) then Fallback.getBookSummary w title
  else
    adopt (try_catch
      (response_text <- generate (getBookSummary_prompt title) None ;;
       ret (ret (JStr (text_or response_text "Summary unavailable."))))
      (fun e => ret (Fallback.getBookSummary w title))).

Definition getBookRecap_prompt (title : string) : string :=
  ("The user is reading " ++ dq ++ title ++ dq ++ " and has forgotten what happened previously. Provide a quick recap of the beginning/setup of the book to jog their memory.").

Definition getBookRecap (title : string) : Async JsVal :=
  if negb (present API_KEY) then Fallback.getBookRecap w title
  else
    adopt (try_catch
      (response_text <- generate (getBookRecap_prompt title) None ;;
       ret (ret (JStr (text_or response_text "Recap unavailable."))))
      (fun e => ret (Fallback.getBookRecap w title))).

(** Legacy entry point kept by the service. *)
Definition getMoodRecommendations (mood : string) : Async JsVal :=
  searchBooks mood.

End Service.
End Gemini.

(** ** [aiProviderService.ts] *)

(** The ten capability functions a service module exports. *)
Module Service.
Record t := {
  searchBooks : string -> Async JsVal;
  consultConcierge : string -> list HistoryEntry -> Async JsVal;
  getOnboardingRecommendations : UserPreferences -> Async JsVal;
  generateReviews : string -> string -> Async JsVal;
  chatAboutBook : string -> string -> list HistoryEntry -> Async JsVal;
  translateText : string -> option string -> Async JsVal;
  explainContext : string -> string -> Async JsVal;
  generateBookContent : string -> string -> option JsNum -> Async JsVal;
  getBookSummary : string -> Async JsVal;
  getBookRecap : string -> Async JsVal
}.
End Service.

(** One call of the capability surface, with its arguments. *)
Inductive Call :=
| SearchBooks (query : string)
| ConsultConcierge (userMessage : string) (history : list HistoryEntry)
| GetOnboardingRecommendations (prefs : UserPreferences)
| GenerateReviews (title author : string)
| ChatAboutBook (bookTitle userMessage : string) (history : list HistoryEntry)
| TranslateText (text : string) (targetLang : option string)
| ExplainContext (text bookTitle : string)
| GenerateBookContent (title author : string) (chapter : option JsNum)
| GetBookSummary (title : string)
| GetBookRecap (title : string).

Definition operation (c : Call) : Operation :=
  match c with
  | SearchBooks _ => OpSearchBooks
  | ConsultConcierge _ _ => OpConsultConcierge
  | GetOnboardingRecommendations _ => OpGetOnboardingRecommendations
  | GenerateReviews _ _ => OpGenerateReviews
  | ChatAboutBook _ _ _ => OpChatAboutBook
  | TranslateText _ _ => OpTranslateText
  | ExplainContext _ _ => OpExplainContext
  | GenerateBookContent _ _ _ => OpGenerateBookContent
  | GetBookSummary _ => OpGetBookSummary
  | GetBookRecap _ => OpGetBookRecap
  end.

Definition invoke (s : Service.t) (c : Call) : Async JsVal :=
  match c with
  | SearchBooks q => Service.searchBooks s q
  | ConsultConcierge m h => Service.consultConcierge s m h
  | GetOnboardingRecommendations p => Service.getOnboardingRecommendations s p
  | GenerateReviews t a => Service.generateReviews s t a
  | ChatAboutBook t m h => Service.chatAboutBook s t m h
  | TranslateText t l => Service.translateText s t l
  | ExplainContext t b => Service.explainContext s t b
  | GenerateBookContent t a c => Service.generateBookContent s t a c
  | GetBookSummary t => Service.getBookSummary s t
  | GetBookRecap t => Service.getBookRecap s t
  end.

Module AIProvider.
#[local] Open Scope string_scope.

Section Load.
Context (rt : Runtime) (w : World).

(** [import * as GroqService from "./groqService"] and its two siblings.
    A JavaScript call drops the arguments a function does not declare, so
    the fallback's [translateText] ignores the target language. *)
Definition GroqService : Service.t := {|
  Service.searchBooks := Groq.searchBooks rt w;
  Service.consultConcierge := Groq.consultConcierge rt w;
  Service.getOnboardingRecommendations := Groq.getOnboardingRecommendations rt w;
  Service.generateReviews := Groq.generateReviews rt w;
  Service.chatAboutBook := Groq.chatAboutBook w;
  Service.translateText := Groq.translateText w;
  Service.explainContext := Groq.explainContext w;
  Service.generateBookContent := Groq.generateBookContent rt w;
  Service.getBookSummary := Groq.getBookSummary w;
  Service.getBookRecap := Groq.getBookRecap w
|}.

Definition GeminiService : Service.t := {|
  Service.searchBooks := Gemini.searchBooks rt w;
  Service.consultConcierge := Gemini.consultConcierge rt w;
  Service.getOnboardingRecommendations := Gemini.getOnboardingRecommendations rt w;
  Service.generateReviews := Gemini.generateReviews rt w;
  Service.chatAboutBook := Gemini.chatAboutBook rt w;
  Service.translateText := Gemini.translateText w;
  Service.explainContext := Gemini.explainContext w;
  Service.generateBookContent := Gemini.generateBookContent rt w;
  Service.getBookSummary := Gemini.getBookSummary w;
  Service.getBookRecap := Gemini.getBookRecap w
|}.

Definition FallbackService : Service.t := {|
  Service.searchBooks := Fallback.searchBooks rt w;
  Service.consultConcierge := Fallback.consultConcierge rt w;
  Service.getOnboardingRecommendations := Fallback.getOnboardingRecommendations;
  Service.generateReviews := Fallback.generateReviews;
  Service.chatAboutBook := Fallback.chatAboutBook w;
  Service.translateText := fun text _ => Fallback.translateText w text;
  Service.explainContext := Fallback.explainContext w;
  Service.generateBookContent := Fallback.generateBookContent rt w;
  Service.getBookSummary := Fallback.getBookSummary w;
  Service.getBookRecap := Fallback.getBookRecap w
|}.

Definition getProvider : string :=
  if present (VITE_GROQ_API_KEY (env w)) then "groq"
  else if present (VITE_GEMINI_API_KEY (env w)) then "gemini"
  else "fallback".

(** [const provider = getProvider()], evaluated when the module loads *)
Definition provider : string := getProvider.

Definition activeService : Service.t :=
  if String.eqb provider "groq" then GroqService
  else if String.eqb provider "gemini" then GeminiService
  else FallbackService.

Definition searchBooks := Service.searchBooks activeService.
Definition consultConcierge := Service.consultConcierge activeService.
Definition getOnboardingRecommendations :=
  Service.getOnboardingRecommendations activeService.
Definition generateReviews := Service.generateReviews activeService.
Definition chatAboutBook := Service.chatAboutBook activeService.
Definition translateText := Service.translateText activeService.
Definition explainContext := Service.explainContext activeService.
Definition generateBookContent := Service.generateBookContent activeService.
Definition getBookSummary := Service.getBookSummary activeService.
Definition getBookRecap := Service.getBookRecap activeService.

(** The exported functions, gathered as one service. *)
Definition exports : Service.t := {|
  Service.searchBooks := searchBooks;
  Service.consultConcierge := consultConcierge;
  Service.getOnboardingRecommendations := getOnboardingRecommendations;
  Service.generateReviews := generateReviews;
  Service.chatAboutBook := chatAboutBook;
  Service.translateText := translateText;
  Service.explainContext := explainContext;
  Service.generateBookContent := generateBookContent;
  Service.getBookSummary := getBookSummary;
  Service.getBookRecap := getBookRecap
|}.

Definition getActiveProvider : string := provider.
Definition isAIAvailable : bool := negb (String.eqb provider "fallback").

End Load.
End AIProvider.

(** ** Vocabulary of the statements *)

(** The three service modules the selector can bind. *)
Inductive Adapter := GroqAdapter | GeminiAdapter | StaticFallback.

Definition service (rt : Runtime) (w : World) (a : Adapter) : Service.t :=
  match a with
  | GroqAdapter => AIProvider.GroqService rt w
  | GeminiAdapter => AIProvider.GeminiService rt w
  | StaticFallback => AIProvider.FallbackService rt w
  end.


(** If the computation yields a value, the value satisfies [P]. *)
Definition post {A} (P : A -> Prop) (m : Async A) : Prop :=
  forall t a, m = (t, Ok a) -> P a.

(** The result shapes declared by the capability functions:
    [Promise<Book[]>] and [Promise<Review[]>], [Promise<{ reply,
    suggestions }>], [Promise<string>]. *)
Inductive Shape := ListShape | ConciergeShape | TextShape.

Definition declared_shape (op : Operation) : Shape :=
  match op with
  | OpSearchBooks | OpGetOnboardingRecommendations | OpGenerateReviews => ListShape
  | OpConsultConcierge => ConciergeShape
  | _ => TextShape
  end.








(** What each operation of the static fallback answers when its own call to
    the inference endpoint fails. *)
Definition offline_response (rt : Runtime) (c : Call) : JsVal :=
  match c with
  | SearchBooks _ => Fallback.offline_books
  | ConsultConcierge _ _ => Fallback.offline_concierge
  | GetOnboardingRecommendations _ => Fallback.offline_recommendations
  | GenerateReviews _ _ => Fallback.offline_reviews
  | ChatAboutBook _ _ _ =>
      JStr "I can't analyze this book right now due to connection issues."
  | TranslateText _ _ => JStr "Translation service unavailable."
  | ExplainContext _ _ => JStr "Context service unavailable."
  | GenerateBookContent title _ chapter =>
      JStr (Fallback.content_unavailable rt title
              (match chapter with Some c => c | None => Fin 1 end))
  | GetBookSummary _ => JStr "Summary unavailable offline."
  | GetBookRecap _ => JStr "Recap unavailable offline."
  end.

(** A request to the inference endpoint fails: the fetch rejects, the status
    is not a success, or the body cannot be read. *)
Definition hf_fails (w : World) (r : HfRequest) : Prop :=
  match fetch_hf w r with
  | HttpSuccess (Some (HfGenerated _)) => False
  | _ => True
  end.

(** The static fallback cannot use its inference endpoint: the token is
    absent, or every request fails. *)
Definition hf_unavailable (w : World) : Prop :=
  present (VITE_HF_TOKEN (env w)) = false \/ forall r, hf_fails w r.


(** The events of a trace that belong to the static fallback. *)
Definition is_fallback_event (e : Event) : bool :=
  match e with
  | EnterFallback _ | PostHf _ => true
  | PostGroq _ | CallGemini _ => false
  end.

(** The normalizer as the specification words it: three attempts in order
    (the whole text, the content of a markdown fence, a bracketed span), each
    made when the ones before it failed, and the unparseable signal when all
    three fail. *)
Definition three_attempts (rt : Runtime) (signal : JsVal) (text : string) : JsVal :=
  match JSON_parse rt text with
  | Some v => v
  | None =>
      match (match Text.match_fence text with
             | Some body => JSON_parse rt (Text.trim body)
             | None => None
             end) with
      | Some v => v
      | None =>
          match (match Text.match_json_span text with
                 | Some span => JSON_parse rt span
                 | None => None
                 end) with
          | Some v => v
          | None => signal
          end
      end
  end.

(** The value of property [k] of [v], [undefined] when [v] has none. *)
Definition field (k : string) (v : JsVal) : JsVal :=
  match v with
  | JObj fields => match lookup k fields with Some x => x | None => JUndefined end
  | _ => JUndefined
  end.

(** A rating between 1 and 5. *)
Definition in_rating_range (n : JsNum) : bool :=
  match num_leb (Fin 1) n, num_leb n (Fin 5) with
  | Some true, Some true => true
  | _, _ => false
  end.

(** [Math.min(5, Math.max(1, r))] on numbers *)
Definition clamp (r : JsNum) : JsNum := num_min (Fin 5) (num_max (Fin 1) r).

(** No event of the trace belongs to the static fallback. *)
Definition live (t : list Event) : Prop := existsb is_fallback_event t = false.

(** What the book mappings of the adapters do to the optional fields of a
    parsed [item]: the cover colour and the category list of the returned
    [book] are the item's when truthy and a literal otherwise, so never
    undefined; the match reason is the item's, undefined when it has none. *)
Definition colour_and_categories_defaulted (defaultColor : string)
  (item book : JsVal) : Prop :=
  field "coverColor" book = or_else (field "coverColor" item) (JStr defaultColor)
  /\ field "categories" book = or_else (field "categories" item) (JArr [])
  /\ truthy (field "coverColor" book) = true
  /\ truthy (field "categories" book) = true.

Definition match_reason_copied (item book : JsVal) : Prop :=
  field "matchReason" book = field "matchReason" item.

(** The rating of a [review] the Groq module returns for a parsed [item]:
    the item's rating, or 4 when that is falsy, converted to a number and
    clamped.  The result is between 1 and 5 unless the conversion gives
    NaN, which it does not when the item's rating is a number or falsy. *)
Definition rating_clamped (rt : Runtime) (item review : JsVal) : Prop :=
  exists r,
    to_number rt (or_else (field "rating" item) (num 4)) = Ok r
    /\ field "rating" review = JNum (clamp r)
    /\ (r <> NaN -> in_rating_range (clamp r) = true)
    /\ ((exists n, field "rating" item = JNum n)
        \/ truthy (field "rating" item) = false ->
        in_rating_range (clamp r) = true)
    /\ (truthy (field "rating" item) = false -> field "rating" review = num 4).

Definition rating_copied (item review : JsVal) : Prop :=
  field "rating" review = field "rating" item.

(** The prompt the static fallback sends for a translation: the target is
    always English. *)
Definition english_translation_inputs (text : string) : string :=
  "<s>[INST] Translate the following text to English. " ++ Text.nl ++ Text.nl
  ++ " " ++ text ++ " [/INST]".

(** [translateText] of the Groq module takes the fallback path: the
    credential is absent, or the call to Groq throws. *)
Definition takes_fallback_path (w : World) (text : string)
  (target : option string) : Prop :=
  present (VITE_GROQ_API_KEY (env w)) = false
  \/ exists t e,
       Groq.callGroq w
         (Groq.translateText_messages text
            (match target with Some l => l | None => "English" end))
         false 512
       = (t, Throw e).

(** The titles of a list of books. *)
Definition titles (v : JsVal) : list JsVal :=
  match v with
  | JArr items => map (field "title") items
  | _ => []
  end.

(** The completion Groq returns for the request [r] holds [text] as the
    content of its first choice; [text] is empty when that choice has
    none. *)
Definition groq_reply (w : World) (r : GroqRequest) (text : string) : Prop :=
  exists choices,
    fetch_groq w r = HttpSuccess (Some (Choices choices))
    /\ text = match choices with Some c :: _ => c | _ => "" end.

(** The trace [t] is the one request the Groq module sends for the [chat]
    in JSON mode, and [items] is the array its normalizer reads from the
    reply to that request. *)
Definition parsed_from_groq (rt : Runtime) (w : World) (chat : list ChatMessage)
  (t : list Event) (items : list JsVal) : Prop :=
  exists r text,
    t = [PostGroq r]
    /\ messages r = chat
    /\ json_object_format r = true
    /\ groq_reply w r text
    /\ Groq.parseJSON rt text = Ok (JArr items).

(** The trace [t] is the one call the Gemini module makes for [prompt] with
    the response [schema], and [items] is the array its normalizer reads
    from the text of the response. *)
Definition parsed_from_gemini (rt : Runtime) (w : World) (prompt : string)
  (schema : GeminiSchema) (t : list Event) (items : list JsVal) : Prop :=
  exists q response_text,
    t = [CallGemini q]
    /\ contents q = prompt
    /\ responseSchema q = Some schema
    /\ generateContent w q = Ok response_text
    /\ Gemini.parseJSON rt response_text = Ok (JArr items).

(** [data.suggestions || []] *)
Definition listed_suggestions (data : JsVal) : JsVal :=
  or_else (field "suggestions" data) (JArr []).

(** A book without a match reason. *)
Definition no_match_reason (book : JsVal) : Prop :=
  field "matchReason" book = JUndefined.

(** The request the static fallback posts for a search. *)
Definition fallback_search_request (w : World) (query : string) : HfRequest := {|
  hf_bearer := "Bearer " ++ key_text (VITE_HF_TOKEN (env w));
  inputs := "<s>[INST] You are a book search engine. Return a JSON array of 5 books matching the query. properties: title, author, description, publishedYear, coverColor (hex), isbn (13 digit). "
            ++ Text.nl ++ Text.nl ++ " Search for: " ++ query ++ " [/INST]"
|}.

(** The text [callLLM] returns for the body of a reply: the generated text
    of its first entry, empty when that entry has none. *)
Definition generated_text (texts : list (option string)) : string :=
  match texts with
  | Some t :: _ => t
  | _ => ""
  end.

(** The book the search of the static fallback makes of the parsed [item]
    at position [index]: every property of the item is kept, and the
    identifier, the categories (the item's, or [General] when it has none)
    and the local flag are set. *)
Definition fallback_search_book (w : World) (item : JsVal) (index : nat)
  (book : JsVal) : Prop :=
  field "id" book
  = JStr ("fallback-" ++ Text.Z_to_string (Date_now w index) ++ "-"
          ++ Text.nat_to_string index)
  /\ field "isLocal" book = JBool false
  /\ field "categories" book
     = or_else (field "categories" item) (JArr [JStr "General"])
  /\ forall k, k <> "id" -> k <> "categories" -> k <> "isLocal" ->
       field k book = field k (JObj (Fallback.spread item)).

(** [null] and [undefined], the values with no properties to read. *)
Definition nullish (v : JsVal) : bool :=
  match v with
  | JNull | JUndefined => true
  | _ => false
  end.

(** [P] holds of the items of two lists position by position, the position
    counted from [i]. *)
Fixpoint Forall2_indexed {A B} (P : A -> nat -> B -> Prop) (i : nat)
  (l : list A) (l' : list B) : Prop :=
  match l, l' with
  | [], [] => True
  | x :: rest, y :: rest' => P x i y /\ Forall2_indexed P (S i) rest rest'
  | _, _ => False
  end.

(** Worlds used to evaluate the services. *)
Module Example.
#[local] Open Scope string_scope.

Definition no_credentials : Env := {|
  VITE_GROQ_API_KEY := None;
  VITE_GEMINI_API_KEY := None;
  VITE_HF_TOKEN := None;
  process_env_API_KEY := None
|}.

Definition groq_only : Env := {|
  VITE_GROQ_API_KEY := Some "gsk_live";
  VITE_GEMINI_API_KEY := None;
  VITE_HF_TOKEN := None;
  process_env_API_KEY := None
|}.

Definition gemini_only : Env := {|
  VITE_GROQ_API_KEY := None;
  VITE_GEMINI_API_KEY := Some "gm_live";
  VITE_HF_TOKEN := None;
  process_env_API_KEY := Some "gm_live"
|}.

Definition hf_only : Env := {|
  VITE_GROQ_API_KEY := None;
  VITE_GEMINI_API_KEY := None;
  VITE_HF_TOKEN := Some "hf_live";
  process_env_API_KEY := None
|}.

(** Every provider answers every request with the text [reply]. *)
Definition answering (e : Env) (reply : string) : World := {|
  env := e;
  fetch_groq := fun _ => HttpSuccess (Some (Choices [Some reply]));
  fetch_hf := fun _ => HttpSuccess (Some (HfGenerated [Some reply]));
  generateContent := fun _ => Ok (Some reply);
  Date_now := fun _ => 1700000000000%Z
|}.

(** No request gets through. *)
Definition offline (e : Env) : World := {|
  env := e;
  fetch_groq := fun _ => FetchRejects;
  fetch_hf := fun _ => FetchRejects;
  generateContent := fun _ => Throw TypeError;
  Date_now := fun _ => 1700000000000%Z
|}.

(** A fenced block that holds no JSON, followed by a JSON array. *)
Definition fenced_then_list : string :=
  Text.fence ++ "json" ++ Text.nl ++ "oops" ++ Text.nl ++ Text.fence ++ " [1]".

(** The JSON text of an array with one object that has only a title. *)
Definition one_title : string :=
  "[{" ++ Text.dq ++ "title" ++ Text.dq ++ ":" ++ Text.dq ++ "A" ++ Text.dq ++ "}]".

(** The JSON text of three reviews: rated 0, rated 9, rated by an object. *)
Definition odd_ratings : string :=
  "[{" ++ Text.dq ++ "rating" ++ Text.dq ++ ":0},{" ++ Text.dq ++ "rating"
  ++ Text.dq ++ ":9},{" ++ Text.dq ++ "rating" ++ Text.dq ++ ":{}}]".



(** The JSON text of an array whose only entry is [null]. *)
Definition null_entry : string := "[null]".

Definition some_preferences : UserPreferences := {|
  name := None;
  genres := ["Poetry"];
  readingGoal := "Learning";
  onboardingComplete := false;
  joinDate := 0
|}.

Definition other_preferences : UserPreferences := {|
  name := Some "Ada";
  genres := ["Sci-Fi"; "History"];
  readingGoal := "Adventure";
  onboardingComplete := true;
  joinDate := 1
|}.

End Example.

(** ** Vocabulary of the properties of the traces and of the identifiers *)

Definition is_groq_request (e : Event) : bool :=
  match e with PostGroq _ => true | _ => false end.

Definition is_gemini_request (e : Event) : bool :=
  match e with CallGemini _ => true | _ => false end.

Definition is_hf_request (e : Event) : bool :=
  match e with PostHf _ => true | _ => false end.

(** The number of events of a trace that satisfy [p]. *)
Definition requests (p : Event -> bool) (t : list Event) : nat :=
  length (filter p t).

(** A computation that sends no request and does not enter the static
    fallback. *)
Definition quiet {A} (m : Async A) : Prop := fst m = [].

(** [m] is quiet itself and yields either the promise [F] or a promise
    already resolved with a value that satisfies [Q]. *)
Definition settles {A} (F : Async A) (Q : A -> Prop) (m : Async (Async A))
  : Prop :=
  quiet m
  /\ forall p, snd m = Ok p -> p = F \/ exists a, p = AsyncNotations.ret a /\ Q a.

(** The identifiers of a list of books or of reviews. *)
Definition ids (v : JsVal) : list JsVal :=
  match v with
  | JArr items => map (field "id") items
  | _ => []
  end.

(** The identifiers of a list result, and those of the suggestions of a
    concierge answer, are pairwise distinct. *)
Definition distinct_ids (v : JsVal) : Prop :=
  NoDup (ids v) /\ NoDup (ids (field "suggestions" v)).

(** The names of the own properties of an object, in order. *)
Definition keys (v : JsVal) : list string :=
  match v with
  | JObj fields => map fst fields
  | _ => []
  end.


(** Texts a language model may answer with. *)
Module Sample.
#[local] Open Scope string_scope.


(** A list of two books, the first with a file location and an identifier
    of its own, followed by a list with a [null] entry. *)
Definition book_with_location : string :=
  "[{" ++ Text.dq ++ "title" ++ Text.dq ++ ":" ++ Text.dq ++ "A" ++ Text.dq
  ++ "," ++ Text.dq ++ "id" ++ Text.dq ++ ":" ++ Text.dq ++ "mine" ++ Text.dq
  ++ "," ++ Text.dq ++ "fileUrl" ++ Text.dq ++ ":" ++ Text.dq ++ "http://x/a.pdf"
  ++ Text.dq ++ "}]".


End Sample.

(** ** String builtins of the Open Library client *)

Module Builtins.
Import Text.
#[local] Open Scope string_scope.


(** [s.replace(pattern, '')] for a string pattern: the first occurrence of
    the pattern is removed. *)
Fixpoint remove_first (pattern s : string) : string :=
  match strip_prefix pattern s with
  | Some rest => rest
  | None =>
      match s with
      | EmptyString => EmptyString
      | String c r => String c (remove_first pattern r)
      end
  end.

(** The characters [encodeURIComponent] leaves as they are: letters, digits
    and [- _ . ! ~ * ' ( )]. *)
Definition is_unreserved (c : ascii) : bool :=
  let n := nat_of_ascii c in
  ((48 <=? n) && (n <=? 57) || (65 <=? n) && (n <=? 90)
   || (97 <=? n) && (n <=? 122)
   || (n =? 45) || (n =? 95) || (n =? 46) || (n =? 33) || (n =? 126)
   || (n =? 42) || (n =? 39) || (n =? 40) || (n =? 41))%nat.

Definition upper_hex_digit (n : nat) : string :=
  if (n <? 10)%nat then chr (48 + n) else chr (55 + n).

(** [encodeURIComponent] on a well-formed text: every other byte of its
    UTF-8 encoding becomes a percent sign and two upper-case hexadecimal
    digits. *)
Fixpoint encodeURIComponent (s : string) : string :=
  match s with
  | EmptyString => EmptyString
  | String c r =>
      (if is_unreserved c then String c EmptyString
       else "%" ++ upper_hex_digit (nat_of_ascii c / 16)
                ++ upper_hex_digit (nat_of_ascii c mod 16))
      ++ encodeURIComponent r
  end.

End Builtins.

(** ** [openLibraryService.ts] *)

Module OpenLibrary.
Import Text Builtins.
#[local] Open Scope string_scope.

Definition OPEN_LIBRARY_BASE : string := "https://openlibrary.org".
Definition COVERS_BASE : string := "https://covers.openlibrary.org".

(** [interface OpenLibrarySearchResult]; an optional field is [None] when
    the document does not have it. *)
Record OpenLibrarySearchResult := {
  key : string;
  title : string;
  author_name : option (list string);
  first_publish_year : option JsNum;
  cover_i : option JsNum;
  isbn : option (list string);
  subject : option (list string);
  language : option (list string);
  edition_count : option JsNum;
  has_fulltext : option bool;
  ia : option (list string);
  ratings_average : option JsNum;
  ratings_count : option JsNum
}.

(** The body of a search reply as [searchOpenLibrary] reads it: [data.docs],
    absent or a list of documents. *)
Record SearchData := { docs : option (list OpenLibrarySearchResult) }.

(** [description?: string | { value: string }] *)
Inductive Description :=
| DescriptionText (s : string)
| DescriptionObject (value : string).

(** [interface OpenLibraryWork] *)
Record OpenLibraryWork := {
  work_title : string;
  description : option Description;
  subjects : option (list string);
  covers : option (list JsNum)
}.

(** A file of an Internet Archive item as [getDownloadFormats] reads it:
    [file.format] and [file.name], either of which may be missing. *)
Record ArchiveFile := {
  format : option string;
  name : option string
}.

(** The body of a metadata reply: [data.files], absent or a list. *)
Record Metadata := { files : option (list ArchiveFile) }.

(** The network and the clock as the client sees them.  Each function of the
    client sends one GET request, to the address given to the oracle. *)
Record Net := {
  fetch_search : string -> Reply SearchData unit;
  fetch_work : string -> Reply OpenLibraryWork unit;
  fetch_metadata : string -> Reply Metadata unit;
  (** the value [Date.now()] returns while item [i] of a list is mapped *)
  Date_now : nat -> Z;
  (** the value of [Math.floor(Math.random() * n)] at the [i]-th draw of a
      call; the rounding of the product is the engine's *)
  Math_floor_random : nat -> nat -> Z
}.

(** [l[i]] for a computed index. *)
Definition at_index {A} (l : list A) (i : Z) : option A :=
  if (i <? 0)%Z then None else nth_error l (Z.to_nat i).

Definition colors : list string :=
  ["#e0f2fe"; "#dbeafe"; "#bfdbfe";
   "#f0fdf4"; "#dcfce7"; "#bbf7d0";
   "#fdf4ff"; "#fae8ff"; "#f5d0fe";
   "#fff1f2"; "#ffe4e6"; "#fecdd3";
   "#fefce8"; "#fef9c3"; "#fef08a";
   "#f5f5f4"; "#fafaf9"; "#e7e5e4"].

Inductive CoverType := TypeIsbn | TypeId.
Inductive CoverSize := SizeS | SizeM | SizeL.

Definition type_text (t : CoverType) : string :=
  match t with TypeIsbn => "isbn" | TypeId => "id" end.

Definition size_text (s : CoverSize) : string :=
  match s with SizeS => "S" | SizeM => "M" | SizeL => "L" end.

(** [type] defaults to ['id'] and [size] to ['L']. *)
Definition getCoverUrl (identifier : string) (type_arg : option CoverType)
  (size_arg : option CoverSize) : string :=
  let type := match type_arg with Some t => t | None => TypeId end in
  let size := match size_arg with Some s => s | None => SizeL end in
  COVERS_BASE ++ "/b/" ++ type_text type ++ "/" ++ identifier ++ "-"
  ++ size_text size ++ ".jpg".

Definition getReadableUrl (iaId : string) : string :=
  "https://archive.org/stream/" ++ iaId.

Section Client.
Context (rt : Runtime) (net : Net).

(** [colors[Math.floor(Math.random() * colors.length)]] at the given draw *)
Definition getRandomPastelColor (draw : nat) : JsVal :=
  match at_index colors (Math_floor_random net draw (length colors)) with
  | Some c => JStr c
  | None => JUndefined
  end.

Definition search_url (query : string) (limit : JsNum) : string :=
  OPEN_LIBRARY_BASE ++ "/search.json?q=" ++ encodeURIComponent query
  ++ "&limit=" ++ Number_toString rt limit
  ++ "&fields=key,title,author_name,first_publish_year,cover_i,isbn,subject,language,edition_count,has_fulltext,ia,ratings_average,ratings_count".

Definition optional_number (n : option JsNum) : JsVal :=
  match n with Some x => JNum x | None => JUndefined end.

(** The book built from document [item] at position [index]; [first_draw]
    is the number of random draws made before the list is mapped. *)
Definition book_of (first_draw : nat) (item : OpenLibrarySearchResult)
  (index : nat) : JsVal :=
  JObj [
    ("id", JStr ("ol-" ++ remove_first "/works/" (key item) ++ "-"
                 ++ Z_to_string (Date_now net index) ++ "-"
                 ++ nat_to_string index));
    ("title", JStr (title item));
    ("author", JStr (match author_name item with
                     | Some (first :: _) =>
                         if String.eqb first "" then "Unknown Author" else first
                     | _ => "Unknown Author"
                     end));
    ("coverColor", getRandomPastelColor (first_draw + index));
    ("coverImageUrl",
       match cover_i item with
       | Some n =>
           if num_truthy n
           then JStr (COVERS_BASE ++ "/b/id/" ++ Number_toString rt n ++ "-L.jpg")
           else JUndefined
       | None => JUndefined
       end);
    ("isbn", match isbn item with
             | Some (first :: _) => JStr first
             | _ => JUndefined
             end);
    ("description", JUndefined);
    ("isLocal", JBool false);
    ("publishedYear",
       JStr (match first_publish_year item with
             | Some y =>
                 if String.eqb (Number_toString rt y) "" then "Unknown"
                 else Number_toString rt y
             | None => "Unknown"
             end));
    ("categories",
       JArr (map JStr (firstn 5 (match subject item with
                                 | Some l => l
                                 | None => []
                                 end))));
    ("source", JStr "openLibrary");
    ("openLibraryId", JStr (key item));
    ("averageRating", optional_number (ratings_average item));
    ("ratingsCount", optional_number (ratings_count item));
    ("hasFullText", JBool (match has_fulltext item with
                           | Some b => b
                           | None => false
                           end));
    ("internetArchiveIds",
       JArr (map JStr (match ia item with Some l => l | None => [] end)))
  ].

Fixpoint books_from (first_draw index : nat)
  (results : list OpenLibrarySearchResult) : list JsVal :=
  match results with
  | [] => []
  | item :: rest =>
      book_of first_draw item index :: books_from first_draw (S index) rest
  end.

(** The body of the [try] of [searchOpenLibrary]. *)
Definition search_body (first_draw : nat) (query : string) (limit : JsNum)
  : Completion (list JsVal) :=
  match fetch_search net (search_url query limit) with
  | FetchRejects => Throw TypeError
  | HttpFailure _ => Throw (Error "Open Library search failed")
  | HttpSuccess None => Throw SyntaxError
  | HttpSuccess (Some data) =>
      let results := match docs data with Some l => l | None => [] end in
      Ok (books_from first_draw 0 results)
  end.

(** [searchOpenLibrary] after [first_draw] random draws; [limit] defaults
    to 20. *)
Definition searchOpenLibrary_after (first_draw : nat) (query : string)
  (limit_arg : option JsNum) : list JsVal :=
  let limit := match limit_arg with Some l => l | None => Fin 20 end in
  match search_body first_draw query limit with
  | Ok books => books
  | Throw error => []
  end.

Definition searchOpenLibrary (query : string) (limit_arg : option JsNum)
  : list JsVal :=
  searchOpenLibrary_after 0 query limit_arg.









(** [limit] defaults to 10. *)
Definition searchReadableBooks (query : string) (limit_arg : option JsNum)
  : list JsVal :=
  let limit := match limit_arg with Some l => l | None => Fin 10 end in
  let results := searchOpenLibrary (query ++ " has_fulltext:true") (Some limit) in
  filter (fun book => truthy (field "hasFullText" book)) results.



End Client.
End OpenLibrary.

(** ** [storageService.ts] *)

Module Storage.
Import Text.
#[local] Open Scope string_scope.

(** The browser as the service sees it: the items of [localStorage], in the
    order they were first set, and the number of times the page was asked to
    reload. *)
Record Browser := {
  localStorage : list (string * string);
  reloads : nat
}.

Fixpoint getItem (items : list (string * string)) (k : string) : option string :=
  match items with
  | [] => None
  | (k', v) :: rest => if String.eqb k k' then Some v else getItem rest k
  end.

Fixpoint put (k v : string) (items : list (string * string))
  : list (string * string) :=
  match items with
  | [] => [(k, v)]
  | (k', v') :: rest =>
      if String.eqb k k' then (k, v) :: rest else (k', v') :: put k v rest
  end.

Definition removeItem (k : string) (items : list (string * string))
  : list (string * string) :=
  filter (fun kv => negb (String.eqb k (fst kv))) items.

Section Service.
(** [fits items] tells whether the browser accepts [items] as the content of
    the storage; [setItem] throws when the quota is exceeded. *)
Context (rt : Runtime) (fits : list (string * string) -> bool).

Definition setItem (k v : string) (b : Browser) : Completion Browser :=
  let items := put k v (localStorage b) in
  if fits items
  then Ok {| localStorage := items; reloads := reloads b |}
  else Throw (Error "QuotaExceededError").

(** [JSON.stringify] on plain data; [None] stands for [undefined].  A
    property whose value is [undefined] is left out of an object, and
    [undefined], NaN and the infinities are written as [null] inside an
    array. *)
Fixpoint JSON_stringify_value (v : JsVal) : option string :=
  match v with
  | JUndefined => None
  | JNull => Some "null"
  | JBool b => Some (if b then "true" else "false")
  | JNum (Fin q) => Some (Number_toString rt (Fin q))
  | JNum _ => Some "null"
  | JStr s => Some (RefRuntime.json_quote s)
  | JArr items =>
      Some ("[" ++ join ","
                     (map (fun x => match JSON_stringify_value x with
                                    | Some s => s
                                    | None => "null"
                                    end) items)
            ++ "]")
  | JObj fields =>
      Some ("{" ++ join ","
                     (flat_map
                        (fun kv => match JSON_stringify_value (snd kv) with
                                   | Some s => [RefRuntime.json_quote (fst kv) ++ ":" ++ s]
                                   | None => []
                                   end) fields)
            ++ "}")
  end.

(** The text handed to [setItem]: the conversion of [undefined] to a string
    is the text [undefined]. *)
Definition stored_text (v : JsVal) : string :=
  match JSON_stringify_value v with
  | Some s => s
  | None => "undefined"
  end.

Definition getKey (userId key : string) : string :=
  "suitcase_" ++ userId ++ "_" ++ key.

(** [try { localStorage.setItem(k, text) } catch (e) { console.error(...) }] *)
Definition try_setItem (k : string) (text : Completion string) (b : Browser)
  : Browser :=
  match text with
  | Ok s => match setItem k s b with
            | Ok b' => b'
            | Throw e => b
            end
  | Throw e => b
  end.

(** [data ? JSON.parse(data) : fallback], with [fallback] again when the
    parse throws. *)
Definition parse_or (fallback : JsVal) (data : option string) : JsVal :=
  match data with
  | Some s =>
      if String.eqb s "" then fallback
      else match JSON_parse rt s with
           | Some v => v
           | None => fallback
           end
  | None => fallback
  end.

Definition savePreferences (userId : string) (prefs : JsVal) (b : Browser)
  : Browser :=
  try_setItem (getKey userId "prefs") (Ok (stored_text prefs)) b.

Definition loadPreferences (userId : string) (b : Browser) : JsVal :=
  parse_or JNull (getItem (localStorage b) (getKey userId "prefs")).

(** [{ ...book, fileUrl: book.isLocal ? undefined : book.fileUrl }] *)
Definition safe_book (book : JsVal) (index : nat) : Completion JsVal :=
  match get book "isLocal" with
  | Throw e => Throw e
  | Ok isLocal =>
      match (if truthy isLocal then Ok JUndefined else get book "fileUrl") with
      | Throw e => Throw e
      | Ok fileUrl => Ok (JObj (set_prop "fileUrl" fileUrl (Fallback.spread book)))
      end
  end.

Definition safeLibrary (library : list JsVal) : Completion (list JsVal) :=
  AsyncNotations.map_indexed safe_book library.

Definition saveLibrary (userId : string) (library : list JsVal) (b : Browser)
  : Browser :=
  try_setItem (getKey userId "library")
    (match safeLibrary library with
     | Ok safe => Ok (stored_text (JArr safe))
     | Throw e => Throw e
     end) b.

Definition loadLibrary (userId : string) (b : Browser) : JsVal :=
  parse_or (JArr []) (getItem (localStorage b) (getKey userId "library")).

Definition saveWallet (userId : string) (wallet : JsVal) (b : Browser)
  : Browser :=
  try_setItem (getKey userId "wallet") (Ok (stored_text wallet)) b.

Definition empty_wallet : JsVal := JObj [("balance", num 0); ("nfts", JArr [])].

Definition loadWallet (userId : string) (b : Browser) : JsVal :=
  parse_or empty_wallet (getItem (localStorage b) (getKey userId "wallet")).

Definition clearUserData (userId : string) (b : Browser) : Browser :=
  {| localStorage :=
       removeItem (getKey userId "wallet")
         (removeItem (getKey userId "library")
            (removeItem (getKey userId "prefs") (localStorage b)));
     reloads := S (reloads b) |}.

End Service.
End Storage.

(** ** [authService.ts] *)

Module Auth.
Import AsyncNotations.
#[local] Open Scope string_scope.

(** The fields of a Firebase user the service reads. *)
Record FirebaseUser := {
  uid : string;
  fb_email : option string;
  displayName : option string
}.

(** [interface User] of [types.ts] *)
Record User := {
  id : string;
  email : string;
  name : string
}.

(** What a call to the Firebase SDK does: it resolves, or it rejects with an
    error whose [code] is a string or is missing. *)
Inductive Outcome (A : Type) :=
| Resolves (a : A)
| Rejects (code : option string).
Arguments Resolves {A} a.
Arguments Rejects {A} code.

Record Firebase := {
  createUserWithEmailAndPassword : string -> string -> Outcome FirebaseUser;
  updateProfile : FirebaseUser -> string -> Outcome unit;
  signInWithEmailAndPassword : string -> string -> Outcome FirebaseUser;
  signOut : Outcome unit;
  currentUser : option FirebaseUser
}.

(** [a || b] on an optional text *)
Definition text_or (a : option string) (b : string) : string :=
  match a with
  | Some s => if String.eqb s "" then b else s
  | None => b
  end.

Definition mapFirebaseUser (fbUser : FirebaseUser) : User :=
  {| id := uid fbUser;
     email := text_or (fb_email fbUser) "";
     name := text_or (displayName fbUser) "Traveler" |}.

(** The [switch] compares with [===], so a missing code takes the default. *)
Definition cleanFirebaseError (code : option string) : string :=
  match code with
  | Some c =>
      if String.eqb c "auth/email-already-in-use"
      then "That email is already registered."
      else if String.eqb c "auth/invalid-email"
      then "Please enter a valid email address."
      else if String.eqb c "auth/user-not-found"
              || String.eqb c "auth/wrong-password"
              || String.eqb c "auth/invalid-credential"
      then "Invalid email or password."
      else if String.eqb c "auth/weak-password"
      then "Password should be at least 6 characters."
      else "Authentication failed. Please try again."
  | None => "Authentication failed. Please try again."
  end.

Section Service.
Context (fb : Firebase).

(** [authService.signup] *)
Definition signup (name email password : string) : Completion User :=
  match createUserWithEmailAndPassword fb email password with
  | Rejects code => Throw (Error (cleanFirebaseError code))
  | Resolves user =>
      match updateProfile fb user name with
      | Rejects code => Throw (Error (cleanFirebaseError code))
      | Resolves _ =>
          Ok (mapFirebaseUser {| uid := uid user;
                                 fb_email := fb_email user;
                                 displayName := Some name |})
      end
  end.

(** [authService.login] *)
Definition login (email password : string) : Completion User :=
  match signInWithEmailAndPassword fb email password with
  | Rejects code => Throw (Error (cleanFirebaseError code))
  | Resolves user => Ok (mapFirebaseUser user)
  end.

(** [authService.logout]: a failure of [signOut] is logged and dropped. *)
Definition logout : Completion unit :=
  match signOut fb with
  | Resolves _ => Ok tt
  | Rejects _ => Ok tt
  end.

(** [authService.getCurrentUser] *)
Definition getCurrentUser : option User :=
  match currentUser fb with
  | Some fbUser => Some (mapFirebaseUser fbUser)
  | None => None
  end.

End Service.
End Auth.

(** ** [BookCard.tsx] *)

Module BookCard.
Import Text.
#[local] Open Scope string_scope.
#[local] Open Scope Z_scope.

Section Card.
Context (rt : Runtime).

(** [book.coverImageUrl || (book.isbn ? `https://covers.openlibrary.org/b/isbn/${book.isbn}-L.jpg` : null)] *)
Definition coverUrl (book : JsVal) : Completion JsVal :=
  if truthy (field "coverImageUrl" book) then Ok (field "coverImageUrl" book)
  else if truthy (field "isbn" book) then
    match to_string rt (field "isbn" book) with
    | Ok isbn =>
        Ok (JStr ("https://covers.openlibrary.org/b/isbn/" ++ isbn ++ "-L.jpg"))
    | Throw e => Throw e
    end
  else Ok JNull.

End Card.

(** The [Number] nearest to an integer: exact up to 53 bits, rounded to the
    nearest value with a 53-bit significand (ties to even) above, and an
    infinity from 2^1024 on. *)
Definition Number_of_integer (n : Z) : JsNum :=
  let m := Z.abs n in
  let bits := Z.log2 m + 1 in
  if bits <=? 53 then Fin (inject_Z n)
  else
    let shift := bits - 53 in
    let q := Z.shiftr m shift in
    let rest := Z.land m (Z.ones shift) in
    let half := Z.shiftl 1 (shift - 1) in
    let q' := if (half <? rest) || ((half =? rest) && Z.odd q)
              then q + 1 else q in
    let r := Z.shiftl q' shift in
    if 2 ^ 1024 <=? r then (if n <? 0 then NegInf else PosInf)
    else Fin (inject_Z (Z.sgn n * r)).

(** The value of the longest prefix of hexadecimal digits, or [None] when
    there is no digit. *)
Fixpoint hex_prefix (s : string) (acc : option Z) : option Z :=
  match s with
  | EmptyString => acc
  | String c r =>
      match RefRuntime.hex_val c with
      | Some d =>
          hex_prefix r
            (Some (16 * (match acc with Some a => a | None => 0 end)
                   + Z.of_N d))
      | None => acc
      end
  end.

(** [parseInt(s, 16)]: leading white space, a sign and a prefix [0x] or
    [0X] are skipped, and the digits that follow are read; without a digit
    the result is NaN. *)
Definition parseInt16 (s : string) : JsNum :=
  let s1 := skip_spaces s in
  let (sign, s2) :=
    match s1 with
    | String c r =>
        if Ascii.eqb c "-" then (-1, r)
        else if Ascii.eqb c "+" then (1, r)
        else (1, s1)
    | EmptyString => (1, s1)
    end in
  let s3 :=
    match strip_prefix "0x" s2 with
    | Some r => r
    | None => match strip_prefix "0X" s2 with
              | Some r => r
              | None => s2
              end
    end in
  match hex_prefix s3 None with
  | Some mathInt => Number_of_integer (sign * mathInt)
  | None => NaN
  end.

(** [ToInt32], the conversion the bit operators apply to their operands. *)
Definition ToInt32 (x : JsNum) : Z :=
  match x with
  | Fin q =>
      let int := Z.quot (Qnum q) (Zpos (Qden q)) in
      let int32bit := int mod 2 ^ 32 in
      if 2 ^ 31 <=? int32bit then int32bit - 2 ^ 32 else int32bit
  | _ => 0
  end.

Definition lower_hex_digit (d : Z) : ascii :=
  ascii_of_nat (Z.to_nat (if d <? 10 then 48 + d else 87 + d)).

(** The last [k] hexadecimal digits of [n]. *)
Fixpoint hex_digits (k : nat) (n : Z) : string :=
  match k with
  | O => ""
  | S k' => hex_digits k' (n / 16) ++ String (lower_hex_digit (n mod 16)) ""
  end.

(** [n.toString(16)] for an integer [n] *)
Definition toString16 (n : Z) : string :=
  let m := Z.abs n in
  let digits := hex_digits (Z.to_nat (Z.log2 m / 4) + 1) m in
  if n <? 0 then "-" ++ digits else digits.

Fixpoint zeros (k : nat) : string :=
  match k with
  | O => ""
  | S k' => String "0" (zeros k')
  end.

(** [s.padStart(n, '0')] *)
Definition padStart (n : nat) (s : string) : string :=
  zeros (n - String.length s) ++ s.

(** [adjustColor(hex, percent)] for an integer [percent] (the card passes
    -20).  The sums are taken over the integers: a sum of the numbers
    differs from it only beyond 2^53, far outside the range 0..255 it is
    cut to.  A value without a [replace] method makes [hex.replace] throw,
    and the [catch] returns [hex]. *)
Definition adjustColor (hex : JsVal) (percent : Z) : JsVal :=
  match hex with
  | JStr h =>
      let num := ToInt32 (parseInt16 (Builtins.remove_first "#" h)) in
      let r := Z.min 255 (Z.max 0 (Z.shiftr num 16 + percent)) in
      let g := Z.min 255 (Z.max 0 (Z.land (Z.shiftr num 8) 255 + percent)) in
      let b := Z.min 255 (Z.max 0 (Z.land num 255 + percent)) in
      JStr ("#" ++ padStart 6
                     (toString16
                        (Z.lor (Z.lor (Z.shiftl r 16) (Z.shiftl g 8)) b)))
  | _ => hex
  end.

End BookCard.

(** ** [Onboarding.tsx] *)

(** The wizard that collects the preferences handed to
    [getOnboardingRecommendations].  React runs the handler of each click
    and of each change on the state the previous one left, so the component
    is a machine that steps on the actions of the user; a control takes an
    action only while it is rendered and enabled. *)
Module Onboarding.
Import Text.
#[local] Open Scope string_scope.

Definition GENRES : list string :=
  ["Sci-Fi"; "Mystery"; "Romance"; "History"; "Fantasy"; "Business";
   "Philosophy"; "Thriller"].

Record Goal := { goal_id : string; label : string; icon : string }.

(** The icons are emoji, given here by the bytes of their UTF-8 encoding. *)
Definition GOALS : list Goal :=
  [ {| goal_id := "relax"; label := "Relax & Escape";
       icon := chr 240 ++ chr 159 ++ chr 141 ++ chr 181 |};
    {| goal_id := "learn"; label := "Learn & Grow";
       icon := chr 240 ++ chr 159 ++ chr 167 ++ chr 160 |};
    {| goal_id := "adventure"; label := "Adventure";
       icon := chr 240 ++ chr 159 ++ chr 151 ++ chr 186 ++ chr 239 ++ chr 184
               ++ chr 143 |} ].

(** The four [useState] cells of the component. *)
Record State := {
  step : nat;
  selectedGenres : list string;
  selectedGoal : string;
  name : string
}.

Definition initial : State :=
  {| step := 1; selectedGenres := []; selectedGoal := ""; name := "" |}.

(** [l.includes(g)] *)
Definition includes (g : string) (l : list string) : bool :=
  existsb (String.eqb g) l.

Definition toggleGenre (g : string) (s : State) : State :=
  if includes g (selectedGenres s) then
    {| step := step s;
       selectedGenres := filter (fun item => negb (String.eqb item g))
                           (selectedGenres s);
       selectedGoal := selectedGoal s;
       name := name s |}
  else if (length (selectedGenres s) <? 3)%nat then
    {| step := step s;
       selectedGenres := (selectedGenres s ++ [g])%list;
       selectedGoal := selectedGoal s;
       name := name s |}
  else s.

Definition setStep (n : nat) (s : State) : State :=
  {| step := n; selectedGenres := selectedGenres s;
     selectedGoal := selectedGoal s; name := name s |}.

Definition setName (value : string) (s : State) : State :=
  {| step := step s; selectedGenres := selectedGenres s;
     selectedGoal := selectedGoal s; name := value |}.

Definition setSelectedGoal (value : string) (s : State) : State :=
  {| step := step s; selectedGenres := selectedGenres s;
     selectedGoal := value; name := name s |}.

(** [handleNext]: the next state and, when the wizard finishes, the
    preferences passed to [onComplete]; [now] is the value of [Date.now()]. *)
Definition handleNext (now : Z) (s : State) : State * option UserPreferences :=
  if (step s =? 1)%nat && negb (String.eqb (trim (name s)) "") then
    (setStep 2 s, None)
  else if (step s =? 2)%nat && (0 <? length (selectedGenres s))%nat then
    (setStep 3 s, None)
  else if (step s =? 3)%nat && negb (String.eqb (selectedGoal s) "") then
    (s, Some (Build_UserPreferences
                (Some (name s))       (* name *)
                (selectedGenres s)    (* genres *)
                (selectedGoal s)      (* readingGoal *)
                true                  (* onboardingComplete *)
                now))                 (* joinDate *)
  else (s, None).

(** What the user can do. *)
Inductive Action :=
| ChangeName (value : string)      (* types in the name field *)
| ClickGenre (genre : string)      (* clicks the button of a genre *)
| ClickGoal (goal : Goal)          (* clicks the button of a goal *)
| ClickNext.                       (* clicks [Next] or [Finish Setup] *)

(** The [disabled] attribute of the last button. *)
Definition next_disabled (s : State) : bool :=
  if (step s =? 1)%nat then String.eqb (trim (name s)) ""
  else if (step s =? 2)%nat then (length (selectedGenres s) =? 0)%nat
  else String.eqb (selectedGoal s) "".

Definition goal_eqb (a b : Goal) : bool :=
  String.eqb (goal_id a) (goal_id b) && String.eqb (label a) (label b)
  && String.eqb (icon a) (icon b).

(** The control of the action is on the page and enabled: the name field
    is rendered at step 1, the genre buttons at step 2, the goal buttons at
    step 3. *)
Definition rendered (s : State) (a : Action) : bool :=
  match a with
  | ChangeName _ => (step s =? 1)%nat
  | ClickGenre genre => (step s =? 2)%nat && includes genre GENRES
  | ClickGoal goal => (step s =? 3)%nat && existsb (goal_eqb goal) GOALS
  | ClickNext => negb (next_disabled s)
  end.

Definition dispatch (now : Z) (a : Action) (s : State)
  : State * option UserPreferences :=
  if rendered s a then
    match a with
    | ChangeName value => (setName value s, None)
    | ClickGenre genre => (toggleGenre genre s, None)
    | ClickGoal goal => (setSelectedGoal (label goal) s, None)
    | ClickNext => handleNext now s
    end
  else (s, None).

(** A session: the actions of the user in order, action [i] taken at time
    [clock i]; the result is the last state and every value passed to
    [onComplete]. *)
Fixpoint run (clock : nat -> Z) (i : nat) (actions : list Action) (s : State)
  : State * list UserPreferences :=
  match actions with
  | [] => (s, [])
  | a :: rest =>
      let '(s1, completed) := dispatch (clock i) a s in
      let '(s2, later) := run clock (S i) rest s1 in
      (s2, match completed with
           | Some prefs => prefs :: later
           | None => later
           end)
  end.

End Onboarding.

(** ** The earlier Gemini service

    The source keeps a second Gemini service after the Groq one.  It talks
    to the SDK directly, reads [process.env.API_KEY] only, has no static
    fallback, and its response schemas differ from those of the current
    service (a book has no ISBN), so its requests are kept apart.  The client
    is built once, when the module is loaded; the operations are modelled
    from the point where it exists. *)

Module LegacyGemini.
Import Text AsyncNotations.
#[local] Open Scope string_scope.

Inductive Schema :=
| BookListSchema              (* title, author, description, year, categories, colour *)
| MoodListSchema              (* the same with a review snippet and a match reason *)
| RecommendationListSchema    (* the same with a match reason *)
| ReviewListSchema.

(** The argument of [ai.models.generateContent]. *)
Record Request := {
  contents : string;
  responseSchema : option Schema
}.

Record Sdk := {
  (** [process.env.API_KEY] *)
  API_KEY : option string;
  (** [response.text] of the reply, or the exception the SDK throws *)
  generateContent : Request -> Completion (option string);
  (** the value [Date.now()] returns while item [i] of a list is mapped *)
  Date_now : nat -> Z
}.

(** An operation of the service: the requests it sends and how its promise
    settles. *)
Definition Calls (A : Type) : Type := list Request * Completion A.

Section Service.
Context (rt : Runtime) (sdk : Sdk).

(** [response.text || fallbackText] *)
Definition text_or (response_text : option string) (fallbackText : string)
  : string :=
  match response_text with
  | Some t => if String.eqb t "" then fallbackText else t
  | None => fallbackText
  end.

Definition parseJSON (text : option string) : Completion JsVal :=
  match text with
  | None => Ok (JArr [])
  | Some text =>
      if String.eqb text "" then Ok (JArr [])
      else
        catch (parse rt text)
          (fun e =>
             let clean := trim (remove_fences text) in
             catch (parse rt clean) (fun e2 => Ok (JArr [])))
  end.

(** The shape shared by the four list operations:
    [if (!process.env.API_KEY) return []; try { ...; return data.map(item) }
     catch (error) { return []; }] *)
Definition list_operation (prompt : string) (schema : Schema)
  (item : JsVal -> nat -> Completion JsVal) : Calls JsVal :=
  if negb (present (API_KEY sdk)) then ([], Ok (JArr []))
  else
    let request := {| contents := prompt; responseSchema := Some schema |} in
    ([request],
     catch (let! response_text := generateContent sdk request in
            let! data := parseJSON response_text in
            array_map item data)
           (fun error => Ok (JArr []))).

(** The shape shared by the text operations, which have no [try]:
    [if (!process.env.API_KEY) return missing; const response = await ...;
     return finish(response.text)] *)
Definition text_operation (missing prompt : string)
  (finish : option string -> string) : Calls JsVal :=
  if negb (present (API_KEY sdk)) then ([], Ok (JStr missing))
  else
    let request := {| contents := prompt; responseSchema := None |} in
    ([request],
     let! response_text := generateContent sdk request in
     Ok (JStr (finish response_text))).

Definition search_item (item : JsVal) (index : nat) : Completion JsVal :=
  let id := "gemini-search-" ++ Z_to_string (Date_now sdk index) ++ "-"
            ++ nat_to_string index in
  let! title := get item "title" in
  let! author := get item "author" in
  let! coverColor := get item "coverColor" in
  let! description := get item "description" in
  let! publishedYear := get item "publishedYear" in
  let! categories := get item "categories" in
  Ok (JObj [("id", JStr id);
            ("title", title);
            ("author", author);
            ("coverColor", or_else coverColor (JStr "#E2E8F0"));
            ("description", description);
            ("isLocal", JBool false);
            ("publishedYear", publishedYear);
            ("categories", or_else categories (JArr []));
            ("fileUrl", JUndefined)]).

Definition searchBooks_prompt (query : string) : string :=
  ("
      You are a digital librarian with access to the world's largest public domain library. 
      The user is searching for: " ++ dq ++ query ++ dq ++ ".
      Provide a list of 5 books that match this query. Prioritize public domain or open access classics.
      Ensure the description is catchy, about 30 words.
      The coverColor should be a valid, soft, premium hex code.
    ").

Definition searchBooks (query : string) : Calls JsVal :=
  list_operation (searchBooks_prompt query) BookListSchema search_item.

Definition mood_item (item : JsVal) (index : nat) : Completion JsVal :=
  let id := "gemini-mood-" ++ Z_to_string (Date_now sdk index) ++ "-"
            ++ nat_to_string index in
  let! title := get item "title" in
  let! author := get item "author" in
  let! coverColor := get item "coverColor" in
  let! description := get item "description" in
  let! publishedYear := get item "publishedYear" in
  let! categories := get item "categories" in
  let! reviewSnippet := get item "reviewSnippet" in
  let! matchReason := get item "matchReason" in
  Ok (JObj [("id", JStr id);
            ("title", title);
            ("author", author);
            ("coverColor", or_else coverColor (JStr "#E2E8F0"));
            ("description", description);
            ("isLocal", JBool false);
            ("publishedYear", publishedYear);
            ("categories", or_else categories (JArr []));
            ("reviewSnippet", reviewSnippet);
            ("matchReason", matchReason);
            ("fileUrl", JUndefined)]).

Definition getMoodRecommendations_prompt (mood : string) : string :=
  ("
      The user is in this mood/state: " ++ dq ++ mood ++ dq ++ ".
      Recommend 4 books that perfectly fit this mood.
      Act as an aggregator of online reviews (like Goodreads/NYT). 
      For each book, include a 'reviewSnippet' that summarizes the critical consensus.
      Include a 'matchReason' telling the user why it suits their " ++ dq ++ mood ++ dq ++ " mood.
      Use soft, elegant colors for coverColor.
    ").

Definition getMoodRecommendations (mood : string) : Calls JsVal :=
  list_operation (getMoodRecommendations_prompt mood) MoodListSchema mood_item.

Definition onboarding_item (item : JsVal) (index : nat) : Completion JsVal :=
  let id := "gemini-onboarding-" ++ Z_to_string (Date_now sdk index) ++ "-"
            ++ nat_to_string index in
  let! title := get item "title" in
  let! author := get item "author" in
  let! coverColor := get item "coverColor" in
  let! description := get item "description" in
  let! publishedYear := get item "publishedYear" in
  let! categories := get item "categories" in
  let! matchReason := get item "matchReason" in
  Ok (JObj [("id", JStr id);
            ("title", title);
            ("author", author);
            ("coverColor", or_else coverColor (JStr "#E2E8F0"));
            ("description", description);
            ("isLocal", JBool false);
            ("publishedYear", publishedYear);
            ("categories", or_else categories (JArr []));
            ("matchReason", matchReason);
            ("fileUrl", JUndefined)]).

Definition getOnboardingRecommendations_prompt (prefs : UserPreferences) : string :=
  ("
        The user loves these genres: " ++ join ", " (genres prefs) ++ ".
        Their reading goal is: " ++ readingGoal prefs ++ ".
        Recommend 4 classic books that fit this profile.
        Use soft, elegant colors for coverColor.
      ").

Definition getOnboardingRecommendations (prefs : UserPreferences) : Calls JsVal :=
  list_operation (getOnboardingRecommendations_prompt prefs)
    RecommendationListSchema onboarding_item.

Definition colors : list string :=
  ["#EF4444"; "#F59E0B"; "#10B981"; "#3B82F6"; "#8B5CF6"; "#EC4899"].

Definition review_item (item : JsVal) (index : nat) : Completion JsVal :=
  let! reviewerName := get item "reviewerName" in
  let! rating := get item "rating" in
  let! text := get item "text" in
  let! date := get item "date" in
  Ok (JObj [("id", JStr ("review-" ++ nat_to_string index));
            ("reviewerName", reviewerName);
            ("rating", rating);
            ("text", text);
            ("date", date);
            ("avatarColor", JStr (nth (index mod length colors) colors ""))]).

Definition generateReviews_prompt (title author : string) : string :=
  ("
      Generate 4 realistic user reviews for " ++ dq ++ title ++ dq ++ " by " ++ author ++ ".
      Style: Goodreads/Amazon. Mix of ratings.
    ").

Definition generateReviews (title author : string) : Calls JsVal :=
  list_operation (generateReviews_prompt title author) ReviewListSchema review_item.

Definition chatAboutBook_prompt (bookTitle userMessage : string)
  (chatHistory : list HistoryEntry) : string :=
  ("
        You are a helpful literary assistant.
        Context: User is reading " ++ dq ++ bookTitle ++ dq ++ ".
        History: " ++ JSON_stringify rt (last_n 5 chatHistory) ++ "
        User Question: " ++ dq ++ userMessage ++ dq ++ "
        
        Answer concisely and helpfully.
     ").

Definition chatAboutBook (bookTitle userMessage : string)
  (chatHistory : list HistoryEntry) : Calls JsVal :=
  text_operation "API Key missing."
    (chatAboutBook_prompt bookTitle userMessage chatHistory)
    (fun response_text => text_or response_text "I couldn't generate a response.").

Definition translateText_prompt (text targetLang : string) : string :=
  ("Translate the following text to " ++ targetLang ++ ": " ++ dq ++ text ++ dq).

(** [targetLang] is optional and defaults to ["English"]. *)
Definition translateText (text : string) (targetLang_arg : option string)
  : Calls JsVal :=
  let targetLang := match targetLang_arg with Some l => l | None => "English" end in
  text_operation "API Key missing" (translateText_prompt text targetLang)
    (fun response_text => text_or response_text "Translation failed.").

Definition explainContext_prompt (text bookTitle : string) : string :=
  ("Explain this excerpt from " ++ dq ++ bookTitle ++ dq ++ " in simple terms, providing necessary context: " ++ dq ++ text ++ dq).

Definition explainContext (text bookTitle : string) : Calls JsVal :=
  text_operation "API Key missing" (explainContext_prompt text bookTitle)
    (fun response_text => text_or response_text "Could not explain context.").

Definition generateBookContent_prompt (title : string) : string :=
  ("Write the first 600 words of the book " ++ dq ++ title ++ dq ++ ". Format it with HTML paragraphs <p>. Do not include markdown code blocks.").

(** [response.text?.replace(/```html|```/g, '') || "<p>Content unavailable.</p>"] *)
Definition generateBookContent (title : string) : Calls JsVal :=
  text_operation "Loading content..." (generateBookContent_prompt title)
    (fun response_text =>
       text_or (match response_text with
                | Some t => Some (remove_html_fences t)
                | None => None
                end) "<p>Content unavailable.</p>").

Definition getBookSummary_prompt (title : string) : string :=
  ("Provide a concise summary of the book " ++ dq ++ title ++ dq ++ ".").

Definition getBookSummary (title : string) : Calls JsVal :=
  text_operation "API Key missing" (getBookSummary_prompt title)
    (fun response_text => text_or response_text "Summary unavailable.").

Definition getBookRecap_prompt (title : string) : string :=
  ("The user is reading " ++ dq ++ title ++ dq ++ " and has forgotten what happened previously. Provide a quick recap of the first few chapters to jog their memory without spoiling the ending.").

Definition getBookRecap (title : string) : Calls JsVal :=
  text_operation "API Key missing" (getBookRecap_prompt title)
    (fun response_text => text_or response_text "Recap unavailable.").

End Service.
End LegacyGemini.

(** ** [Reader.tsx]: the highlights of a chapter *)

Module Reader.
Import Text.
#[local] Open Scope string_scope.

(** [interface Highlight] of [types.ts] *)
Record Highlight := {
  id : string;
  text : string;
  color : string
}.

(** The first occurrence of [pattern] in [s]: what stands before it and what
    stands after it.  The empty pattern occurs at the start. *)
Fixpoint find_first (pattern s : string) : option (string * string) :=
  match strip_prefix pattern s with
  | Some rest => Some ("", rest)
  | None =>
      match s with
      | EmptyString => None
      | String c r =>
          match find_first pattern r with
          | Some (before, after) => Some (String c before, after)
          | None => None
          end
      end
  end.

(** [s.includes(pattern)] *)
Definition includes (s pattern : string) : bool :=
  match find_first pattern s with
  | Some _ => true
  | None => false
  end.

(** The text a replacement template stands for when the pattern is a string:
    two dollar signs give one, a dollar sign with an ampersand the match,
    with a backtick what precedes the match, with an apostrophe what follows
    it.  There are no groups, so a dollar sign before anything else stands
    for itself. *)
Fixpoint GetSubstitution (matched before after template : string) : string :=
  match template with
  | EmptyString => EmptyString
  | String c r =>
      if Ascii.eqb c "$" then
        match r with
        | EmptyString => "$"
        | String d r' =>
            if Ascii.eqb d "$"
            then "$" ++ GetSubstitution matched before after r'
            else if Ascii.eqb d "&"
            then matched ++ GetSubstitution matched before after r'
            else if Ascii.eqb d "`"
            then before ++ GetSubstitution matched before after r'
            else if Ascii.eqb d "'"
            then after ++ GetSubstitution matched before after r'
            else "$" ++ GetSubstitution matched before after r
        end
      else String c (GetSubstitution matched before after r)
  end.

(** [s.replace(pattern, replacement)] for a string pattern: the first
    occurrence is replaced, and [s] is returned when there is none. *)
Definition replace (s pattern replacement : string) : string :=
  match find_first pattern s with
  | Some (before, after) =>
      before ++ GetSubstitution pattern before after replacement ++ after
  | None => s
  end.

(** The template [applyHighlightsToText] builds for a highlight. *)
Definition mark (h : Highlight) : string :=
  "<mark style=" ++ dq ++ "background-color: " ++ color h
  ++ "; color: black; border-radius: 2px; padding: 2px 0;" ++ dq ++ ">"
  ++ text h ++ "</mark>".

(** One round of the [forEach]. *)
Definition apply_highlight (markedText : string) (h : Highlight) : string :=
  if includes markedText (text h)
  then replace markedText (text h) (mark h)
  else markedText.

Definition applyHighlightsToText (html : string)
  (highlightsToApply : list Highlight) : string :=
  fold_left apply_highlight highlightsToApply html.

End Reader.

(** ** Vocabulary of the properties of the other services *)


(** The request to [url] is answered with a success status and the readable
    body [data]. *)
Definition fetch_search_succeeds (net : OpenLibrary.Net) (url : string)
  (data : OpenLibrary.SearchData) : Prop :=
  OpenLibrary.fetch_search net url = HttpSuccess (Some data).


(** The documents of a search reply. *)
Definition documents (data : OpenLibrary.SearchData)
  : list OpenLibrary.OpenLibrarySearchResult :=
  match OpenLibrary.docs data with
  | Some l => l
  | None => []
  end.

(** The document says that its full text is available. *)
Definition is_readable (item : OpenLibrary.OpenLibrarySearchResult) : bool :=
  match OpenLibrary.has_fulltext item with
  | Some b => b
  | None => false
  end.





(** An Open Library network used to evaluate the client. *)
Module SampleLibrary.
#[local] Open Scope string_scope.

Definition dune : OpenLibrary.OpenLibrarySearchResult := {|
  OpenLibrary.key := "/works/OL893415W";
  OpenLibrary.title := "Dune";
  OpenLibrary.author_name := Some ["Frank Herbert"];
  OpenLibrary.first_publish_year := Some (Fin 1965);
  OpenLibrary.cover_i := Some (Fin 11481354);
  OpenLibrary.isbn := Some ["9780441013593"];
  OpenLibrary.subject :=
    Some ["Fiction"; "Science fiction"; "Deserts"; "Ecology"; "Politics"; "Religion"];
  OpenLibrary.language := Some ["eng"];
  OpenLibrary.edition_count := Some (Fin 120);
  OpenLibrary.has_fulltext := Some true;
  OpenLibrary.ia := Some ["dune00herb"];
  OpenLibrary.ratings_average := Some (Fin (43 # 10));
  OpenLibrary.ratings_count := Some (Fin 1200)
|}.

(** A document with nothing but a key and a title. *)
Definition bare : OpenLibrary.OpenLibrarySearchResult := {|
  OpenLibrary.key := "/works/OL1W";
  OpenLibrary.title := "Untitled";
  OpenLibrary.author_name := None;
  OpenLibrary.first_publish_year := None;
  OpenLibrary.cover_i := None;
  OpenLibrary.isbn := None;
  OpenLibrary.subject := None;
  OpenLibrary.language := None;
  OpenLibrary.edition_count := None;
  OpenLibrary.has_fulltext := None;
  OpenLibrary.ia := None;
  OpenLibrary.ratings_average := None;
  OpenLibrary.ratings_count := None
|}.

Definition scan : OpenLibrary.ArchiveFile :=
  {| OpenLibrary.format := Some "EPUB"; OpenLibrary.name := Some "dune.pdf" |}.

Definition thumbnail : OpenLibrary.ArchiveFile :=
  {| OpenLibrary.format := Some "JPEG Thumb"; OpenLibrary.name := Some "dune.jpg" |}.

(** Every search is answered with the two documents, every work with a
    description object that holds an empty text, every item with the two
    files; the clock stands still and every draw gives 0. *)
Definition net : OpenLibrary.Net := {|
  OpenLibrary.fetch_search :=
    fun _ => HttpSuccess (Some {| OpenLibrary.docs := Some [dune; bare] |});
  OpenLibrary.fetch_work :=
    fun _ => HttpSuccess (Some {| OpenLibrary.work_title := "Dune";
                                  OpenLibrary.description :=
                                    Some (OpenLibrary.DescriptionObject "");
                                  OpenLibrary.subjects := None;
                                  OpenLibrary.covers := None |});
  OpenLibrary.fetch_metadata :=
    fun _ => HttpSuccess (Some {| OpenLibrary.files := Some [scan; thumbnail] |});
  OpenLibrary.Date_now := fun _ => 1700000000000%Z;
  OpenLibrary.Math_floor_random := fun _ _ => 0%Z
|}.

End SampleLibrary.

(** The three kinds of data the storage service keeps for a user, and what
    can be done to them. *)
Inductive Kind := Prefs | Library | Wallet.

(** The name of a kind, as [getKey] receives it. *)
Definition kind_name (k : Kind) : string :=
  match k with
  | Prefs => "prefs"
  | Library => "library"
  | Wallet => "wallet"
  end.

Inductive Write :=
| SavePreferences (prefs : JsVal)
| SaveLibrary (library : list JsVal)
| SaveWallet (wallet : JsVal)
| ClearUserData.

Definition load (rt : Runtime) (k : Kind) (userId : string) (b : Storage.Browser)
  : JsVal :=
  match k with
  | Prefs => Storage.loadPreferences rt userId b
  | Library => Storage.loadLibrary rt userId b
  | Wallet => Storage.loadWallet rt userId b
  end.

Definition write (rt : Runtime) (fits : list (string * string) -> bool)
  (userId : string) (w : Write) (b : Storage.Browser) : Storage.Browser :=
  match w with
  | SavePreferences prefs => Storage.savePreferences rt fits userId prefs b
  | SaveLibrary library => Storage.saveLibrary rt fits userId library b
  | SaveWallet wallet => Storage.saveWallet rt fits userId wallet b
  | ClearUserData => Storage.clearUserData userId b
  end.

(** [w] touches the data of kind [k]. *)
Definition touches (w : Write) (k : Kind) : bool :=
  match w, k with
  | SavePreferences _, Prefs | SaveLibrary _, Library | SaveWallet _, Wallet => true
  | ClearUserData, _ => true
  | _, _ => false
  end.

(** What a load answers when nothing usable is stored. *)
Definition nothing_stored (k : Kind) : JsVal :=
  match k with
  | Prefs => JNull
  | Library => JArr []
  | Wallet => Storage.empty_wallet
  end.

(** What [saveLibrary] stores for [book]: the book without its file location
    when it is local, the book as it is otherwise. *)
Definition stored_book_of (book stored : JsVal) : Prop :=
  field "fileUrl" stored
  = (if truthy (field "isLocal" book) then JUndefined else field "fileUrl" book)
  /\ forall k, k <> "fileUrl" ->
       field k stored = field k (JObj (Fallback.spread book)).

(** Data used to evaluate the storage service. *)
Module SampleData.
#[local] Open Scope string_scope.

Definition empty_browser : Storage.Browser :=
  {| Storage.localStorage := []; Storage.reloads := 0 |}.

Definition always (items : list (string * string)) : bool := true.
Definition never (items : list (string * string)) : bool := false.

Definition uploaded : JsVal :=
  JObj [("id", JStr "local-1"); ("title", JStr "Notes"); ("isLocal", JBool true);
        ("fileUrl", JStr "blob:http://localhost/1f3a")].

Definition online : JsVal :=
  JObj [("id", JStr "ol-1"); ("title", JStr "Dune"); ("isLocal", JBool false);
        ("fileUrl", JStr "https://archive.org/stream/dune00herb")].

Definition wallet : JsVal := JObj [("balance", num 150); ("nfts", JArr [JStr "ol-1"])].

End SampleData.

(** The sentences the authentication service shows for a failure. *)
Definition auth_messages : list string :=
  ["That email is already registered.";
   "Please enter a valid email address.";
   "Invalid email or password.";
   "Password should be at least 6 characters.";
   "Authentication failed. Please try again."]%string.

(** A Firebase backend used to evaluate the authentication service: it
    knows one account and refuses every other sign-in. *)
Module SampleFirebase.
#[local] Open Scope string_scope.

Definition ada : Auth.FirebaseUser :=
  {| Auth.uid := "u-1"; Auth.fb_email := Some "ada@example.org";
     Auth.displayName := None |}.

Definition backend : Auth.Firebase := {|
  Auth.createUserWithEmailAndPassword :=
    fun email password =>
      if String.eqb email "ada@example.org"
      then Auth.Rejects (Some "auth/email-already-in-use")
      else Auth.Resolves {| Auth.uid := "u-2"; Auth.fb_email := Some email;
                            Auth.displayName := None |};
  Auth.updateProfile := fun _ _ => Auth.Resolves tt;
  Auth.signInWithEmailAndPassword :=
    fun email password =>
      if String.eqb email "ada@example.org"
      then (if String.eqb password "analytical" then Auth.Resolves ada
            else Auth.Rejects (Some "auth/wrong-password"))
      else Auth.Rejects (Some "auth/user-not-found");
  Auth.signOut := Auth.Rejects None;
  Auth.currentUser := None
|}.

End SampleFirebase.

(** The preferences a finished wizard may hand over: a name that is not
    blank, between one and three different genres of the wizard's list, one
    of its three goals, and the completion flag. *)
Definition complete_preferences (p : UserPreferences) : Prop :=
  (exists n, name p = Some n /\ Text.trim n <> "")
  /\ (1 <= length (genres p) <= 3)%nat
  /\ NoDup (genres p)
  /\ incl (genres p) Onboarding.GENRES
  /\ In (readingGoal p) (map Onboarding.label Onboarding.GOALS)
  /\ onboardingComplete p = true.

(** What holds of the wizard at every moment. *)
Definition wizard_invariant (s : Onboarding.State) : Prop :=
  (1 <= Onboarding.step s <= 3)%nat
  /\ (length (Onboarding.selectedGenres s) <= 3)%nat
  /\ NoDup (Onboarding.selectedGenres s)
  /\ incl (Onboarding.selectedGenres s) Onboarding.GENRES
  /\ (2 <= Onboarding.step s -> Text.trim (Onboarding.name s) <> "")%nat
  /\ (Onboarding.step s = 3%nat -> Onboarding.selectedGenres s <> [])
  /\ (Onboarding.selectedGoal s = ""
      \/ In (Onboarding.selectedGoal s) (map Onboarding.label Onboarding.GOALS)).

(** A digit or one of the letters a to f. *)
Definition is_lower_hex (c : ascii) : bool :=
  let n := nat_of_ascii c in
  ((48 <=? n) && (n <=? 57) || (97 <=? n) && (n <=? 102))%nat.

(** A colour channel moved by [percent] and kept between 0 and 255. *)
Definition shade (channel percent : Z) : Z :=
  Z.min 255 (Z.max 0 (channel + percent)).

(** The channel two hexadecimal digits stand for. *)
Definition channel_of (high low : N) : Z := 16 * Z.of_N high + Z.of_N low.

(** The two lower-case hexadecimal digits of a channel. *)
Definition hex_pair (channel : Z) : string :=
  String (BookCard.lower_hex_digit (channel / 16))
    (String (BookCard.lower_hex_digit (channel mod 16)) "").

(** A text of six characters. *)
Definition six_digits (c1 c2 c3 c4 c5 c6 : ascii) : string :=
  String c1 (String c2 (String c3 (String c4 (String c5 (String c6 ""))))).

(** A text without a dollar sign. *)
Definition no_dollar (s : string) : Prop :=
  ~ In "$"%char (list_ascii_of_string s).

(** [s] has an occurrence of [pattern] after [before]. *)
Definition occurs_after (before pattern s : string) : Prop :=
  exists after, s = (before ++ pattern ++ after)%string.

(** ** Reasoning rules for asynchronous computations *)

Section AsyncRules.
Import AsyncNotations.
Context {A B : Type}.










End AsyncRules.

Lemma array_map_yields_array (f : JsVal -> nat -> Completion JsVal) (v r : JsVal) :
  AsyncNotations.array_map f v = Ok r -> exists items, r = JArr items.
Proof.
  destruct v; simpl; try discriminate.
  destruct (AsyncNotations.map_indexed f items) as [l | e]; [| discriminate].
  intros E. inversion E. exists l. reflexivity.
Qed.

(** ** The static fallback never rejects *)




(** ** The adapters never reject *)







(** ** Delegation to the static fallback *)

#[local] Ltac unfold_services :=
  cbn [invoke service AIProvider.GroqService AIProvider.GeminiService
       AIProvider.FallbackService
       Service.searchBooks Service.consultConcierge
       Service.getOnboardingRecommendations Service.generateReviews
       Service.chatAboutBook Service.translateText
       Service.explainContext Service.generateBookContent
       Service.getBookSummary Service.getBookRecap].

Lemma groq_without_key (rt : Runtime) (w : World) (c : Call) :
  present (VITE_GROQ_API_KEY (env w)) = false ->
  invoke (service rt w GroqAdapter) c = invoke (service rt w StaticFallback) c.
Proof.
  intros H. destruct c; unfold_services;
    unfold Groq.searchBooks, Groq.consultConcierge,
      Groq.getOnboardingRecommendations, Groq.generateReviews,
      Groq.chatAboutBook, Groq.translateText, Groq.explainContext,
      Groq.generateBookContent, Groq.getBookSummary, Groq.getBookRecap,
      Groq.API_KEY;
    rewrite H; reflexivity.
Qed.

Lemma gemini_without_key (rt : Runtime) (w : World) (c : Call) :
  present (process_env_API_KEY (env w)) = false ->
  invoke (service rt w GeminiAdapter) c = invoke (service rt w StaticFallback) c.
Proof.
  intros H. destruct c; unfold_services;
    unfold Gemini.searchBooks, Gemini.consultConcierge,
      Gemini.getOnboardingRecommendations, Gemini.generateReviews,
      Gemini.chatAboutBook, Gemini.translateText, Gemini.explainContext,
      Gemini.generateBookContent, Gemini.getBookSummary, Gemini.getBookRecap,
      Gemini.API_KEY;
    rewrite H; reflexivity.
Qed.



Lemma callLLM_throws (w : World) (systemPrompt userPrompt : string) :
  hf_unavailable w ->
  exists t e, Fallback.callLLM w systemPrompt userPrompt = (t, Throw e)
              /\ (present (VITE_HF_TOKEN (env w)) = false -> t = []).
Proof.
  intros U. unfold Fallback.callLLM, Fallback.API_KEY.
  destruct (present (VITE_HF_TOKEN (env w))) eqn:K; cbn [negb].
  - destruct U as [U | U]; [congruence |].
    match goal with |- context [PostHf ?r] => specialize (U r) end.
    unfold hf_fails in U. unfold AsyncNotations.bind, AsyncNotations.emit.
    destruct (fetch_hf w _) as [| b | [[| l] |]]; cbn;
      try (do 2 eexists; split; [reflexivity | discriminate]).
    contradiction.
  - do 2 eexists. split; [reflexivity | reflexivity].
Qed.

(** [try { await call; ... } catch { return fallback }] when the call
    throws after [t]. *)
Lemma adopt_catch_throw {A B} (t : list Event) (e : JsError)
  (k : B -> Async (Async A)) (p : Async A) :
  AsyncNotations.adopt
    (AsyncNotations.try_catch (AsyncNotations.bind (t, Throw e) k)
       (fun _ => AsyncNotations.ret p))
  = (t ++ fst p, snd p).
Proof. destruct p as [t2 r]. cbn. rewrite app_nil_r. reflexivity. Qed.

Lemma catch_throw {A B} (t : list Event) (e : JsError) (k : B -> Async A) (a : A) :
  AsyncNotations.try_catch (AsyncNotations.bind (t, Throw e) k)
    (fun _ => AsyncNotations.ret a)
  = (t, Ok a).
Proof. cbn. rewrite app_nil_r. reflexivity. Qed.



Lemma fallback_offline (rt : Runtime) (w : World) (c : Call) :
  hf_unavailable w ->
  snd (invoke (service rt w StaticFallback) c) = Ok (offline_response rt c)
  /\ (present (VITE_HF_TOKEN (env w)) = false ->
      fst (invoke (service rt w StaticFallback) c) = [EnterFallback (operation c)]).
Proof.
  intros U.
  destruct c; unfold_services;
    unfold Fallback.searchBooks, Fallback.consultConcierge,
      Fallback.getOnboardingRecommendations, Fallback.generateReviews,
      Fallback.chatAboutBook, Fallback.translateText, Fallback.explainContext,
      Fallback.generateBookContent, Fallback.getBookSummary, Fallback.getBookRecap;
    cbv zeta;
    try (split; [reflexivity | intros; reflexivity]);
    match goal with
    | |- context [Fallback.callLLM w ?s ?u] =>
        destruct (callLLM_throws w s u U) as (t & e & -> & T)
    end;
    rewrite catch_throw; cbn; (split; [reflexivity | intros K; rewrite (T K); reflexivity]).
Qed.


(** ** The live paths of the adapters *)

Lemma callGroq_resolved (w : World) (messages : list ChatMessage) (jsonMode : bool)
  (maxTokens : Z) (t : list Event) (text : string) :
  Groq.callGroq w messages jsonMode maxTokens = (t, Ok text) ->
  present (VITE_GROQ_API_KEY (env w)) = true /\ exists r, t = [PostGroq r].
Proof.
  unfold Groq.callGroq, Groq.API_KEY.
  destruct (present (VITE_GROQ_API_KEY (env w))); cbn [negb].
  - unfold AsyncNotations.bind, AsyncNotations.emit.
    destruct (fetch_groq w _) as [| [b |] | [[| l] |]]; cbn; intros E;
      inversion E; subst. split; [reflexivity | eexists; reflexivity].
  - discriminate.
Qed.

Lemma fallback_enters (rt : Runtime) (w : World) (c : Call) :
  exists t, fst (invoke (service rt w StaticFallback) c)
            = EnterFallback (operation c) :: t.
Proof.
  destruct c; unfold_services;
    unfold Fallback.searchBooks, Fallback.consultConcierge,
      Fallback.getOnboardingRecommendations, Fallback.generateReviews,
      Fallback.chatAboutBook, Fallback.translateText, Fallback.explainContext,
      Fallback.generateBookContent, Fallback.getBookSummary, Fallback.getBookRecap;
    cbv zeta; unfold AsyncNotations.bind at 1, AsyncNotations.emit;
    match goal with
    | |- context [let '(t2, r) := ?m in _] => destruct m as [t2 r]
    end; eexists; reflexivity.
Qed.

(** The three list operations of the Groq module are one program, up to the
    messages, the item mapping and the fallback they delegate to. *)
Section GroqListOperation.
Import AsyncNotations.
Context (rt : Runtime) (w : World) (messages : list ChatMessage)
        (item : JsVal -> nat -> Completion JsVal) (delegate : Async JsVal).

Lemma groq_list_mapped (t : list Event) (text : string) (items : list JsVal)
  (books : JsVal) :
  Groq.callGroq w messages true Groq.default_maxTokens = (t, Ok text) ->
  Groq.parseJSON rt text = Ok (JArr items) ->
  array_map item (JArr items) = Ok books ->
  (if negb (present (Groq.API_KEY w)) then delegate
   else
     adopt (try_catch
       (response <- Groq.callGroq w messages true Groq.default_maxTokens ;;
        data <- lift (Groq.parseJSON rt response) ;;
        if negb (truthy data) || negb (isArray data)
        then ret delegate
        else
          books <- lift (array_map item data) ;;
          ret (ret books))
       (fun error => ret delegate)))
  = (t, Ok books).
Proof.
  intros C P M. destruct (callGroq_resolved _ _ _ _ _ _ C) as [K _].
  unfold Groq.API_KEY. rewrite K. cbn [negb].
  rewrite C. unfold bind at 1. unfold lift, bind at 1.
  rewrite P. cbn [truthy isArray negb orb]. unfold bind at 1.
  rewrite M. cbn. rewrite !app_nil_r. reflexivity.
Qed.

Lemma groq_list_delegated (t : list Event) (text : string) (data : JsVal) :
  Groq.callGroq w messages true Groq.default_maxTokens = (t, Ok text) ->
  Groq.parseJSON rt text = Ok data ->
  truthy data && isArray data = false ->
  (if negb (present (Groq.API_KEY w)) then delegate
   else
     adopt (try_catch
       (response <- Groq.callGroq w messages true Groq.default_maxTokens ;;
        data <- lift (Groq.parseJSON rt response) ;;
        if negb (truthy data) || negb (isArray data)
        then ret delegate
        else
          books <- lift (array_map item data) ;;
          ret (ret books))
       (fun error => ret delegate)))
  = (t ++ fst delegate, snd delegate).
Proof.
  intros C P N. destruct (callGroq_resolved _ _ _ _ _ _ C) as [K _].
  unfold Groq.API_KEY. rewrite K. cbn [negb].
  rewrite C. unfold bind at 1. unfold lift, bind at 1.
  rewrite P.
  replace (negb (truthy data) || negb (isArray data)) with true
    by (destruct (truthy data), (isArray data); try reflexivity; discriminate N).
  destruct delegate as [t2 r]. cbn. rewrite !app_nil_r. reflexivity.
Qed.

End GroqListOperation.

(** The list operations of the Gemini module, likewise. *)
Section GeminiListOperation.
Import AsyncNotations.
Context (rt : Runtime) (w : World) (prompt : string) (schema : GeminiSchema)
        (item : JsVal -> nat -> Completion JsVal) (delegate : Async JsVal).

Lemma gemini_list_mapped (t : list Event) (text : option string) (data books : JsVal) :
  present (process_env_API_KEY (env w)) = true ->
  Gemini.generate w prompt (Some schema) = (t, Ok text) ->
  Gemini.parseJSON rt text = Ok data ->
  array_map item data = Ok books ->
  (if negb (present (Gemini.API_KEY w)) then delegate
   else
     adopt (try_catch
       (response_text <- Gemini.generate w prompt (Some schema) ;;
        data <- lift (Gemini.parseJSON rt response_text) ;;
        books <- lift (array_map item data) ;;
        ret (ret books))
       (fun error => ret delegate)))
  = (t, Ok books).
Proof.
  intros K C P M.
  unfold Gemini.API_KEY. rewrite K. cbn [negb].
  rewrite C. unfold bind at 1. unfold lift, bind at 1.
  rewrite P. unfold bind at 1.
  rewrite M. cbn. rewrite !app_nil_r. reflexivity.
Qed.

End GeminiListOperation.

Lemma generate_trace (w : World) (prompt : string) (schema : option GeminiSchema)
  (t : list Event) (r : Completion (option string)) :
  Gemini.generate w prompt schema = (t, r) -> exists q, t = [CallGemini q].
Proof.
  unfold Gemini.generate, AsyncNotations.bind, AsyncNotations.emit,
    AsyncNotations.lift.
  destruct (generateContent w _); intros E; inversion E; eexists; reflexivity.
Qed.

(** ** What a live result is made of *)

Lemma map_indexed_items (f : JsVal -> nat -> Completion JsVal) (items outs : list JsVal) :
  forall i, AsyncNotations.map_indexed_from f i items = Ok outs ->
  Forall2 (fun x y => exists index, f x index = Ok y) items outs.
Proof.
  revert outs. induction items as [| x rest IH]; intros outs i E; cbn in E.
  - inversion E. constructor.
  - destruct (f x i) as [y |] eqn:Fx; [| discriminate].
    destruct (AsyncNotations.map_indexed_from f (S i) rest) as [ys |] eqn:Fr;
      [| discriminate].
    inversion E. subst. constructor.
    + exists i. exact Fx.
    + exact (IH ys (S i) Fr).
Qed.

Lemma array_map_items (f : JsVal -> nat -> Completion JsVal) (data v : JsVal) :
  AsyncNotations.array_map f data = Ok v ->
  exists items outs,
    data = JArr items /\ v = JArr outs
    /\ Forall2 (fun x y => exists index, f x index = Ok y) items outs.
Proof.
  destruct data; cbn; try discriminate.
  unfold AsyncNotations.map_indexed.
  destruct (AsyncNotations.map_indexed_from f 0 items) as [outs |] eqn:E;
    [| discriminate].
  intros V. inversion V. exists items, outs.
  repeat split. exact (map_indexed_items f items outs 0 E).
Qed.

Lemma live_app (t1 t2 : list Event) : live (t1 ++ t2) -> live t1 /\ live t2.
Proof.
  unfold live. rewrite existsb_app. intros H.
  apply Bool.orb_false_iff in H. exact H.
Qed.

Lemma fallback_not_live (rt : Runtime) (w : World) (c : Call) :
  ~ live (fst (invoke (service rt w StaticFallback) c)).
Proof.
  destruct (fallback_enters rt w c) as [t E]. rewrite E. unfold live. cbn.
  discriminate.
Qed.

Section GroqListInversion.
Import AsyncNotations.
Context (rt : Runtime) (w : World) (messages : list ChatMessage)
        (item : JsVal -> nat -> Completion JsVal) (delegate : Async JsVal).
Hypothesis delegate_not_live : ~ live (fst delegate).

Lemma groq_list_live (t : list Event) (v : JsVal) :
  (if negb (present (Groq.API_KEY w)) then delegate
   else
     adopt (try_catch
       (response <- Groq.callGroq w messages true Groq.default_maxTokens ;;
        data <- lift (Groq.parseJSON rt response) ;;
        if negb (truthy data) || negb (isArray data)
        then ret delegate
        else
          books <- lift (array_map item data) ;;
          ret (ret books))
       (fun error => ret delegate))) = (t, Ok v) ->
  live t ->
  exists items outs,
    v = JArr outs
    /\ Forall2 (fun x y => exists index, item x index = Ok y) items outs.
Proof.
  destruct delegate as [td rd] eqn:D. cbn [fst] in delegate_not_live.
  destruct (negb (present (Groq.API_KEY w))).
  { intros E L. inversion E. subst. contradiction. }
  destruct (Groq.callGroq w messages true Groq.default_maxTokens) as [t1 [text | e]].
  2:{ cbn. rewrite app_nil_r. intros E L. inversion E. subst.
      apply live_app in L. destruct L. contradiction. }
  unfold bind at 1. unfold lift, bind at 1.
  destruct (Groq.parseJSON rt text) as [data | e].
  2:{ cbn. rewrite !app_nil_r. intros E L. inversion E. subst.
      apply live_app in L. destruct L. contradiction. }
  destruct (negb (truthy data) || negb (isArray data)).
  { cbn. rewrite !app_nil_r. intros E L. inversion E. subst.
    apply live_app in L. destruct L. contradiction. }
  unfold bind at 1.
  destruct (array_map item data) as [books | e] eqn:M.
  2:{ cbn. rewrite !app_nil_r. intros E L. inversion E. subst.
      apply live_app in L. destruct L. contradiction. }
  cbn. rewrite !app_nil_r. intros E L. inversion E. subst.
  destruct (array_map_items _ _ _ M) as (items & outs & _ & -> & F).
  exists items, outs. split; [reflexivity | exact F].
Qed.

End GroqListInversion.

Section GeminiListInversion.
Import AsyncNotations.
Context (rt : Runtime) (w : World) (prompt : string) (schema : GeminiSchema)
        (item : JsVal -> nat -> Completion JsVal) (delegate : Async JsVal).
Hypothesis delegate_not_live : ~ live (fst delegate).

Lemma gemini_list_live (t : list Event) (v : JsVal) :
  (if negb (present (Gemini.API_KEY w)) then delegate
   else
     adopt (try_catch
       (response_text <- Gemini.generate w prompt (Some schema) ;;
        data <- lift (Gemini.parseJSON rt response_text) ;;
        books <- lift (array_map item data) ;;
        ret (ret books))
       (fun error => ret delegate))) = (t, Ok v) ->
  live t ->
  exists items outs,
    v = JArr outs
    /\ Forall2 (fun x y => exists index, item x index = Ok y) items outs.
Proof.
  destruct delegate as [td rd] eqn:D. cbn [fst] in delegate_not_live.
  destruct (negb (present (Gemini.API_KEY w))).
  { intros E L. inversion E. subst. contradiction. }
  destruct (Gemini.generate w prompt (Some schema)) as [t1 [text | e]].
  2:{ cbn. rewrite app_nil_r. intros E L. inversion E. subst.
      apply live_app in L. destruct L. contradiction. }
  unfold bind at 1. unfold lift, bind at 1.
  destruct (Gemini.parseJSON rt text) as [data | e].
  2:{ cbn. rewrite !app_nil_r. intros E L. inversion E. subst.
      apply live_app in L. destruct L. contradiction. }
  unfold bind at 1.
  destruct (array_map item data) as [books | e] eqn:M.
  2:{ cbn. rewrite !app_nil_r. intros E L. inversion E. subst.
      apply live_app in L. destruct L. contradiction. }
  cbn. rewrite !app_nil_r. intros E L. inversion E. subst.
  destruct (array_map_items _ _ _ M) as (items & outs & _ & -> & F).
  exists items, outs. split; [reflexivity | exact F].
Qed.

End GeminiListInversion.

(** ** The item mappings *)

Lemma or_else_truthy (a d : JsVal) : truthy d = true -> truthy (or_else a d) = true.
Proof. intros H. unfold or_else. destruct (truthy a) eqn:T; assumption. Qed.

Lemma get_is_field (item v : JsVal) (k : string) :
  get item k = Ok v -> v = field k item.
Proof. destruct item; cbn; intros E; inversion E; reflexivity. Qed.

#[local] Ltac invert_item :=
  repeat match goal with
         | H : context [get ?i ?k] |- _ =>
             let v := fresh "v" in
             let E := fresh "E" in
             destruct (get i k) as [v |] eqn:E; cbn in H;
             [apply get_is_field in E; subst v | discriminate H]
         | H : context [opt_toString ?rt ?x] |- _ =>
             destruct (opt_toString rt x); cbn in H; [| discriminate H]
         end.

Lemma groq_search_item_defaults (rt : Runtime) (w : World) (item book : JsVal)
  (index : nat) :
  Groq.search_item rt w item index = Ok book ->
  colour_and_categories_defaulted "#e2e8f0" item book.
Proof.
  unfold Groq.search_item. cbv zeta. unfold AsyncNotations.and_then.
  intros H. invert_item. inversion H. subst.
  unfold colour_and_categories_defaulted. cbn.
  repeat split; try reflexivity; apply or_else_truthy; reflexivity.
Qed.

Lemma groq_suggestion_item_defaults (rt : Runtime) (w : World)
  (prefix color : string) (item book : JsVal) (index : nat) :
  color <> "" ->
  Groq.suggestion_item rt w prefix color item index = Ok book ->
  colour_and_categories_defaulted color item book /\ match_reason_copied item book.
Proof.
  unfold Groq.suggestion_item. cbv zeta. unfold AsyncNotations.and_then.
  intros N H. invert_item. inversion H. subst.
  unfold colour_and_categories_defaulted, match_reason_copied. cbn.
  repeat split; try reflexivity; apply or_else_truthy; try reflexivity.
  cbn. apply String.eqb_neq in N. rewrite N. reflexivity.
Qed.

Lemma gemini_search_item_defaults (w : World) (item book : JsVal) (index : nat) :
  Gemini.search_item w item index = Ok book ->
  colour_and_categories_defaulted "#E2E8F0" item book.
Proof.
  unfold Gemini.search_item. cbv zeta. unfold AsyncNotations.and_then.
  intros H. invert_item. inversion H. subst.
  unfold colour_and_categories_defaulted. cbn.
  repeat split; try reflexivity; apply or_else_truthy; reflexivity.
Qed.

Lemma gemini_suggestion_item_defaults (w : World) (prefix : string)
  (item book : JsVal) (index : nat) :
  Gemini.suggestion_item w prefix item index = Ok book ->
  colour_and_categories_defaulted "#E2E8F0" item book
  /\ match_reason_copied item book.
Proof.
  unfold Gemini.suggestion_item. cbv zeta. unfold AsyncNotations.and_then.
  intros H. invert_item. inversion H. subst.
  unfold colour_and_categories_defaulted, match_reason_copied. cbn.
  repeat split; try reflexivity; apply or_else_truthy; reflexivity.
Qed.

Lemma clamp_in_range (r : JsNum) : r <> NaN -> in_rating_range (clamp r) = true.
Proof.
  intros N. destruct r as [ | | q | ]; try reflexivity; [contradiction |].
  unfold clamp, num_max. cbn [num_leb].
  destruct (Qle_bool 1 q) eqn:A.
  - unfold num_min. cbn [num_leb].
    destruct (Qle_bool 5 q) eqn:B; [reflexivity |].
    unfold in_rating_range. cbn [num_leb]. rewrite A.
    assert (C : Qle_bool q 5 = true).
    { apply Qle_bool_iff. apply Qlt_le_weak. apply Qnot_le_lt.
      intros H. apply Qle_bool_iff in H. congruence. }
    rewrite C. reflexivity.
  - reflexivity.
Qed.

Lemma groq_review_item_rating (rt : Runtime) (item review : JsVal) (index : nat) :
  Groq.review_item rt item index = Ok review -> rating_clamped rt item review.
Proof.
  unfold Groq.review_item, AsyncNotations.and_then.
  destruct (get item "reviewerName") as [reviewerName |] eqn:E1; [| discriminate].
  destruct (get item "rating") as [rating |] eqn:E2; [| discriminate].
  apply get_is_field in E2. subst rating.
  unfold Math_max. cbn [to_number num].
  destruct (to_number rt (or_else (field "rating" item) (num 4))) as [r |] eqn:T;
    [| discriminate].
  unfold Math_min. cbn [to_number num].
  destruct (get item "text"); [| discriminate].
  destruct (get item "date"); [| discriminate].
  destruct (get item "avatarColor"); [| discriminate].
  intros H. inversion H. subst review. clear H.
  exists r. repeat match goal with |- _ /\ _ => split end.
  - exact T.
  - reflexivity.
  - apply clamp_in_range.
  - intros [[n F] | F]; apply clamp_in_range; unfold or_else in T.
    + rewrite F in T. cbn in T. destruct (num_truthy n) eqn:Tn.
      * inversion T. subst r. destruct n; discriminate.
      * inversion T. discriminate.
    + rewrite F in T. inversion T. discriminate.
  - intros F. unfold or_else in T. rewrite F in T. inversion T. subst r.
    reflexivity.
Qed.

Lemma gemini_review_item_rating (item review : JsVal) (index : nat) :
  Gemini.review_item item index = Ok review -> rating_copied item review.
Proof.
  unfold Gemini.review_item, AsyncNotations.and_then.
  destruct (get item "reviewerName"); [| discriminate].
  destruct (get item "rating") as [rating |] eqn:E2; [| discriminate].
  apply get_is_field in E2. subst rating.
  destruct (get item "text"); [| discriminate].
  destruct (get item "date"); [| discriminate].
  intros H. inversion H. reflexivity.
Qed.

(** ** The translation path *)

Lemma callGroq_trace (w : World) (messages : list ChatMessage) (jsonMode : bool)
  (maxTokens : Z) :
  fst (Groq.callGroq w messages jsonMode maxTokens) = []
  \/ exists r, fst (Groq.callGroq w messages jsonMode maxTokens) = [PostGroq r].
Proof.
  unfold Groq.callGroq.
  destruct (negb (present (Groq.API_KEY w))); [left; reflexivity | right].
  match goal with |- context [PostGroq ?r] => exists r end.
  unfold AsyncNotations.bind, AsyncNotations.emit.
  destruct (fetch_groq w _) as [| [b |] | [[| l] |]]; reflexivity.
Qed.

Lemma groq_translate_on_fallback_path (w : World) (text : string)
  (target : option string) :
  takes_fallback_path w text target ->
  exists prefix,
    Groq.translateText w text target
    = (prefix ++ fst (Fallback.translateText w text),
       snd (Fallback.translateText w text))
    /\ (prefix = [] \/ exists r, prefix = [PostGroq r]).
Proof.
  intros T. unfold Groq.translateText. cbv zeta.
  destruct (negb (present (Groq.API_KEY w))) eqn:K.
  - exists []. split; [| left; reflexivity].
    destruct (Fallback.translateText w text). reflexivity.
  - destruct T as [T | (t & e & T)].
    + unfold Groq.API_KEY in K. rewrite T in K. discriminate K.
    + pose proof (callGroq_trace w
                    (Groq.translateText_messages text
                       (match target with Some l => l | None => "English" end))
                    false 512) as Tr.
      rewrite T in *. cbn [fst] in Tr.
      exists t. split; [apply adopt_catch_throw | exact Tr].
Qed.

Lemma fallback_translate_trace (w : World) (text : string) :
  forall e, In e (fst (Fallback.translateText w text)) ->
  e = EnterFallback OpTranslateText
  \/ exists r, e = PostHf r /\ inputs r = english_translation_inputs text.
Proof.
  unfold Fallback.translateText, Fallback.callLLM.
  destruct (negb (present (Fallback.API_KEY w))).
  - cbn. intros e [<- | []]. left. reflexivity.
  - match goal with |- context [PostHf ?r] => set (request := r) end.
    unfold AsyncNotations.bind, AsyncNotations.emit.
    destruct (fetch_hf w request) as [| b | [[| l0] |]]; cbn;
      intros e [<- | [<- | []]];
      solve [ left; reflexivity
            | right; exists request; split; reflexivity ].
Qed.

(** ** The requests of a capability call *)

Section TraceRules.
Import AsyncNotations.
Context {A B : Type}.

Lemma quiet_ret (a : A) : quiet (ret a).
Proof. reflexivity. Qed.

Lemma quiet_throw (e : JsError) : quiet (@throw A e).
Proof. reflexivity. Qed.

Lemma quiet_lift (c : Completion A) : quiet (lift c).
Proof. reflexivity. Qed.

Lemma quiet_bind (m : Async B) (k : B -> Async A) :
  quiet m -> (forall b, quiet (k b)) -> quiet (bind m k).
Proof.
  unfold quiet. destruct m as [t [b | e]]; simpl; intros -> H; [| reflexivity].
  specialize (H b). destruct (k b) as [t2 r]. simpl in *. exact H.
Qed.

Lemma trace_emit (e : Event) (m : Async A) :
  fst (bind (emit e) (fun _ => m)) = e :: fst m.
Proof. destruct m as [t r]. reflexivity. Qed.

Lemma trace_try_catch (m : Async B) (k : B -> Async A) (a : A) :
  (forall b, quiet (k b)) ->
  fst (try_catch (bind m k) (fun _ => ret a)) = fst m.
Proof.
  intros H. destruct m as [t [b | e]]; simpl.
  - specialize (H b). unfold quiet in H. destruct (k b) as [t2 [x | e]];
      simpl in *; subst t2; rewrite ?app_nil_r; reflexivity.
  - apply app_nil_r.
Qed.

Lemma settles_delegate (F : Async A) (Q : A -> Prop) : settles F Q (ret F).
Proof. split; [reflexivity |]. intros p E. inversion E. left. reflexivity. Qed.

Lemma settles_ret (F : Async A) (Q : A -> Prop) (a : A) :
  Q a -> settles F Q (ret (ret a)).
Proof.
  intros H. split; [reflexivity |]. intros q E. inversion E. subst.
  right. exists a. split; [reflexivity | exact H].
Qed.

Lemma settles_bind_lift (F : Async A) (Q : A -> Prop) (c : Completion B)
  (k : B -> Async (Async A)) :
  (forall b, c = Ok b -> settles F Q (k b)) -> settles F Q (bind (lift c) k).
Proof.
  intros H. destruct c as [b | e]; simpl.
  - specialize (H b eq_refl). destruct (k b) as [t2 r]. exact H.
  - split; [reflexivity |]. intros p E. discriminate E.
Qed.

(** The outcome of [try { const x = await m; return k x } catch { return F }]
    when [k] only decides between answering and handing over to [F]. *)
Lemma trace_adopt (m : Async B) (k : B -> Async (Async A)) (F : Async A)
  (Q : A -> Prop) :
  (forall b, settles F Q (k b)) ->
  fst (adopt (try_catch (bind m k) (fun _ => ret F))) = fst m
  \/ fst (adopt (try_catch (bind m k) (fun _ => ret F))) = fst m ++ fst F.
Proof.
  intros H. destruct m as [t [b | e]]; simpl.
  - destruct (H b) as [Qk D]. unfold quiet in Qk.
    destruct (k b) as [t2 [p | e]]; simpl in *; subst t2.
    + destruct (D p eq_refl) as [-> | (a & -> & _)].
      * right. destruct F as [tf rf]. simpl. rewrite app_nil_r. reflexivity.
      * left. simpl. rewrite !app_nil_r. reflexivity.
    + right. destruct F as [tf rf]. simpl. rewrite !app_nil_r. reflexivity.
  - right. destruct F as [tf rf]. simpl. rewrite app_nil_r. reflexivity.
Qed.

Lemma outcome_adopt (m : Async B) (k : B -> Async (Async A)) (F : Async A)
  (Q : A -> Prop) (t : list Event) (a : A) :
  (forall b, settles F Q (k b)) ->
  adopt (try_catch (bind m k) (fun _ => ret F)) = (t, Ok a) ->
  (t = fst m /\ Q a) \/ (t = fst m ++ fst F /\ snd F = Ok a).
Proof.
  intros H. destruct m as [t1 [b | e]]; simpl.
  - destruct (H b) as [Qk D]. unfold quiet in Qk.
    destruct (k b) as [t2 [p | e]]; simpl in *; subst t2.
    + destruct (D p eq_refl) as [-> | (a' & -> & Qa)].
      * destruct F as [tf rf]. simpl. intros E. inversion E. subst.
        right. rewrite app_nil_r. split; reflexivity.
      * simpl. intros E. inversion E. subst.
        left. rewrite !app_nil_r. split; [reflexivity | exact Qa].
    + destruct F as [tf rf]. simpl. intros E. inversion E. subst.
      right. rewrite !app_nil_r. split; reflexivity.
  - destruct F as [tf rf]. simpl. intros E. inversion E. subst.
    right. rewrite app_nil_r. split; reflexivity.
Qed.

End TraceRules.

#[local] Ltac quiet_now :=
  repeat first
    [ apply quiet_ret | apply quiet_throw | apply quiet_lift
    | apply quiet_bind; [| intros ?]
    | match goal with |- quiet (if ?b then _ else _) => destruct b end ].

#[local] Ltac settles_with tac :=
  repeat first
    [ apply settles_delegate
    | apply settles_ret; tac
    | apply settles_bind_lift; intros ? ?
    | match goal with |- settles _ _ (if ?b then _ else _) => destruct b eqn:? end ].

#[local] Ltac settles_now := settles_with ltac:(exact I).

(** [callLLM] posts nothing without a token, and one request with the token
    in its header otherwise. *)
Lemma callLLM_trace (w : World) (systemPrompt userPrompt : string) :
  (present (VITE_HF_TOKEN (env w)) = false
   /\ fst (Fallback.callLLM w systemPrompt userPrompt) = [])
  \/ (present (VITE_HF_TOKEN (env w)) = true
      /\ exists r,
           fst (Fallback.callLLM w systemPrompt userPrompt) = [PostHf r]
           /\ hf_bearer r = ("Bearer " ++ key_text (VITE_HF_TOKEN (env w)))%string).
Proof.
  unfold Fallback.callLLM, Fallback.API_KEY.
  destruct (present (VITE_HF_TOKEN (env w))); simpl.
  - right. split; [reflexivity |]. eexists. split;
      [destruct (fetch_hf w _) as [| b | [[| texts] |]]; reflexivity | reflexivity].
  - left. split; reflexivity.
Qed.

Lemma fallback_trace (rt : Runtime) (w : World) (c : Call) :
  fst (invoke (service rt w StaticFallback) c) = [EnterFallback (operation c)]
  \/ (present (VITE_HF_TOKEN (env w)) = true
      /\ exists r,
           fst (invoke (service rt w StaticFallback) c)
           = [EnterFallback (operation c); PostHf r]
           /\ hf_bearer r = ("Bearer " ++ key_text (VITE_HF_TOKEN (env w)))%string).
Proof.
  assert (G : forall s u t,
             t = fst (Fallback.callLLM w s u) ->
             forall op,
             EnterFallback op :: t = [EnterFallback op]
             \/ (present (VITE_HF_TOKEN (env w)) = true
                 /\ exists r, EnterFallback op :: t = [EnterFallback op; PostHf r]
                    /\ hf_bearer r
                       = ("Bearer " ++ key_text (VITE_HF_TOKEN (env w)))%string)).
  { intros s u t -> op.
    destruct (callLLM_trace w s u) as [[_ ->] | [P (r & -> & Hr)]].
    - left. reflexivity.
    - right. split; [exact P |]. exists r. split; [reflexivity | exact Hr]. }
  destruct c; unfold_services; cbn [operation];
    try (left; reflexivity);
    unfold Fallback.searchBooks, Fallback.consultConcierge, Fallback.chatAboutBook,
      Fallback.translateText, Fallback.explainContext, Fallback.generateBookContent,
      Fallback.getBookSummary, Fallback.getBookRecap;
    rewrite trace_emit, trace_try_catch by (intros ?; quiet_now);
    eapply G; reflexivity.
Qed.

Lemma callGroq_posts (w : World) (messages : list ChatMessage) (jsonMode : bool)
  (maxTokens : Z) :
  present (VITE_GROQ_API_KEY (env w)) = true ->
  fst (Groq.callGroq w messages jsonMode maxTokens)
  = [PostGroq {| groq_bearer := "Bearer " ++ key_text (VITE_GROQ_API_KEY (env w));
                 messages := messages;
                 max_tokens := maxTokens;
                 json_object_format := jsonMode |}].
Proof.
  intros P. unfold Groq.callGroq, Groq.API_KEY. rewrite P. simpl.
  destruct (fetch_groq w _) as [| [b |] | [[| l] |]]; reflexivity.
Qed.

Lemma generate_calls (w : World) (prompt : string) (schema : option GeminiSchema) :
  fst (Gemini.generate w prompt schema)
  = [CallGemini {| contents := prompt; responseSchema := schema |}].
Proof. unfold Gemini.generate. simpl. reflexivity. Qed.

(** The trace of a call through the Groq module: the fallback's when the key
    is absent; otherwise one request, alone or followed by the fallback's
    trace. *)
Lemma groq_trace (rt : Runtime) (w : World) (c : Call) :
  (present (VITE_GROQ_API_KEY (env w)) = false
   /\ fst (invoke (service rt w GroqAdapter) c)
      = fst (invoke (service rt w StaticFallback) c))
  \/ (present (VITE_GROQ_API_KEY (env w)) = true
      /\ exists r tail,
           fst (invoke (service rt w GroqAdapter) c) = PostGroq r :: tail
           /\ groq_bearer r
              = ("Bearer " ++ key_text (VITE_GROQ_API_KEY (env w)))%string
           /\ json_object_format r
              = match declared_shape (operation c) with
                | TextShape => false
                | _ => true
                end
           /\ (tail = [] \/ tail = fst (invoke (service rt w StaticFallback) c))).
Proof.
  destruct (present (VITE_GROQ_API_KEY (env w))) eqn:P.
  - right. split; [reflexivity |].
    destruct c; unfold_services; cbn [operation declared_shape];
      unfold Groq.searchBooks, Groq.consultConcierge,
        Groq.getOnboardingRecommendations, Groq.generateReviews,
        Groq.chatAboutBook, Groq.translateText, Groq.explainContext,
        Groq.generateBookContent, Groq.getBookSummary, Groq.getBookRecap,
        Groq.API_KEY;
      rewrite P; cbn [negb];
      match goal with
      | |- exists r tail,
             fst (AsyncNotations.adopt
                    (AsyncNotations.try_catch (AsyncNotations.bind ?m ?k)
                       (fun _ => AsyncNotations.ret ?F))) = _ /\ _ =>
          let H := fresh "H" in
          assert (H : forall b, settles F (fun _ => True) (k b))
            by (intros ?; settles_now);
          destruct (trace_adopt m k F _ H) as [E | E]; rewrite E;
          rewrite callGroq_posts by exact P;
          eexists; eexists; (split; [reflexivity |]);
          (split; [reflexivity |]); (split; [reflexivity |]);
          [left; reflexivity | right; reflexivity]
      end.
  - left. split; [reflexivity |]. rewrite (groq_without_key rt w c P). reflexivity.
Qed.

Lemma gemini_trace (rt : Runtime) (w : World) (c : Call) :
  (present (process_env_API_KEY (env w)) = false
   /\ fst (invoke (service rt w GeminiAdapter) c)
      = fst (invoke (service rt w StaticFallback) c))
  \/ (present (process_env_API_KEY (env w)) = true
      /\ exists r tail,
           fst (invoke (service rt w GeminiAdapter) c) = CallGemini r :: tail
           /\ (tail = [] \/ tail = fst (invoke (service rt w StaticFallback) c))).
Proof.
  destruct (present (process_env_API_KEY (env w))) eqn:P.
  - right. split; [reflexivity |].
    destruct c; unfold_services;
      unfold Gemini.searchBooks, Gemini.consultConcierge,
        Gemini.getOnboardingRecommendations, Gemini.generateReviews,
        Gemini.chatAboutBook, Gemini.translateText, Gemini.explainContext,
        Gemini.generateBookContent, Gemini.getBookSummary, Gemini.getBookRecap,
        Gemini.API_KEY;
      rewrite P; cbn [negb];
      match goal with
      | |- exists r tail,
             fst (AsyncNotations.adopt
                    (AsyncNotations.try_catch (AsyncNotations.bind ?m ?k)
                       (fun _ => AsyncNotations.ret ?F))) = _ /\ _ =>
          let H := fresh "H" in
          assert (H : forall b, settles F (fun _ => True) (k b))
            by (intros ?; settles_now);
          destruct (trace_adopt m k F _ H) as [E | E]; rewrite E;
          rewrite generate_calls;
          eexists; eexists; (split; [reflexivity |]);
          [left; reflexivity | right; reflexivity]
      end.
  - left. split; [reflexivity |]. rewrite (gemini_without_key rt w c P). reflexivity.
Qed.

(** ** Requests that are answered, and mappings over lists *)

Lemma callGroq_success (w : World) (messages : list ChatMessage) (jsonMode : bool)
  (maxTokens : Z) (t : list Event) (text : string) :
  Groq.callGroq w messages jsonMode maxTokens = (t, Ok text) ->
  exists r contents,
    t = [PostGroq r]
    /\ fetch_groq w r = HttpSuccess (Some (Choices contents))
    /\ text = match contents with Some c :: _ => c | _ => "" end.
Proof.
  unfold Groq.callGroq. destruct (negb (present (Groq.API_KEY w))); [discriminate |].
  simpl.
  match goal with
  | |- context [fetch_groq w ?q] =>
      destruct (fetch_groq w q) as [| [b |] | [[| l] |]] eqn:F; simpl;
      try discriminate; intros E; inversion E; subst;
      exists q, l; repeat split; [exact F]
  end.
Qed.

Lemma generate_success (w : World) (prompt : string) (schema : option GeminiSchema)
  (t : list Event) (response_text : option string) :
  Gemini.generate w prompt schema = (t, Ok response_text) ->
  exists r, t = [CallGemini r] /\ generateContent w r = Ok response_text.
Proof.
  unfold Gemini.generate. simpl.
  match goal with
  | |- context [generateContent w ?q] =>
      destruct (generateContent w q) as [x | e] eqn:G; simpl;
      intros E; inversion E; subst; exists q; split; [reflexivity | exact G]
  end.
Qed.

Lemma lookup_set_prop_same (k : string) (v : JsVal) (fields : list (string * JsVal)) :
  lookup k (set_prop k v fields) = Some v.
Proof.
  induction fields as [| [k' v'] rest IH]; simpl.
  - rewrite String.eqb_refl. reflexivity.
  - destruct (String.eqb k k') eqn:E; simpl.
    + rewrite String.eqb_refl. reflexivity.
    + rewrite E. exact IH.
Qed.

Lemma lookup_set_prop_other (k k' : string) (v : JsVal)
  (fields : list (string * JsVal)) :
  k <> k' -> lookup k (set_prop k' v fields) = lookup k fields.
Proof.
  intros N. induction fields as [| [k0 v0] rest IH]; simpl.
  - destruct (String.eqb k k') eqn:E; [| reflexivity].
    apply String.eqb_eq in E. contradiction.
  - destruct (String.eqb k' k0) eqn:E0; simpl.
    + apply String.eqb_eq in E0. subst k0.
      destruct (String.eqb k k') eqn:E; [| reflexivity].
      apply String.eqb_eq in E. contradiction.
    + destruct (String.eqb k k0); [reflexivity | exact IH].
Qed.

Lemma map_indexed_from_total {A B} (f : A -> nat -> Completion B) (items : list A) :
  (forall x j, In x items -> exists y, f x j = Ok y) ->
  forall i, exists outs, AsyncNotations.map_indexed_from f i items = Ok outs.
Proof.
  induction items as [| x items IH]; intros H i; simpl.
  - exists []. reflexivity.
  - destruct (H x i (or_introl eq_refl)) as [y ->].
    destruct (IH (fun x' j K => H x' j (or_intror K)) (S i)) as [outs ->].
    exists (y :: outs). reflexivity.
Qed.

Lemma map_indexed_from_throws {A B} (f : A -> nat -> Completion B)
  (items : list A) (x : A) :
  In x items -> (forall j, exists e, f x j = Throw e) ->
  forall i, exists e, AsyncNotations.map_indexed_from f i items = Throw e.
Proof.
  intros K T. induction items as [| x' items IH]; intros i; [destruct K |].
  simpl. destruct K as [-> | K].
  - destruct (T i) as [e ->]. exists e. reflexivity.
  - destruct (f x' i) as [y | e]; [| exists e; reflexivity].
    destruct (IH K (S i)) as [e ->]. exists e. reflexivity.
Qed.

(** ** What a live list is parsed from *)

Lemma callGroq_answered (w : World) (chat : list ChatMessage) (jsonMode : bool)
  (maxTokens : Z) (t : list Event) (text : string) :
  Groq.callGroq w chat jsonMode maxTokens = (t, Ok text) ->
  exists r,
    t = [PostGroq r]
    /\ messages r = chat
    /\ json_object_format r = jsonMode
    /\ max_tokens r = maxTokens
    /\ groq_reply w r text.
Proof.
  unfold Groq.callGroq. destruct (negb (present (Groq.API_KEY w))); [discriminate |].
  simpl.
  match goal with
  | |- context [fetch_groq w ?q] =>
      destruct (fetch_groq w q) as [| [b |] | [[| l] |]] eqn:F; simpl;
      try discriminate; intros E; inversion E; subst;
      exists q; repeat (split; [reflexivity |]); exists l; split;
      [exact F | reflexivity]
  end.
Qed.

Lemma generate_answered (w : World) (prompt : string) (schema : GeminiSchema)
  (t : list Event) (response_text : option string) :
  Gemini.generate w prompt (Some schema) = (t, Ok response_text) ->
  exists q,
    t = [CallGemini q]
    /\ contents q = prompt
    /\ responseSchema q = Some schema
    /\ generateContent w q = Ok response_text.
Proof.
  unfold Gemini.generate. simpl.
  match goal with
  | |- context [generateContent w ?q] =>
      destruct (generateContent w q) as [x | e] eqn:G; simpl;
      intros E; inversion E; subst; exists q;
      repeat (split; [reflexivity |]); exact G
  end.
Qed.

Section GroqListParsed.
Import AsyncNotations.
Context (rt : Runtime) (w : World) (chat : list ChatMessage)
        (item : JsVal -> nat -> Completion JsVal) (delegate : Async JsVal).
Hypothesis delegate_not_live : ~ live (fst delegate).

Lemma groq_list_parsed (t : list Event) (v : JsVal) :
  (if negb (present (Groq.API_KEY w)) then delegate
   else
     adopt (try_catch
       (response <- Groq.callGroq w chat true Groq.default_maxTokens ;;
        data <- lift (Groq.parseJSON rt response) ;;
        if negb (truthy data) || negb (isArray data)
        then ret delegate
        else
          books <- lift (array_map item data) ;;
          ret (ret books))
       (fun error => ret delegate))) = (t, Ok v) ->
  live t ->
  exists items outs,
    parsed_from_groq rt w chat t items
    /\ v = JArr outs
    /\ map_indexed item items = Ok outs.
Proof.
  destruct delegate as [td rd] eqn:D. cbn [fst] in delegate_not_live.
  destruct (negb (present (Groq.API_KEY w))).
  { intros E L. inversion E. subst. contradiction. }
  destruct (Groq.callGroq w chat true Groq.default_maxTokens)
    as [t1 [text | e]] eqn:C.
  2:{ cbn. rewrite app_nil_r. intros E L. inversion E. subst.
      apply live_app in L. destruct L. contradiction. }
  unfold bind at 1. unfold lift, bind at 1.
  destruct (Groq.parseJSON rt text) as [data | e] eqn:P.
  2:{ cbn. rewrite !app_nil_r. intros E L. inversion E. subst.
      apply live_app in L. destruct L. contradiction. }
  destruct (negb (truthy data) || negb (isArray data)).
  { cbn. rewrite !app_nil_r. intros E L. inversion E. subst.
    apply live_app in L. destruct L. contradiction. }
  unfold bind at 1.
  destruct (array_map item data) as [books | e] eqn:M.
  2:{ cbn. rewrite !app_nil_r. intros E L. inversion E. subst.
      apply live_app in L. destruct L. contradiction. }
  cbn. rewrite !app_nil_r. intros E L. inversion E. subst.
  destruct data as [ | | | | | items | ]; try discriminate M.
  cbn [array_map] in M.
  destruct (map_indexed item items) as [outs |] eqn:Mi; [| discriminate M].
  inversion M. subst v.
  exists items, outs. split; [| split; [reflexivity | exact Mi]].
  destruct (callGroq_answered _ _ _ _ _ _ C) as (r & -> & Hm & Hj & _ & Hr).
  exists r, text. repeat split; assumption.
Qed.

End GroqListParsed.

Section GeminiListParsed.
Import AsyncNotations.
Context (rt : Runtime) (w : World) (prompt : string) (schema : GeminiSchema)
        (item : JsVal -> nat -> Completion JsVal) (delegate : Async JsVal).
Hypothesis delegate_not_live : ~ live (fst delegate).

Lemma gemini_list_parsed (t : list Event) (v : JsVal) :
  (if negb (present (Gemini.API_KEY w)) then delegate
   else
     adopt (try_catch
       (response_text <- Gemini.generate w prompt (Some schema) ;;
        data <- lift (Gemini.parseJSON rt response_text) ;;
        books <- lift (array_map item data) ;;
        ret (ret books))
       (fun error => ret delegate))) = (t, Ok v) ->
  live t ->
  exists items outs,
    parsed_from_gemini rt w prompt schema t items
    /\ v = JArr outs
    /\ map_indexed item items = Ok outs.
Proof.
  destruct delegate as [td rd] eqn:D. cbn [fst] in delegate_not_live.
  destruct (negb (present (Gemini.API_KEY w))).
  { intros E L. inversion E. subst. contradiction. }
  destruct (Gemini.generate w prompt (Some schema)) as [t1 [text | e]] eqn:C.
  2:{ cbn. rewrite app_nil_r. intros E L. inversion E. subst.
      apply live_app in L. destruct L. contradiction. }
  unfold bind at 1. unfold lift, bind at 1.
  destruct (Gemini.parseJSON rt text) as [data | e] eqn:P.
  2:{ cbn. rewrite !app_nil_r. intros E L. inversion E. subst.
      apply live_app in L. destruct L. contradiction. }
  unfold bind at 1.
  destruct (array_map item data) as [books | e] eqn:M.
  2:{ cbn. rewrite !app_nil_r. intros E L. inversion E. subst.
      apply live_app in L. destruct L. contradiction. }
  cbn. rewrite !app_nil_r. intros E L. inversion E. subst.
  destruct data as [ | | | | | items | ]; try discriminate M.
  cbn [array_map] in M.
  destruct (map_indexed item items) as [outs |] eqn:Mi; [| discriminate M].
  inversion M. subst v.
  exists items, outs. split; [| split; [reflexivity | exact Mi]].
  destruct (generate_answered _ _ _ _ _ C) as (q & -> & Hp & Hs & Hg).
  exists q, text. repeat split; assumption.
Qed.

End GeminiListParsed.

Lemma map_indexed_pairs (f : JsVal -> nat -> Completion JsVal)
  (items outs : list JsVal) :
  AsyncNotations.map_indexed f items = Ok outs ->
  Forall2 (fun x y => exists index, f x index = Ok y) items outs.
Proof. exact (map_indexed_items f items outs 0). Qed.

Lemma map_indexed_from_positions {A B} (f : A -> nat -> Completion B)
  (items : list A) (outs : list B) (i : nat) :
  AsyncNotations.map_indexed_from f i items = Ok outs ->
  Forall2_indexed (fun x j y => f x j = Ok y) i items outs.
Proof.
  revert outs i. induction items as [| x rest IH]; intros outs i E; cbn in E.
  - inversion E. exact I.
  - destruct (f x i) as [y |] eqn:Fx; [| discriminate].
    destruct (AsyncNotations.map_indexed_from f (S i) rest) as [ys |] eqn:Fr;
      [| discriminate].
    inversion E. subst. cbn. split; [exact Fx | exact (IH ys (S i) Fr)].
Qed.

Lemma Forall2_indexed_impl {A B} (P Q : A -> nat -> B -> Prop) (l : list A)
  (l' : list B) (i : nat) :
  (forall x j y, P x j y -> Q x j y) ->
  Forall2_indexed P i l l' -> Forall2_indexed Q i l l'.
Proof.
  intros H. revert l' i. induction l as [| x rest IH]; intros [| y rest'] i;
    cbn; try tauto.
  intros [Hx Hr]. split; [exact (H _ _ _ Hx) | exact (IH _ _ Hr)].
Qed.

Lemma array_map_ok (f : JsVal -> nat -> Completion JsVal) (v out : JsVal) :
  AsyncNotations.array_map f v = Ok out ->
  exists items outs,
    v = JArr items
    /\ AsyncNotations.map_indexed f items = Ok outs
    /\ out = JArr outs.
Proof.
  destruct v as [ | | | | | items | ]; try discriminate.
  cbn [AsyncNotations.array_map].
  destruct (AsyncNotations.map_indexed f items) as [outs |] eqn:Mi;
    [| discriminate].
  intros E. inversion E. exists items, outs.
  split; [reflexivity | split; [exact Mi | reflexivity]].
Qed.

(** ** What a live concierge answer is parsed from *)

Lemma groq_concierge_parsed (rt : Runtime) (w : World) (userMessage : string)
  (history : list HistoryEntry) (t : list Event) (v : JsVal) :
  Groq.consultConcierge rt w userMessage history = (t, Ok v) ->
  live t ->
  exists r text data,
    t = [PostGroq r]
    /\ messages r = Groq.consultConcierge_messages userMessage history
    /\ json_object_format r = true
    /\ groq_reply w r text
    /\ Groq.parseJSON rt text = Ok data
    /\ (truthy data = false ->
        v = JObj [("reply", JStr text); ("suggestions", JArr [])])
    /\ (truthy data = true ->
        exists items books,
          listed_suggestions data = JArr items
          /\ AsyncNotations.map_indexed
               (Groq.suggestion_item rt w "groq-concierge-" "#cbd5e1") items
             = Ok books
          /\ v = JObj [("reply",
                        or_else (field "reply" data)
                          (JStr "I'm thinking about that..."));
                       ("suggestions", JArr books)]).
Proof.
  pose proof (fallback_not_live rt w (ConsultConcierge userMessage history)) as NL.
  cbn [invoke service AIProvider.FallbackService Service.consultConcierge] in NL.
  unfold Groq.consultConcierge.
  destruct (Fallback.consultConcierge rt w userMessage history) as [td rd].
  cbn [fst] in NL.
  destruct (negb (present (Groq.API_KEY w))).
  { intros E L. inversion E. subst. contradiction. }
  destruct (Groq.callGroq w (Groq.consultConcierge_messages userMessage history)
              true Groq.default_maxTokens) as [t1 [text | e]] eqn:C.
  2:{ cbn. rewrite app_nil_r. intros E L. inversion E. subst.
      apply live_app in L. destruct L. contradiction. }
  unfold AsyncNotations.bind at 1.
  unfold AsyncNotations.lift, AsyncNotations.bind at 1.
  destruct (Groq.parseJSON rt text) as [data | e] eqn:P.
  2:{ cbn. rewrite !app_nil_r. intros E L. inversion E. subst.
      apply live_app in L. destruct L. contradiction. }
  destruct (callGroq_answered _ _ _ _ _ _ C) as (r & -> & Hm & Hj & _ & Hr).
  destruct (truthy data) eqn:T; cbn [negb].
  - unfold AsyncNotations.bind at 1.
    destruct (get data "suggestions") as [listed | e] eqn:G.
    2:{ cbn. intros E L. inversion E. subst.
        apply (live_app [PostGroq r]) in L. destruct L. contradiction. }
    apply get_is_field in G. subst listed.
    unfold AsyncNotations.bind at 1.
    destruct (AsyncNotations.array_map
                (Groq.suggestion_item rt w "groq-concierge-" "#cbd5e1")
                (or_else (field "suggestions" data) (JArr [])))
      as [suggestions | e] eqn:M.
    2:{ cbn. intros E L. inversion E. subst.
        apply (live_app [PostGroq r]) in L. destruct L. contradiction. }
    unfold AsyncNotations.bind at 1.
    destruct (get data "reply") as [reply | e] eqn:G2.
    2:{ cbn. intros E L. inversion E. subst.
        apply (live_app [PostGroq r]) in L. destruct L. contradiction. }
    apply get_is_field in G2. subst reply.
    destruct (array_map_ok _ _ _ M) as (items & books & LS & Mi & ->).
    cbn. intros E L. inversion E. subst v. clear E.
    exists r, text, data.
    do 5 (split; [assumption || reflexivity |]).
    split; [intros F; congruence |]. intros _.
    exists items, books. split; [exact LS | split; [exact Mi | reflexivity]].
  - cbn. intros E L. inversion E. subst v. clear E.
    exists r, text, data.
    do 5 (split; [assumption || reflexivity |]).
    split; [intros _; reflexivity |]. intros F. congruence.
Qed.

Lemma gemini_concierge_parsed (rt : Runtime) (w : World) (userMessage : string)
  (history : list HistoryEntry) (t : list Event) (v : JsVal) :
  Gemini.consultConcierge rt w userMessage history = (t, Ok v) ->
  live t ->
  exists q response_text data items books,
    t = [CallGemini q]
    /\ contents q = Gemini.consultConcierge_prompt rt userMessage history
    /\ responseSchema q = Some ConciergeSchema
    /\ generateContent w q = Ok response_text
    /\ Gemini.parseJSON rt response_text = Ok data
    /\ listed_suggestions data = JArr items
    /\ AsyncNotations.map_indexed (Gemini.suggestion_item w "concierge-") items
       = Ok books
    /\ v = JObj [("reply",
                  or_else (field "reply" data)
                    (JStr "I'm pondering that thought..."));
                 ("suggestions", JArr books)].
Proof.
  pose proof (fallback_not_live rt w (ConsultConcierge userMessage history)) as NL.
  cbn [invoke service AIProvider.FallbackService Service.consultConcierge] in NL.
  unfold Gemini.consultConcierge.
  destruct (Fallback.consultConcierge rt w userMessage history) as [td rd].
  cbn [fst] in NL.
  destruct (negb (present (Gemini.API_KEY w))).
  { intros E L. inversion E. subst. contradiction. }
  destruct (Gemini.generate w (Gemini.consultConcierge_prompt rt userMessage history)
              (Some ConciergeSchema)) as [t1 [text | e]] eqn:C.
  2:{ cbn. rewrite app_nil_r. intros E L. inversion E. subst.
      apply live_app in L. destruct L. contradiction. }
  unfold AsyncNotations.bind at 1.
  unfold AsyncNotations.lift, AsyncNotations.bind at 1.
  destruct (Gemini.parseJSON rt text) as [data | e] eqn:P.
  2:{ cbn. rewrite !app_nil_r. intros E L. inversion E. subst.
      apply live_app in L. destruct L. contradiction. }
  destruct (generate_answered _ _ _ _ _ C) as (q & -> & Hp & Hs & Hg).
  unfold AsyncNotations.bind at 1.
  destruct (get data "suggestions") as [listed | e] eqn:G.
  2:{ cbn. intros E L. inversion E. subst.
      apply (live_app [CallGemini q]) in L. destruct L. contradiction. }
  apply get_is_field in G. subst listed.
  unfold AsyncNotations.bind at 1.
  destruct (AsyncNotations.array_map (Gemini.suggestion_item w "concierge-")
              (or_else (field "suggestions" data) (JArr [])))
    as [suggestions | e] eqn:M.
  2:{ cbn. intros E L. inversion E. subst.
      apply (live_app [CallGemini q]) in L. destruct L. contradiction. }
  unfold AsyncNotations.bind at 1.
  destruct (get data "reply") as [reply | e] eqn:G2.
  2:{ cbn. intros E L. inversion E. subst.
      apply (live_app [CallGemini q]) in L. destruct L. contradiction. }
  apply get_is_field in G2. subst reply.
  destruct (array_map_ok _ _ _ M) as (items & books & LS & Mi & ->).
  cbn. intros E L. inversion E. subst v. clear E.
  exists q, text, data, items, books.
  do 5 (split; [assumption || reflexivity |]).
  split; [exact LS | split; [exact Mi | reflexivity]].
Qed.

(** ** The search mappings set no match reason *)

Lemma groq_search_item_no_reason (rt : Runtime) (w : World) (item book : JsVal)
  (index : nat) :
  Groq.search_item rt w item index = Ok book -> no_match_reason book.
Proof.
  unfold Groq.search_item. cbv zeta. unfold AsyncNotations.and_then.
  intros H. invert_item. inversion H. reflexivity.
Qed.

Lemma gemini_search_item_no_reason (w : World) (item book : JsVal) (index : nat) :
  Gemini.search_item w item index = Ok book -> no_match_reason book.
Proof.
  unfold Gemini.search_item. cbv zeta. unfold AsyncNotations.and_then.
  intros H. invert_item. inversion H. reflexivity.
Qed.

(** ** The search of the static fallback with its token set *)

Lemma fallback_search_book_built (w : World) (item : JsVal) (index : nat)
  (id : string) :
  id = ("fallback-" ++ Text.Z_to_string (Date_now w index) ++ "-"
        ++ Text.nat_to_string index)%string ->
  fallback_search_book w item index
    (JObj (set_prop "isLocal" (JBool false)
             (set_prop "categories"
                (or_else (field "categories" item) (JArr [JStr "General"]))
                (set_prop "id" (JStr id) (Fallback.spread item))))).
Proof.
  intros ->. unfold fallback_search_book, field.
  repeat match goal with |- _ /\ _ => split end.
  - rewrite lookup_set_prop_other by discriminate.
    rewrite lookup_set_prop_other by discriminate.
    rewrite lookup_set_prop_same. reflexivity.
  - rewrite lookup_set_prop_same. reflexivity.
  - rewrite lookup_set_prop_other by discriminate.
    rewrite lookup_set_prop_same. reflexivity.
  - intros k N1 N2 N3.
    rewrite !lookup_set_prop_other by assumption. reflexivity.
Qed.

Lemma fallback_search_with_token (rt : Runtime) (w : World) (query : string) :
  present (VITE_HF_TOKEN (env w)) = true ->
  fst (Fallback.searchBooks rt w query)
  = [EnterFallback OpSearchBooks; PostHf (fallback_search_request w query)]
  /\ (hf_fails w (fallback_search_request w query) ->
      snd (Fallback.searchBooks rt w query) = Ok Fallback.offline_books)
  /\ (forall texts,
         fetch_hf w (fallback_search_request w query)
         = HttpSuccess (Some (HfGenerated texts)) ->
         ((forall items,
              Fallback.extractJSON rt (generated_text texts) <> JArr items) ->
          snd (Fallback.searchBooks rt w query) = Ok Fallback.offline_books)
         /\ (forall items,
                Fallback.extractJSON rt (generated_text texts) = JArr items ->
                (existsb nullish items = true ->
                 snd (Fallback.searchBooks rt w query) = Ok Fallback.offline_books)
                /\ (existsb nullish items = false ->
                    exists books,
                      snd (Fallback.searchBooks rt w query) = Ok (JArr books)
                      /\ Forall2_indexed (fallback_search_book w) 0 items books))).
Proof.
  intros K.
  unfold Fallback.searchBooks, Fallback.callLLM, Fallback.API_KEY, hf_fails.
  rewrite K. cbn [negb].
  match goal with
  | |- context [PostHf ?r] => change r with (fallback_search_request w query)
  end.
  set (r := fallback_search_request w query).
  match goal with
  | |- context [AsyncNotations.array_map ?f _] => set (item := f)
  end.
  assert (Inull : forall b j, nullish b = true -> exists e, item b j = Throw e).
  { intros b j N. destruct b; try discriminate N; exists TypeError; reflexivity. }
  assert (Iok : forall b j, nullish b = false ->
                  exists y, item b j = Ok y /\ fallback_search_book w b j y).
  { intros b j N. unfold item.
    destruct (get b "categories") as [categories | e] eqn:G.
    - apply get_is_field in G. subst categories.
      eexists. split; [reflexivity |].
      apply fallback_search_book_built. reflexivity.
    - destruct b; try discriminate N; discriminate G. }
  assert (Ispec : forall b j y, item b j = Ok y -> fallback_search_book w b j y).
  { intros b j y E. destruct (nullish b) eqn:N.
    - destruct (Inull b j N) as [e E']. congruence.
    - destruct (Iok b j N) as (y' & E' & S). congruence. }
  clearbody item.
  destruct (fetch_hf w r) as [| b | [[| texts] |]] eqn:F; cbn.
  all: try (split; [reflexivity
                   | split; [reflexivity | intros texts' E; discriminate E]]).
  split; [| split; [intros []|]].
  - assert (T : (match texts with Some g :: _ => g | _ => "" end)
                = generated_text texts) by reflexivity.
    rewrite T. clear T.
    destruct (Fallback.extractJSON rt (generated_text texts))
      as [ | | [|] | | | items | ]; cbn;
      rewrite ?Bool.andb_false_r; cbn;
      try reflexivity;
      destruct (AsyncNotations.map_indexed item items); reflexivity.
  - intros texts' E. injection E as <-.
    assert (T : (match texts with Some g :: _ => g | _ => "" end)
                = generated_text texts) by reflexivity.
    rewrite T. clear T.
    destruct (Fallback.extractJSON rt (generated_text texts))
      as [ | | [|] | | | items | ] eqn:X; cbn;
      rewrite ?Bool.andb_false_r; cbn.
    all: try (split; [reflexivity | intros items' E; discriminate E]).
    split; [intros N; destruct (N items eq_refl) |].
    intros items' E. injection E as <-.
    unfold AsyncNotations.map_indexed. split.
    + intros N. apply existsb_exists in N. destruct N as (x & Kx & Nx).
      destruct (map_indexed_from_throws item items x Kx
                  (fun j => Inull x j Nx) 0) as [e ->].
      reflexivity.
    + intros N.
      destruct (map_indexed_from_total item items) with (i := 0%nat)
        as [books E].
      { intros x j Kx. destruct (Iok x j) as (y & Ey & _); [| exists y; exact Ey].
        destruct (nullish x) eqn:Nx; [| reflexivity].
        assert (C : existsb nullish items = true)
          by (apply existsb_exists; exists x; split; assumption).
        congruence. }
      rewrite E. exists books. split; [reflexivity |].
      apply (Forall2_indexed_impl (fun x j y => item x j = Ok y));
        [exact Ispec |].
      exact (map_indexed_from_positions item items books 0 E).
Qed.

(** ** Where the value of a call comes from *)

(** * The claims *)




(** C2.  The provider is chosen once, from the environment alone, by
    priority: ["groq"] exactly when the Groq credential is present, else
    ["gemini"] exactly when the Gemini credential is present, else
    ["fallback"].  [getActiveProvider] returns that identifier,
    [isAIAvailable] is false exactly for ["fallback"], the ten exported
    functions are the ten functions of that one service module, and nothing
    the network does changes the choice. *)
Theorem provider_selected_by_priority (rt : Runtime) (w : World) :
  (AIProvider.getActiveProvider w = "groq"
   <-> present (VITE_GROQ_API_KEY (env w)) = true)
  /\ (AIProvider.getActiveProvider w = "gemini"
      <-> present (VITE_GROQ_API_KEY (env w)) = false
          /\ present (VITE_GEMINI_API_KEY (env w)) = true)
  /\ (AIProvider.getActiveProvider w = "fallback"
      <-> present (VITE_GROQ_API_KEY (env w)) = false
          /\ present (VITE_GEMINI_API_KEY (env w)) = false)
  /\ AIProvider.getActiveProvider w = AIProvider.provider w
  /\ AIProvider.provider w = AIProvider.getProvider w
  /\ (AIProvider.isAIAvailable w = false
      <-> AIProvider.getActiveProvider w = "fallback")
  /\ AIProvider.exports rt w
     = (if present (VITE_GROQ_API_KEY (env w)) then service rt w GroqAdapter
        else if present (VITE_GEMINI_API_KEY (env w)) then service rt w GeminiAdapter
        else service rt w StaticFallback)
  /\ (forall w' : World,
         env w' = env w ->
         AIProvider.getActiveProvider w' = AIProvider.getActiveProvider w).
Proof.
  unfold AIProvider.exports, AIProvider.searchBooks, AIProvider.consultConcierge,
    AIProvider.getOnboardingRecommendations, AIProvider.generateReviews,
    AIProvider.chatAboutBook, AIProvider.translateText,
    AIProvider.explainContext, AIProvider.generateBookContent,
    AIProvider.getBookSummary, AIProvider.getBookRecap,
    AIProvider.activeService, AIProvider.isAIAvailable,
    AIProvider.getActiveProvider, AIProvider.provider, AIProvider.getProvider.
  repeat match goal with |- _ /\ _ => split end;
    try (intros w' E; rewrite E; reflexivity);
    destruct (present (VITE_GROQ_API_KEY (env w)));
    destruct (present (VITE_GEMINI_API_KEY (env w)));
    cbn; try reflexivity;
    split; intros H; try reflexivity; try discriminate H;
    try (destruct H; auto; discriminate).
Qed.

Lemma provider_selected_by_priority_witness :
  AIProvider.getActiveProvider (Example.offline Example.groq_only) = "groq"
  /\ AIProvider.getActiveProvider (Example.offline Example.gemini_only) = "gemini"
  /\ AIProvider.getActiveProvider (Example.offline Example.hf_only) = "fallback"
  /\ AIProvider.isAIAvailable (Example.offline Example.hf_only) = false
  /\ AIProvider.getActiveProvider (Example.answering Example.groq_only "[]")
     = AIProvider.getActiveProvider (Example.offline Example.groq_only).
Proof.
  split; [| split; [| split; [| split]]].
  - apply (provider_selected_by_priority RefRuntime.runtime
             (Example.offline Example.groq_only)).
    reflexivity.
  - apply (provider_selected_by_priority RefRuntime.runtime
             (Example.offline Example.gemini_only)).
    split; reflexivity.
  - apply (provider_selected_by_priority RefRuntime.runtime
             (Example.offline Example.hf_only)).
    split; reflexivity.
  - apply (provider_selected_by_priority RefRuntime.runtime
             (Example.offline Example.hf_only)).
    reflexivity.
  - apply (provider_selected_by_priority RefRuntime.runtime
             (Example.offline Example.groq_only)).
    reflexivity.
Defined.

(** C3 fails as stated: an unparseable reply does not always take the path
    of a network failure.  The Groq concierge answers with the raw reply,
    and the Gemini search answers with an empty list; neither enters the
    static fallback, whose answer in the same world would differ. *)
Lemma unparseable_reply_without_fallback :
  Groq.parseJSON RefRuntime.runtime "not json at all" = Ok JNull
  /\ (exists r,
         Groq.consultConcierge RefRuntime.runtime
           (Example.answering Example.groq_only "not json at all") "hello" []
         = ([PostGroq r],
            Ok (JObj [("reply", JStr "not json at all"); ("suggestions", JArr [])])))
  /\ snd (Fallback.consultConcierge RefRuntime.runtime
            (Example.answering Example.groq_only "not json at all") "hello" [])
     = Ok Fallback.offline_concierge
  /\ Gemini.parseJSON RefRuntime.runtime (Some "not json at all") = Ok (JArr [])
  /\ (exists q,
         Gemini.searchBooks RefRuntime.runtime
           (Example.answering Example.gemini_only "not json at all") "dune"
         = ([CallGemini q], Ok (JArr [])))
  /\ snd (Fallback.searchBooks RefRuntime.runtime
            (Example.answering Example.gemini_only "not json at all") "dune")
     = Ok Fallback.offline_books.
Proof.
  repeat match goal with |- _ /\ _ => split end;
    try (eexists; vm_compute; reflexivity); vm_compute; reflexivity.
Qed.

(** C3, amended.  When the Groq normalizer signals an unparseable reply
    ([null]), [searchBooks], [getOnboardingRecommendations] and
    [generateReviews] of the Groq module continue with the static fallback,
    as they do after a network failure; its [consultConcierge] instead
    resolves to the raw reply as [reply], with no suggestions.  The Gemini
    normalizer signals with an empty array, so on an unparseable reply the
    three list operations of the Gemini module resolve to the empty list and
    its [consultConcierge] to the default reply with no suggestions; none of
    them enters the static fallback.  The Gemini normalizer gives its signal
    for a text that does not parse, neither as it is nor with the fence
    marks removed and the white space of JavaScript, Unicode spaces
    included, trimmed from both ends. *)
Theorem unparseable_reply_paths (rt : Runtime) (w : World) :
  (forall query t text,
      Groq.callGroq w (Groq.searchBooks_messages query) true Groq.default_maxTokens
      = (t, Ok text) ->
      Groq.parseJSON rt text = Ok JNull ->
      Groq.searchBooks rt w query
      = (t ++ fst (Fallback.searchBooks rt w query),
         snd (Fallback.searchBooks rt w query)))
  /\ (forall prefs t text,
         Groq.callGroq w (Groq.getOnboardingRecommendations_messages prefs) true
           Groq.default_maxTokens = (t, Ok text) ->
         Groq.parseJSON rt text = Ok JNull ->
         Groq.getOnboardingRecommendations rt w prefs
         = (t ++ fst (Fallback.getOnboardingRecommendations prefs),
            snd (Fallback.getOnboardingRecommendations prefs)))
  /\ (forall title author t text,
         Groq.callGroq w (Groq.generateReviews_messages title author) true
           Groq.default_maxTokens = (t, Ok text) ->
         Groq.parseJSON rt text = Ok JNull ->
         Groq.generateReviews rt w title author
         = (t ++ fst (Fallback.generateReviews title author),
            snd (Fallback.generateReviews title author)))
  /\ (forall userMessage history t text,
         Groq.callGroq w (Groq.consultConcierge_messages userMessage history) true
           Groq.default_maxTokens = (t, Ok text) ->
         Groq.parseJSON rt text = Ok JNull ->
         Groq.consultConcierge rt w userMessage history
         = (t, Ok (JObj [("reply", JStr text); ("suggestions", JArr [])])))
  /\ (forall text,
         JSON_parse rt text = None ->
         JSON_parse rt (Text.trim (Text.remove_fences text)) = None ->
         Gemini.parseJSON rt (Some text) = Ok (JArr []))
  /\ (forall t text,
         present (process_env_API_KEY (env w)) = true ->
         Gemini.parseJSON rt text = Ok (JArr []) ->
         (forall query,
             Gemini.generate w (Gemini.searchBooks_prompt query) (Some BookListSchema)
             = (t, Ok text) ->
             Gemini.searchBooks rt w query = (t, Ok (JArr [])))
         /\ (forall prefs,
                Gemini.generate w (Gemini.getOnboardingRecommendations_prompt prefs)
                  (Some RecommendationListSchema) = (t, Ok text) ->
                Gemini.getOnboardingRecommendations rt w prefs = (t, Ok (JArr [])))
         /\ (forall title author,
                Gemini.generate w (Gemini.generateReviews_prompt title author)
                  (Some ReviewListSchema) = (t, Ok text) ->
                Gemini.generateReviews rt w title author = (t, Ok (JArr [])))
         /\ (forall userMessage history,
                Gemini.generate w
                  (Gemini.consultConcierge_prompt rt userMessage history)
                  (Some ConciergeSchema) = (t, Ok text) ->
                Gemini.consultConcierge rt w userMessage history
                = (t, Ok (JObj [("reply", JStr "I'm pondering that thought...");
                                ("suggestions", JArr [])])))).
Proof.
  repeat match goal with |- _ /\ _ => split end.
  - intros query t text C P.
    exact (groq_list_delegated rt w _ (Groq.search_item rt w)
             (Fallback.searchBooks rt w query) t text JNull C P eq_refl).
  - intros prefs t text C P.
    exact (groq_list_delegated rt w _ (Groq.suggestion_item rt w "groq-rec-" "#e2e8f0")
             (Fallback.getOnboardingRecommendations prefs) t text JNull C P eq_refl).
  - intros title author t text C P.
    exact (groq_list_delegated rt w _ (Groq.review_item rt)
             (Fallback.generateReviews title author) t text JNull C P eq_refl).
  - intros userMessage history t text C P.
    destruct (callGroq_resolved _ _ _ _ _ _ C) as [K _].
    unfold Groq.consultConcierge, Groq.API_KEY. rewrite K. cbn [negb].
    rewrite C. unfold AsyncNotations.bind at 1.
    unfold AsyncNotations.lift, AsyncNotations.bind at 1.
    rewrite P. cbn. rewrite !app_nil_r. reflexivity.
  - intros text D C. unfold Gemini.parseJSON.
    destruct (String.eqb text ""); [reflexivity |].
    unfold parse. rewrite D. cbn. rewrite C. reflexivity.
  - intros t text K P. repeat match goal with |- _ /\ _ => split end.
    + intros query C.
      exact (gemini_list_mapped rt w _ BookListSchema (Gemini.search_item w)
               (Fallback.searchBooks rt w query) t text (JArr []) (JArr [])
               K C P eq_refl).
    + intros prefs C.
      exact (gemini_list_mapped rt w _ RecommendationListSchema
               (Gemini.suggestion_item w "gemini-onboarding-")
               (Fallback.getOnboardingRecommendations prefs) t text (JArr []) (JArr [])
               K C P eq_refl).
    + intros title author C.
      exact (gemini_list_mapped rt w _ ReviewListSchema Gemini.review_item
               (Fallback.generateReviews title author) t text (JArr []) (JArr [])
               K C P eq_refl).
    + intros userMessage history C.
      unfold Gemini.consultConcierge, Gemini.API_KEY. rewrite K. cbn [negb].
      rewrite C. unfold AsyncNotations.bind at 1.
      unfold AsyncNotations.lift, AsyncNotations.bind at 1.
      rewrite P. cbn. rewrite !app_nil_r. reflexivity.
Qed.

Lemma unparseable_reply_paths_witness :
  (exists t,
      Groq.searchBooks RefRuntime.runtime
        (Example.answering Example.groq_only "not json at all") "dune"
      = (t ++ [EnterFallback OpSearchBooks], Ok Fallback.offline_books))
  /\ Gemini.parseJSON RefRuntime.runtime (Some "not json at all") = Ok (JArr []).
Proof.
  split.
  - eexists.
    apply (proj1 (unparseable_reply_paths RefRuntime.runtime
                    (Example.answering Example.groq_only "not json at all"))
             "dune" _ "not json at all"); reflexivity.
  - apply (unparseable_reply_paths RefRuntime.runtime
             (Example.answering Example.groq_only "not json at all"));
      reflexivity.
Defined.

(** C4 fails as stated: the normalizers are not a cascade of three attempts.
    The Groq normalizer gives up when a fence is found whose content is not
    JSON, without trying the bracketed span that would have parsed; the
    Gemini normalizer has no third attempt at all. *)
Lemma parse_attempts_are_not_a_cascade :
  Groq.parseJSON RefRuntime.runtime Example.fenced_then_list = Ok JNull
  /\ three_attempts RefRuntime.runtime JNull Example.fenced_then_list = JArr [num 1]
  /\ Gemini.parseJSON RefRuntime.runtime (Some "see [1]") = Ok (JArr [])
  /\ three_attempts RefRuntime.runtime (JArr []) "see [1]" = JArr [num 1].
Proof. repeat split; vm_compute; reflexivity. Qed.

(** C4, amended.  Both normalizers are total and never throw.  The Groq
    normalizer returns the parse of the whole text when that succeeds;
    otherwise, when the text holds a json fence, the parse of the trimmed
    content of the fence, or [null] when that fails (the bracketed span is
    not tried then); otherwise the parse of the leftmost bracketed span, or
    [null].  The Gemini normalizer returns the empty array for a missing or
    empty text, else the parse of the whole text, else the parse of the text
    with the fence marks removed and trimmed, else the empty array.  On
    ["not json at all"] the first returns [null] and the second the empty
    array.  The white space skipped after the opening of the fence and
    removed by the trimming is that of JavaScript, Unicode spaces
    included. *)
Theorem parseJSON_is_total (rt : Runtime) (text : string) :
  (exists v, Groq.parseJSON rt text = Ok v)
  /\ (forall v, JSON_parse rt text = Some v -> Groq.parseJSON rt text = Ok v)
  /\ (JSON_parse rt text = None ->
      forall body, Text.match_fence text = Some body ->
      Groq.parseJSON rt text
      = Ok (match JSON_parse rt (Text.trim body) with
            | Some v => v
            | None => JNull
            end))
  /\ (JSON_parse rt text = None ->
      Text.match_fence text = None ->
      Groq.parseJSON rt text
      = Ok (match Text.match_json_span text with
            | Some span => match JSON_parse rt span with
                           | Some v => v
                           | None => JNull
                           end
            | None => JNull
            end))
  /\ (forall response_text, exists v, Gemini.parseJSON rt response_text = Ok v)
  /\ Gemini.parseJSON rt None = Ok (JArr [])
  /\ Gemini.parseJSON rt (Some "") = Ok (JArr [])
  /\ (text <> "" -> forall v,
      JSON_parse rt text = Some v -> Gemini.parseJSON rt (Some text) = Ok v)
  /\ (text <> "" -> JSON_parse rt text = None ->
      Gemini.parseJSON rt (Some text)
      = Ok (match JSON_parse rt (Text.trim (Text.remove_fences text)) with
            | Some v => v
            | None => JArr []
            end))
  /\ (JSON_parse rt "not json at all" = None ->
      Groq.parseJSON rt "not json at all" = Ok JNull
      /\ Gemini.parseJSON rt (Some "not json at all") = Ok (JArr [])).
Proof.
  assert (G : forall s, exists v, Groq.parseJSON rt s = Ok v).
  { intros s. unfold Groq.parseJSON, parse.
    destruct (JSON_parse rt s); cbn; [eexists; reflexivity |].
    destruct (Text.match_fence s).
    - destruct (JSON_parse rt _); cbn; eexists; reflexivity.
    - destruct (Text.match_json_span s); [| eexists; reflexivity].
      destruct (JSON_parse rt _); cbn; eexists; reflexivity. }
  assert (M : forall r, exists v, Gemini.parseJSON rt r = Ok v).
  { intros [s |]; unfold Gemini.parseJSON, parse; [| eexists; reflexivity].
    destruct (String.eqb s ""); [eexists; reflexivity |].
    destruct (JSON_parse rt s); cbn; [eexists; reflexivity |].
    destruct (JSON_parse rt _); cbn; eexists; reflexivity. }
  repeat match goal with |- _ /\ _ => split end.
  - apply G.
  - intros v D. unfold Groq.parseJSON, parse. rewrite D. reflexivity.
  - intros D body F. unfold Groq.parseJSON, parse. rewrite D. cbn. rewrite F.
    destruct (JSON_parse rt (Text.trim body)); reflexivity.
  - intros D F. unfold Groq.parseJSON, parse. rewrite D. cbn. rewrite F.
    destruct (Text.match_json_span text) as [span |]; [| reflexivity].
    destruct (JSON_parse rt span); reflexivity.
  - apply M.
  - reflexivity.
  - reflexivity.
  - intros N v D. unfold Gemini.parseJSON, parse.
    apply String.eqb_neq in N. rewrite N, D. reflexivity.
  - intros N D. unfold Gemini.parseJSON, parse.
    apply String.eqb_neq in N. rewrite N, D. cbn.
    destruct (JSON_parse rt (Text.trim (Text.remove_fences text))); reflexivity.
  - intros D. split.
    + unfold Groq.parseJSON, parse. rewrite D. reflexivity.
    + unfold Gemini.parseJSON, parse. cbn [String.eqb Ascii.eqb Bool.eqb].
      rewrite D. cbn [AsyncNotations.catch].
      change (Text.trim (Text.remove_fences "not json at all"))
        with "not json at all".
      rewrite D. reflexivity.
Qed.

Lemma parseJSON_is_total_witness :
  Groq.parseJSON RefRuntime.runtime "not json at all" = Ok JNull
  /\ Gemini.parseJSON RefRuntime.runtime (Some "not json at all") = Ok (JArr []).
Proof.
  apply (parseJSON_is_total RefRuntime.runtime "not json at all").
  vm_compute. reflexivity.
Defined.

(** C5 fails as stated: the static fallback is not free of network calls.
    With its token set, [searchBooks] posts to the inference endpoint and
    resolves to the books of the reply, not to its literal list. *)
Lemma fallback_search_calls_the_network :
  (exists r,
      Fallback.searchBooks RefRuntime.runtime
        (Example.answering Example.hf_only Example.one_title) "dune"
      = ([EnterFallback OpSearchBooks; PostHf r],
         Ok (JArr [JObj [("title", JStr "A");
                         ("id", JStr "fallback-1700000000000-0");
                         ("categories", JArr [JStr "General"]);
                         ("isLocal", JBool false)]])))
  /\ (exists r,
         Fallback.translateText (Example.answering Example.hf_only "Hello") "Bonjour"
         = ([EnterFallback OpTranslateText; PostHf r], Ok (JStr "Hello"))).
Proof. split; eexists; vm_compute; reflexivity. Qed.

(** C5, amended.  [getOnboardingRecommendations] and [generateReviews] of
    the static fallback resolve, for every input and in every world, to
    their literal lists without any network call.  [searchBooks] resolves
    to its literal one-book list without a network call when the token of
    the inference endpoint is absent.  With the token set it posts exactly
    one request, the search prompt with the query, and resolves to the
    literal list when the request fails, when the first generated text of
    the reply holds no JSON array, and when that array has a [null] entry;
    otherwise it resolves to one book for each item of the array, in order:
    the properties of the item with a fresh identifier, the item's
    categories or [General], and the local flag set to false.  With the
    token absent no operation of the static fallback makes a network call,
    and each resolves to its hardcoded response. *)
Theorem fallback_literal_lists (rt : Runtime) (w : World) :
  (forall prefs,
      Fallback.getOnboardingRecommendations prefs
      = ([EnterFallback OpGetOnboardingRecommendations],
         Ok Fallback.offline_recommendations))
  /\ (forall title author,
         Fallback.generateReviews title author
         = ([EnterFallback OpGenerateReviews], Ok Fallback.offline_reviews))
  /\ (forall query,
         (present (VITE_HF_TOKEN (env w)) = false ->
          Fallback.searchBooks rt w query
          = ([EnterFallback OpSearchBooks], Ok Fallback.offline_books))
         /\ (present (VITE_HF_TOKEN (env w)) = true ->
             fst (Fallback.searchBooks rt w query)
             = [EnterFallback OpSearchBooks;
                PostHf (fallback_search_request w query)]
             /\ (hf_fails w (fallback_search_request w query) ->
                 snd (Fallback.searchBooks rt w query)
                 = Ok Fallback.offline_books)
             /\ (forall texts,
                    fetch_hf w (fallback_search_request w query)
                    = HttpSuccess (Some (HfGenerated texts)) ->
                    ((forall items,
                         Fallback.extractJSON rt (generated_text texts)
                         <> JArr items) ->
                     snd (Fallback.searchBooks rt w query)
                     = Ok Fallback.offline_books)
                    /\ (forall items,
                           Fallback.extractJSON rt (generated_text texts)
                           = JArr items ->
                           (existsb nullish items = true ->
                            snd (Fallback.searchBooks rt w query)
                            = Ok Fallback.offline_books)
                           /\ (existsb nullish items = false ->
                               exists books,
                                 snd (Fallback.searchBooks rt w query)
                                 = Ok (JArr books)
                                 /\ Forall2_indexed (fallback_search_book w) 0
                                      items books)))))
  /\ (forall c,
         present (VITE_HF_TOKEN (env w)) = false ->
         invoke (service rt w StaticFallback) c
         = ([EnterFallback (operation c)], Ok (offline_response rt c))).
Proof.
  repeat match goal with |- _ /\ _ => split end.
  - reflexivity.
  - reflexivity.
  - intros query. split.
    + intros K.
      unfold Fallback.searchBooks, Fallback.callLLM, Fallback.API_KEY.
      rewrite K. reflexivity.
    + intros K. exact (fallback_search_with_token rt w query K).
  - intros c K.
    destruct (fallback_offline rt w c (or_introl K)) as [V T].
    specialize (T K).
    destruct (invoke (service rt w StaticFallback) c) as [t r].
    cbn in V, T. subst. reflexivity.
Qed.

Lemma fallback_literal_lists_witness :
  invoke (service RefRuntime.runtime (Example.answering Example.no_credentials "[]")
            StaticFallback) (SearchBooks "dune")
  = ([EnterFallback OpSearchBooks], Ok Fallback.offline_books)
  /\ (exists books,
         snd (Fallback.searchBooks RefRuntime.runtime
                (Example.answering Example.hf_only Example.one_title) "dune")
         = Ok (JArr books)
         /\ Forall2_indexed
              (fallback_search_book
                 (Example.answering Example.hf_only Example.one_title))
              0 [JObj [("title", JStr "A")]] books)
  /\ snd (Fallback.searchBooks RefRuntime.runtime
            (Example.answering Example.hf_only Example.null_entry) "dune")
     = Ok Fallback.offline_books.
Proof.
  split; [| split].
  - apply (fallback_literal_lists RefRuntime.runtime
             (Example.answering Example.no_credentials "[]")).
    reflexivity.
  - destruct (fallback_literal_lists RefRuntime.runtime
                (Example.answering Example.hf_only Example.one_title))
      as (_ & _ & S & _).
    destruct (S "dune") as [_ T].
    destruct (T eq_refl) as (_ & _ & G).
    destruct (G [Some Example.one_title] eq_refl) as [_ A].
    destruct (A [JObj [("title", JStr "A")]] eq_refl) as [_ B].
    exact (B eq_refl).
  - destruct (fallback_literal_lists RefRuntime.runtime
                (Example.answering Example.hf_only Example.null_entry))
      as (_ & _ & S & _).
    destruct (S "dune") as [_ T].
    destruct (T eq_refl) as (_ & _ & G).
    destruct (G [Some Example.null_entry] eq_refl) as [_ A].
    destruct (A [JNull] eq_refl) as [B _].
    exact (B eq_refl).
Defined.

(** C6.  With the credentials absent, [getOnboardingRecommendations] makes
    no network call and resolves to one fixed list of four books (The Great
    Gatsby, 1984, Dune, Sapiens), the same value, ids included, for all
    preferences and in every world.  Only the two credentials the selector
    reads matter for the exported function; the Groq and the Gemini module
    answer the same when their own credential is absent. *)
Theorem onboarding_without_credentials_is_fixed
  (rt : Runtime) (w : World) (prefs : UserPreferences) :
  (present (VITE_GROQ_API_KEY (env w)) = false ->
   present (VITE_GEMINI_API_KEY (env w)) = false ->
   AIProvider.getOnboardingRecommendations rt w prefs
   = ([EnterFallback OpGetOnboardingRecommendations],
      Ok Fallback.offline_recommendations))
  /\ (present (VITE_GROQ_API_KEY (env w)) = false ->
      Groq.getOnboardingRecommendations rt w prefs
      = ([EnterFallback OpGetOnboardingRecommendations],
         Ok Fallback.offline_recommendations))
  /\ (present (process_env_API_KEY (env w)) = false ->
      Gemini.getOnboardingRecommendations rt w prefs
      = ([EnterFallback OpGetOnboardingRecommendations],
         Ok Fallback.offline_recommendations))
  /\ titles Fallback.offline_recommendations
     = [JStr "The Great Gatsby"; JStr "1984"; JStr "Dune"; JStr "Sapiens"].
Proof.
  repeat split.
  - intros G M.
    unfold AIProvider.getOnboardingRecommendations, AIProvider.activeService,
      AIProvider.provider, AIProvider.getProvider.
    rewrite G, M. reflexivity.
  - intros G. unfold Groq.getOnboardingRecommendations, Groq.API_KEY.
    rewrite G. reflexivity.
  - intros G. unfold Gemini.getOnboardingRecommendations, Gemini.API_KEY.
    rewrite G. reflexivity.
Qed.

Lemma onboarding_without_credentials_is_fixed_witness :
  AIProvider.getOnboardingRecommendations RefRuntime.runtime
    (Example.offline Example.no_credentials) Example.some_preferences
  = AIProvider.getOnboardingRecommendations RefRuntime.runtime
      (Example.answering Example.hf_only "[]") Example.other_preferences.
Proof.
  rewrite (proj1 (onboarding_without_credentials_is_fixed RefRuntime.runtime
                    (Example.offline Example.no_credentials)
                    Example.some_preferences) eq_refl eq_refl).
  rewrite (proj1 (onboarding_without_credentials_is_fixed RefRuntime.runtime
                    (Example.answering Example.hf_only "[]")
                    Example.other_preferences) eq_refl eq_refl).
  reflexivity.
Defined.

(** C7.  An empty array is a result, not a failure: when the reply of the
    live provider parses to the empty array, [searchBooks] of the Groq and
    of the Gemini module resolves to the empty list; nothing is thrown, and
    the trace holds the one request to the provider and no event of the
    static fallback. *)
Theorem empty_search_result_is_success (rt : Runtime) (w : World) (query : string) :
  (forall t text,
      Groq.callGroq w (Groq.searchBooks_messages query) true Groq.default_maxTokens
      = (t, Ok text) ->
      Groq.parseJSON rt text = Ok (JArr []) ->
      Groq.searchBooks rt w query = (t, Ok (JArr []))
      /\ existsb is_fallback_event t = false)
  /\ (forall t text,
         present (process_env_API_KEY (env w)) = true ->
         Gemini.generate w (Gemini.searchBooks_prompt query) (Some BookListSchema)
         = (t, Ok text) ->
         Gemini.parseJSON rt text = Ok (JArr []) ->
         Gemini.searchBooks rt w query = (t, Ok (JArr []))
         /\ existsb is_fallback_event t = false).
Proof.
  split.
  - intros t text C P. split.
    + exact (groq_list_mapped rt w _ (Groq.search_item rt w)
               (Fallback.searchBooks rt w query) t text [] (JArr []) C P eq_refl).
    + destruct (callGroq_resolved _ _ _ _ _ _ C) as [_ [r ->]]. reflexivity.
  - intros t text K C P. split.
    + exact (gemini_list_mapped rt w _ BookListSchema (Gemini.search_item w)
               (Fallback.searchBooks rt w query) t text (JArr []) (JArr [])
               K C P eq_refl).
    + destruct (generate_trace _ _ _ _ _ C) as [q ->]. reflexivity.
Qed.

Lemma empty_search_result_is_success_witness :
  (exists r,
      Groq.searchBooks RefRuntime.runtime
        (Example.answering Example.groq_only "[]") "asdfghjkl"
      = ([PostGroq r], Ok (JArr [])))
  /\ (exists q,
         Gemini.searchBooks RefRuntime.runtime
           (Example.answering Example.gemini_only "[]") "asdfghjkl"
         = ([CallGemini q], Ok (JArr []))).
Proof.
  split.
  - eexists.
    apply (proj1 (empty_search_result_is_success RefRuntime.runtime
                    (Example.answering Example.groq_only "[]") "asdfghjkl")
             _ "[]"); reflexivity.
  - eexists.
    apply (proj2 (empty_search_result_is_success RefRuntime.runtime
                    (Example.answering Example.gemini_only "[]") "asdfghjkl")
             _ (Some "[]")); reflexivity.
Defined.

(** C8 fails as stated: of the three optional fields only the cover colour
    and the category list get a default.  The match reason is copied, and a
    parsed item without one comes back with [matchReason] undefined. *)
Lemma match_reason_is_not_defaulted :
  (exists r book,
      Groq.getOnboardingRecommendations RefRuntime.runtime
        (Example.answering Example.groq_only Example.one_title)
        Example.some_preferences
      = ([PostGroq r], Ok (JArr [book]))
      /\ field "title" book = JStr "A"
      /\ field "matchReason" book = JUndefined
      /\ field "coverColor" book = JStr "#e2e8f0"
      /\ field "categories" book = JArr [])
  /\ (exists q book,
         Gemini.getOnboardingRecommendations RefRuntime.runtime
           (Example.answering Example.gemini_only Example.one_title)
           Example.some_preferences
         = ([CallGemini q], Ok (JArr [book]))
         /\ field "matchReason" book = JUndefined).
Proof.
  split; do 2 eexists;
    repeat match goal with |- _ /\ _ => split end; vm_compute; reflexivity.
Qed.


(** C8, amended.  In every list of books an adapter builds from the
    provider's reply (the trace shows no event of the static fallback),
    the trace is the one request of the operation, the reply to that
    request parses to an array, the result has one book for each item of
    that array, in order, and the cover colour and category list of the
    book are the item's or, when those are missing or otherwise falsy, the
    literals of the adapter (["#e2e8f0"] or ["#cbd5e1"] for Groq,
    ["#E2E8F0"] for Gemini, and the empty list), so neither is ever
    undefined.  The match reason gets no default: the recommendation and
    concierge mappings copy the item's, and the search mappings set none.
    The suggestions of a concierge answer are built in the same way from
    [data.suggestions || []], where [data] is the parsed reply. *)
Theorem optional_fields_of_live_books (rt : Runtime) (w : World)
  (t : list Event) (v : JsVal) :
  (forall query,
      Groq.searchBooks rt w query = (t, Ok v) -> live t ->
      exists items books,
        parsed_from_groq rt w (Groq.searchBooks_messages query) t items
        /\ v = JArr books
        /\ Forall2 (fun item book =>
                      colour_and_categories_defaulted "#e2e8f0" item book
                      /\ no_match_reason book) items books)
  /\ (forall prefs,
         Groq.getOnboardingRecommendations rt w prefs = (t, Ok v) -> live t ->
         exists items books,
           parsed_from_groq rt w (Groq.getOnboardingRecommendations_messages prefs)
             t items
           /\ v = JArr books
           /\ Forall2 (fun item book =>
                         colour_and_categories_defaulted "#e2e8f0" item book
                         /\ match_reason_copied item book) items books)
  /\ (forall query,
         Gemini.searchBooks rt w query = (t, Ok v) -> live t ->
         exists items books,
           parsed_from_gemini rt w (Gemini.searchBooks_prompt query)
             BookListSchema t items
           /\ v = JArr books
           /\ Forall2 (fun item book =>
                         colour_and_categories_defaulted "#E2E8F0" item book
                         /\ no_match_reason book) items books)
  /\ (forall prefs,
         Gemini.getOnboardingRecommendations rt w prefs = (t, Ok v) -> live t ->
         exists items books,
           parsed_from_gemini rt w (Gemini.getOnboardingRecommendations_prompt prefs)
             RecommendationListSchema t items
           /\ v = JArr books
           /\ Forall2 (fun item book =>
                         colour_and_categories_defaulted "#E2E8F0" item book
                         /\ match_reason_copied item book) items books)
  /\ (forall userMessage history,
         Groq.consultConcierge rt w userMessage history = (t, Ok v) -> live t ->
         exists r text data,
           t = [PostGroq r]
           /\ messages r = Groq.consultConcierge_messages userMessage history
           /\ json_object_format r = true
           /\ groq_reply w r text
           /\ Groq.parseJSON rt text = Ok data
           /\ (truthy data = false -> field "suggestions" v = JArr [])
           /\ (truthy data = true ->
               exists items books,
                 listed_suggestions data = JArr items
                 /\ field "suggestions" v = JArr books
                 /\ Forall2 (fun item book =>
                               colour_and_categories_defaulted "#cbd5e1" item book
                               /\ match_reason_copied item book) items books))
  /\ (forall userMessage history,
         Gemini.consultConcierge rt w userMessage history = (t, Ok v) -> live t ->
         exists q response_text data items books,
           t = [CallGemini q]
           /\ contents q = Gemini.consultConcierge_prompt rt userMessage history
           /\ responseSchema q = Some ConciergeSchema
           /\ generateContent w q = Ok response_text
           /\ Gemini.parseJSON rt response_text = Ok data
           /\ listed_suggestions data = JArr items
           /\ field "suggestions" v = JArr books
           /\ Forall2 (fun item book =>
                         colour_and_categories_defaulted "#E2E8F0" item book
                         /\ match_reason_copied item book) items books)
  /\ (forall item book index,
         Groq.suggestion_item rt w "groq-concierge-" "#cbd5e1" item index = Ok book ->
         colour_and_categories_defaulted "#cbd5e1" item book
         /\ match_reason_copied item book)
  /\ (forall item book index,
         Gemini.suggestion_item w "concierge-" item index = Ok book ->
         colour_and_categories_defaulted "#E2E8F0" item book
         /\ match_reason_copied item book).
Proof.
  repeat match goal with |- _ /\ _ => split end.
  - intros query E L.
    destruct (groq_list_parsed rt w _ (Groq.search_item rt w)
                (Fallback.searchBooks rt w query)
                (fallback_not_live rt w (SearchBooks query)) t v E L)
      as (items & books & P & -> & M).
    exists items, books. split; [exact P | split; [reflexivity |]].
    eapply Forall2_impl; [| exact (map_indexed_pairs _ _ _ M)]. cbv beta.
    intros a b [i H]. split.
    + exact (groq_search_item_defaults rt w a b i H).
    + exact (groq_search_item_no_reason rt w a b i H).
  - intros prefs E L.
    destruct (groq_list_parsed rt w _ (Groq.suggestion_item rt w "groq-rec-" "#e2e8f0")
                (Fallback.getOnboardingRecommendations prefs)
                (fallback_not_live rt w (GetOnboardingRecommendations prefs)) t v E L)
      as (items & books & P & -> & M).
    exists items, books. split; [exact P | split; [reflexivity |]].
    eapply Forall2_impl; [| exact (map_indexed_pairs _ _ _ M)]. cbv beta.
    intros a b [i H].
    apply (groq_suggestion_item_defaults rt w "groq-rec-" "#e2e8f0" a b i);
      [discriminate | exact H].
  - intros query E L.
    destruct (gemini_list_parsed rt w _ BookListSchema (Gemini.search_item w)
                (Fallback.searchBooks rt w query)
                (fallback_not_live rt w (SearchBooks query)) t v E L)
      as (items & books & P & -> & M).
    exists items, books. split; [exact P | split; [reflexivity |]].
    eapply Forall2_impl; [| exact (map_indexed_pairs _ _ _ M)]. cbv beta.
    intros a b [i H]. split.
    + exact (gemini_search_item_defaults w a b i H).
    + exact (gemini_search_item_no_reason w a b i H).
  - intros prefs E L.
    destruct (gemini_list_parsed rt w _ RecommendationListSchema
                (Gemini.suggestion_item w "gemini-onboarding-")
                (Fallback.getOnboardingRecommendations prefs)
                (fallback_not_live rt w (GetOnboardingRecommendations prefs)) t v E L)
      as (items & books & P & -> & M).
    exists items, books. split; [exact P | split; [reflexivity |]].
    eapply Forall2_impl; [| exact (map_indexed_pairs _ _ _ M)]. cbv beta.
    intros a b [i H]. exact (gemini_suggestion_item_defaults w _ a b i H).
  - intros userMessage history E L.
    destruct (groq_concierge_parsed rt w userMessage history t v E L)
      as (r & text & data & Ht & Hm & Hj & Hr & P & Hfalse & Htrue).
    exists r, text, data.
    do 5 (split; [assumption |]). split.
    + intros F. rewrite (Hfalse F). reflexivity.
    + intros T. destruct (Htrue T) as (items & books & LS & M & ->).
      exists items, books. split; [exact LS | split; [reflexivity |]].
      eapply Forall2_impl; [| exact (map_indexed_pairs _ _ _ M)]. cbv beta.
      intros a b [i H].
      apply (groq_suggestion_item_defaults rt w "groq-concierge-" "#cbd5e1" a b i);
        [discriminate | exact H].
  - intros userMessage history E L.
    destruct (gemini_concierge_parsed rt w userMessage history t v E L)
      as (q & text & data & items & books & Ht & Hp & Hs & Hg & P & LS & M & ->).
    exists q, text, data, items, books.
    do 6 (split; [assumption |]). split; [reflexivity |].
    eapply Forall2_impl; [| exact (map_indexed_pairs _ _ _ M)]. cbv beta.
    intros a b [i H]. exact (gemini_suggestion_item_defaults w _ a b i H).
  - intros item book index H.
    apply (groq_suggestion_item_defaults rt w "groq-concierge-" "#cbd5e1" item book index);
      [discriminate | exact H].
  - intros item book index H.
    exact (gemini_suggestion_item_defaults w _ item book index H).
Qed.

Lemma optional_fields_of_live_books_witness :
  exists t items books,
    parsed_from_groq RefRuntime.runtime
      (Example.answering Example.groq_only Example.one_title)
      (Groq.searchBooks_messages "dune") t items
    /\ Groq.searchBooks RefRuntime.runtime
         (Example.answering Example.groq_only Example.one_title) "dune"
       = (t, Ok (JArr books))
    /\ Forall2 (fun item book =>
                  colour_and_categories_defaulted "#e2e8f0" item book
                  /\ no_match_reason book) items books.
Proof.
  set (w := Example.answering Example.groq_only Example.one_title).
  destruct (Groq.searchBooks RefRuntime.runtime w "dune") as [t [v | e]] eqn:E;
    [| vm_compute in E; discriminate E].
  assert (L : live t).
  { vm_compute in E. injection E as <- _. reflexivity. }
  destruct (proj1 (optional_fields_of_live_books RefRuntime.runtime w t v) "dune" E L)
    as (items & books & P & -> & F).
  exists t, items, books. split; [exact P | split; [reflexivity | exact F]].
Defined.

(** C9 fails as stated: the rating the Groq module clamps is the item's
    rating or 4 when that rating is falsy, not only when it is missing, so a
    rating of 0 comes back as 4 where the formula of the claim gives 1; and
    a rating that does not convert to a number comes back as NaN, outside
    the range. *)
Lemma groq_rating_of_zero_is_four :
  exists r zero nine odd,
    Groq.generateReviews RefRuntime.runtime
      (Example.answering Example.groq_only Example.odd_ratings)
      "Dune" "Frank Herbert"
    = ([PostGroq r], Ok (JArr [zero; nine; odd]))
    /\ field "rating" zero = num 4
    /\ clamp (Fin 0) = Fin 1
    /\ field "rating" nine = num 5
    /\ field "rating" odd = JNum NaN
    /\ in_rating_range NaN = false.
Proof.
  do 4 eexists.
  repeat match goal with |- _ /\ _ => split end; vm_compute; reflexivity.
Qed.

(** C9, amended.  The two adapters differ.  In every list of reviews an
    adapter builds from the provider's reply (the trace shows no event of
    the static fallback), the trace is the one request of the operation, the
    reply to that request parses to an array, and the result has one review
    for each item of that array, in order.  In the Groq module the rating of
    the review is [Math.min(5, Math.max(1, r))] where [r] is the rating of
    the item, or 4 when that rating is missing or otherwise falsy (0, null,
    an empty string), converted to a number; it lies between 1 and 5
    whenever the item's rating is a number or falsy, and in general unless
    the conversion gives NaN.  The Gemini module copies the rating of the
    item unchanged. *)
Theorem ratings_of_live_reviews (rt : Runtime) (w : World)
  (t : list Event) (v : JsVal) :
  (forall title author,
      Groq.generateReviews rt w title author = (t, Ok v) -> live t ->
      exists items reviews,
        parsed_from_groq rt w (Groq.generateReviews_messages title author) t items
        /\ v = JArr reviews
        /\ Forall2 (rating_clamped rt) items reviews)
  /\ (forall title author,
         Gemini.generateReviews rt w title author = (t, Ok v) -> live t ->
         exists items reviews,
           parsed_from_gemini rt w (Gemini.generateReviews_prompt title author)
             ReviewListSchema t items
           /\ v = JArr reviews
           /\ Forall2 rating_copied items reviews).
Proof.
  split.
  - intros title author E L.
    destruct (groq_list_parsed rt w _ (Groq.review_item rt)
                (Fallback.generateReviews title author)
                (fallback_not_live rt w (GenerateReviews title author)) t v E L)
      as (items & reviews & P & -> & M).
    exists items, reviews. split; [exact P | split; [reflexivity |]].
    eapply Forall2_impl; [| exact (map_indexed_pairs _ _ _ M)]. cbv beta.
    intros a b [i H]. exact (groq_review_item_rating rt a b i H).
  - intros title author E L.
    destruct (gemini_list_parsed rt w _ ReviewListSchema Gemini.review_item
                (Fallback.generateReviews title author)
                (fallback_not_live rt w (GenerateReviews title author)) t v E L)
      as (items & reviews & P & -> & M).
    exists items, reviews. split; [exact P | split; [reflexivity |]].
    eapply Forall2_impl; [| exact (map_indexed_pairs _ _ _ M)]. cbv beta.
    intros a b [i H]. exact (gemini_review_item_rating a b i H).
Qed.

Lemma ratings_of_live_reviews_witness :
  exists t items zero nine odd,
    parsed_from_gemini RefRuntime.runtime
      (Example.answering Example.gemini_only Example.odd_ratings)
      (Gemini.generateReviews_prompt "Dune" "Frank Herbert")
      ReviewListSchema t items
    /\ Gemini.generateReviews RefRuntime.runtime
         (Example.answering Example.gemini_only Example.odd_ratings)
         "Dune" "Frank Herbert"
       = (t, Ok (JArr [zero; nine; odd]))
    /\ field "rating" nine = num 9
    /\ Forall2 rating_copied items [zero; nine; odd].
Proof.
  set (w := Example.answering Example.gemini_only Example.odd_ratings).
  destruct (Gemini.generateReviews RefRuntime.runtime w "Dune" "Frank Herbert")
    as [t [v | e]] eqn:E; [| vm_compute in E; discriminate E].
  assert (L : live t).
  { vm_compute in E. injection E as <- _. reflexivity. }
  destruct (proj2 (ratings_of_live_reviews RefRuntime.runtime w t v)
              "Dune" "Frank Herbert" E L) as (items & reviews & P & -> & F).
  assert (R : exists zero nine odd,
             reviews = [zero; nine; odd] /\ field "rating" nine = num 9).
  { vm_compute in E. injection E as _ E. subst reviews.
    do 3 eexists. split; reflexivity. }
  destruct R as (zero & nine & odd & -> & N).
  exists t, items, zero, nine, odd.
  split; [exact P | split; [reflexivity | split; [exact N | exact F]]].
Defined.

(** C10.  Whenever [translateText] of the Groq module takes the fallback
    path (its credential is absent, or its call to Groq throws), the target
    language has no influence: for the same text and any two targets, given
    or defaulted, the two calls resolve to the same value, which is the
    value of the fallback's own [translateText]; they enter the fallback
    and do the same things there.  The Groq module passes only the text on,
    and the request the fallback posts always asks for a translation to
    English. *)
Theorem fallback_translation_ignores_target (w : World) (text : string)
  (target1 target2 : option string) :
  takes_fallback_path w text target1 ->
  takes_fallback_path w text target2 ->
  snd (Groq.translateText w text target1) = snd (Groq.translateText w text target2)
  /\ snd (Groq.translateText w text target1) = snd (Fallback.translateText w text)
  /\ filter is_fallback_event (fst (Groq.translateText w text target1))
     = filter is_fallback_event (fst (Groq.translateText w text target2))
  /\ In (EnterFallback OpTranslateText) (fst (Groq.translateText w text target1))
  /\ (forall r,
         In (PostHf r) (fst (Groq.translateText w text target1)) ->
         inputs r = english_translation_inputs text).
Proof.
  intros T1 T2.
  destruct (groq_translate_on_fallback_path w text target1 T1) as (p1 & E1 & P1).
  destruct (groq_translate_on_fallback_path w text target2 T2) as (p2 & E2 & P2).
  rewrite E1, E2. cbn [fst snd].
  assert (F : forall p, p = [] \/ (exists r, p = [PostGroq r]) ->
                        filter is_fallback_event (p ++ fst (Fallback.translateText w text))
                        = filter is_fallback_event (fst (Fallback.translateText w text))).
  { intros p [-> | [r ->]]; reflexivity. }
  repeat match goal with |- _ /\ _ => split end.
  - reflexivity.
  - reflexivity.
  - rewrite (F p1 P1), (F p2 P2). reflexivity.
  - apply in_or_app. right.
    destruct (fallback_enters RefRuntime.runtime w (TranslateText text None)) as [t E].
    change (fst (Fallback.translateText w text) = EnterFallback OpTranslateText :: t) in E.
    rewrite E. left. reflexivity.
  - intros r I. apply in_app_or in I. destruct I as [I | I].
    + destruct P1 as [-> | [r' ->]]; [destruct I |].
      destruct I as [I | []]. discriminate I.
    + destruct (fallback_translate_trace w text _ I) as [D | (r' & D & Q)].
      * discriminate D.
      * inversion D. subst. exact Q.
Qed.

Lemma fallback_translation_ignores_target_witness :
  snd (Groq.translateText (Example.offline Example.groq_only) "Bonjour" (Some "German"))
  = snd (Groq.translateText (Example.offline Example.groq_only) "Bonjour" None).
Proof.
  apply (fallback_translation_ignores_target (Example.offline Example.groq_only)
           "Bonjour" (Some "German") None).
  - right. do 2 eexists. vm_compute. reflexivity.
  - right. do 2 eexists. vm_compute. reflexivity.
Defined.

(** * Further properties of the services *)

(** The traces a capability call can leave, whichever module serves it. *)
Lemma trace_shapes (rt : Runtime) (w : World) (a : Adapter) (c : Call) :
  exists head tail,
    fst (invoke (service rt w a) c) = head ++ tail
    /\ (head = []
        \/ (a = GroqAdapter /\ present (VITE_GROQ_API_KEY (env w)) = true
            /\ exists r, head = [PostGroq r]
               /\ groq_bearer r
                  = ("Bearer " ++ key_text (VITE_GROQ_API_KEY (env w)))%string
               /\ json_object_format r
                  = match declared_shape (operation c) with
                    | TextShape => false
                    | _ => true
                    end)
        \/ (a = GeminiAdapter /\ present (process_env_API_KEY (env w)) = true
            /\ exists r, head = [CallGemini r]))
    /\ (tail = []
        \/ tail = [EnterFallback (operation c)]
        \/ (present (VITE_HF_TOKEN (env w)) = true
            /\ exists r, tail = [EnterFallback (operation c); PostHf r]
               /\ hf_bearer r
                  = ("Bearer " ++ key_text (VITE_HF_TOKEN (env w)))%string)).
Proof.
  assert (F := fallback_trace rt w c).
  destruct a.
  - destruct (groq_trace rt w c) as [[P E] | [P (r & tail & E & B & J & T)]].
    + exists [], (fst (invoke (service rt w StaticFallback) c)).
      split; [exact E |]. split; [left; reflexivity | right; exact F].
    + exists [PostGroq r], tail. split; [exact E |]. split.
      * right. left. split; [reflexivity |]. split; [exact P |].
        exists r. split; [reflexivity |]. split; [exact B | exact J].
      * destruct T as [-> | ->]; [left; reflexivity | right; exact F].
  - destruct (gemini_trace rt w c) as [[P E] | [P (r & tail & E & T)]].
    + exists [], (fst (invoke (service rt w StaticFallback) c)).
      split; [exact E |]. split; [left; reflexivity | right; exact F].
    + exists [CallGemini r], tail. split; [exact E |]. split.
      * right. right. split; [reflexivity |]. split; [exact P |].
        exists r. reflexivity.
      * destruct T as [-> | ->]; [left; reflexivity | right; exact F].
  - exists [], (fst (invoke (service rt w StaticFallback) c)).
    split; [reflexivity |]. split; [left; reflexivity | right; exact F].
Qed.

#[local] Ltac split_trace rt w a c :=
  let head := fresh "head" in
  let tail := fresh "tail" in
  let E := fresh "E" in
  let H := fresh "H" in
  let T := fresh "T" in
  destruct (trace_shapes rt w a c) as (head & tail & E & H & T);
  rewrite E; clear E;
  destruct H as [-> | [(Ha & Pg & rg & -> & Bg & Jg) | (Ha & Pm & rm & ->)]];
  destruct T as [-> | [-> | (Ph & rh & -> & Bh)]].

(** X1. A capability call sends at most one request to a provider and at
    most one to the inference endpoint of the static fallback, whichever
    module serves it: nothing is retried, the Groq module never calls Gemini
    and the Gemini module never calls Groq, and a module without its
    credential sends nothing to its provider.  The provider request, when
    there is one, is the first thing the call does. *)
Theorem at_most_one_request_per_endpoint (rt : Runtime) (w : World)
  (a : Adapter) (c : Call) :
  (requests is_groq_request (fst (invoke (service rt w a) c))
   + requests is_gemini_request (fst (invoke (service rt w a) c)) <= 1)%nat
  /\ (requests is_hf_request (fst (invoke (service rt w a) c)) <= 1)%nat
  /\ (a <> GroqAdapter ->
      requests is_groq_request (fst (invoke (service rt w a) c)) = 0%nat)
  /\ (a <> GeminiAdapter ->
      requests is_gemini_request (fst (invoke (service rt w a) c)) = 0%nat)
  /\ (present (VITE_GROQ_API_KEY (env w)) = false ->
      requests is_groq_request (fst (invoke (service rt w a) c)) = 0%nat)
  /\ (present (process_env_API_KEY (env w)) = false ->
      requests is_gemini_request (fst (invoke (service rt w a) c)) = 0%nat)
  /\ (present (VITE_HF_TOKEN (env w)) = false ->
      requests is_hf_request (fst (invoke (service rt w a) c)) = 0%nat)
  /\ (forall pre e post,
         fst (invoke (service rt w a) c) = pre ++ e :: post ->
         is_groq_request e || is_gemini_request e = true ->
         pre = []).
Proof.
  repeat split; intros;
    try match goal with
        | H : fst _ = ?pre ++ ?e :: _, H' : _ || _ = true |- ?pre = [] =>
            revert H H'
        end;
    split_trace rt w a c; cbn [requests filter length app is_groq_request
                               is_gemini_request is_hf_request Nat.add];
    try lia; try congruence;
    try (intros Hpre Hprovider;
         destruct pre as [| ? pre]; [reflexivity | exfalso];
         cbn [app] in Hpre;
         do 3 (try (destruct pre as [| ? pre]));
         inversion Hpre; subst; discriminate Hprovider).
Qed.

(** X2. Every request a capability call sends carries the credential of
    its own endpoint and nothing is sent without one: a request to Groq is
    sent only by the Groq module, only when the Groq key is set, with the
    header [Bearer <key>], and asks for a JSON object exactly when the
    operation returns a list or a concierge answer; a request to Gemini is
    sent only by the Gemini module when its key is set; a request to the
    inference endpoint is sent only when the token is set, with the header
    [Bearer <token>]; and the only fallback operation a call enters is its
    own. *)
Theorem requests_carry_own_credential (rt : Runtime) (w : World)
  (a : Adapter) (c : Call) (e : Event) :
  In e (fst (invoke (service rt w a) c)) ->
  match e with
  | PostGroq r =>
      a = GroqAdapter
      /\ present (VITE_GROQ_API_KEY (env w)) = true
      /\ groq_bearer r = ("Bearer " ++ key_text (VITE_GROQ_API_KEY (env w)))%string
      /\ json_object_format r
         = match declared_shape (operation c) with
           | TextShape => false
           | _ => true
           end
  | CallGemini r =>
      a = GeminiAdapter /\ present (process_env_API_KEY (env w)) = true
  | PostHf r =>
      present (VITE_HF_TOKEN (env w)) = true
      /\ hf_bearer r = ("Bearer " ++ key_text (VITE_HF_TOKEN (env w)))%string
  | EnterFallback op => op = operation c
  end.
Proof.
  split_trace rt w a c; cbn [app In]; intros Hin;
    repeat match goal with
           | H : _ \/ _ |- _ => destruct H as [H | H]
           | H : False |- _ => destruct H
           end;
    subst e; repeat split; assumption || reflexivity.
Qed.

Lemma requests_carry_own_credential_witness :
  exists r,
    In (PostGroq r)
       (fst (invoke (service RefRuntime.runtime
                       (Example.offline Example.groq_only) GroqAdapter)
               (GetBookRecap "Dune")))
    /\ groq_bearer r = "Bearer gsk_live"
    /\ json_object_format r = false.
Proof.
  eexists. split; [left; reflexivity |].
  exact (let H := requests_carry_own_credential RefRuntime.runtime
                    (Example.offline Example.groq_only) GroqAdapter
                    (GetBookRecap "Dune") _ (or_introl eq_refl) in
         conj (proj1 (proj2 (proj2 H))) (proj2 (proj2 (proj2 H)))).
Defined.

(** ** The conversation history *)

Lemma last_n_app {A} (n : nat) (older recent : list A) :
  (n <= length recent)%nat ->
  Text.last_n n (older ++ recent) = Text.last_n n recent.
Proof.
  intros H. unfold Text.last_n. rewrite length_app, skipn_app.
  rewrite skipn_all2 by lia. simpl. f_equal. lia.
Qed.

(** X3. Only the most recent turns of a conversation reach a provider:
    the concierge of the Groq and of the Gemini module depends on the
    history through its last six entries only, the book chat of the Groq
    module through its last four, the book chat of the Gemini module through
    its last five, and the static fallback ignores the history altogether.
    So two histories that agree on these entries give the same requests and
    the same answer; in particular older turns put in front of a history
    that is already that long change nothing. *)
Theorem only_recent_history_matters (rt : Runtime) (w : World)
  (title message : string) (h1 h2 : list HistoryEntry) :
  (Text.last_n 6 h1 = Text.last_n 6 h2 ->
   Groq.consultConcierge rt w message h1 = Groq.consultConcierge rt w message h2
   /\ Gemini.consultConcierge rt w message h1
      = Gemini.consultConcierge rt w message h2)
  /\ (Text.last_n 4 h1 = Text.last_n 4 h2 ->
      Groq.chatAboutBook w title message h1 = Groq.chatAboutBook w title message h2)
  /\ (Text.last_n 5 h1 = Text.last_n 5 h2 ->
      Gemini.chatAboutBook rt w title message h1
      = Gemini.chatAboutBook rt w title message h2)
  /\ Fallback.consultConcierge rt w message h1
     = Fallback.consultConcierge rt w message h2
  /\ Fallback.chatAboutBook w title message h1
     = Fallback.chatAboutBook w title message h2
  /\ (forall n (older : list HistoryEntry),
         (n <= length h2)%nat -> Text.last_n n (older ++ h2) = Text.last_n n h2).
Proof.
  split; [| split; [| split; [| split; [| split]]]].
  - intros E. split.
    + unfold Groq.consultConcierge, Groq.consultConcierge_messages,
        Groq.chat_history. rewrite E. reflexivity.
    + unfold Gemini.consultConcierge, Gemini.consultConcierge_prompt.
      rewrite E. reflexivity.
  - intros E. unfold Groq.chatAboutBook, Groq.chatAboutBook_messages,
      Groq.chat_history. rewrite E. reflexivity.
  - intros E. unfold Gemini.chatAboutBook, Gemini.chatAboutBook_prompt.
    rewrite E. reflexivity.
  - reflexivity.
  - reflexivity.
  - intros n older H. apply last_n_app. exact H.
Qed.

Lemma only_recent_history_matters_witness :
  Groq.chatAboutBook (Example.answering Example.groq_only "Paul Atreides.")
    "Dune" "Who is the hero?"
    [ {| role := RoleUser; text := "one" |}; {| role := RoleModel; text := "two" |};
      {| role := RoleUser; text := "three" |}; {| role := RoleModel; text := "four" |};
      {| role := RoleUser; text := "five" |} ]
  = Groq.chatAboutBook (Example.answering Example.groq_only "Paul Atreides.")
      "Dune" "Who is the hero?"
      [ {| role := RoleModel; text := "two" |};
        {| role := RoleUser; text := "three" |}; {| role := RoleModel; text := "four" |};
        {| role := RoleUser; text := "five" |} ].
Proof.
  apply (only_recent_history_matters RefRuntime.runtime
           (Example.answering Example.groq_only "Paul Atreides.")
           "Dune" "Who is the hero?").
  reflexivity.
Defined.

(** ** Text answers *)

(** The outcome of [try { return g (await m) } catch { return F }]. *)
Lemma text_outcome {B} (m : Async B) (g : B -> JsVal) (F : Async JsVal)
  (t : list Event) (v : JsVal) :
  AsyncNotations.adopt
    (AsyncNotations.try_catch
       (AsyncNotations.bind m
          (fun x => AsyncNotations.ret (AsyncNotations.ret (g x))))
       (fun _ => AsyncNotations.ret F)) = (t, Ok v) ->
  (exists x, m = (t, Ok x) /\ v = g x)
  \/ (exists t1, t = t1 ++ fst F).
Proof.
  destruct m as [t1 [x | e]]; simpl.
  - intros E. inversion E. subst. left. exists x. rewrite !app_nil_r.
    split; reflexivity.
  - destruct F as [tf rf]. simpl. intros E. inversion E. subst.
    right. exists t1. rewrite app_nil_r. reflexivity.
Qed.

Lemma not_live_after_fallback (rt : Runtime) (w : World) (c : Call)
  (t1 : list Event) :
  ~ live (t1 ++ fst (invoke (service rt w StaticFallback) c)).
Proof.
  intros L. apply live_app in L. destruct L as [_ L].
  exact (fallback_not_live rt w c L).
Qed.

#[local] Ltac after_fallback rt w t1 L :=
  match type of L with
  | live (_ ++ fst (Fallback.chatAboutBook _ ?a ?b ?c)) =>
      exact (not_live_after_fallback rt w (ChatAboutBook a b c) t1 L)
  | live (_ ++ fst (Fallback.translateText _ ?a)) =>
      match goal with
      | l : option string |- _ =>
          exact (not_live_after_fallback rt w (TranslateText a l) t1 L)
      end
  | live (_ ++ fst (Fallback.explainContext _ ?a ?b)) =>
      exact (not_live_after_fallback rt w (ExplainContext a b) t1 L)
  | live (_ ++ fst (Fallback.getBookSummary _ ?a)) =>
      exact (not_live_after_fallback rt w (GetBookSummary a) t1 L)
  | live (_ ++ fst (Fallback.getBookRecap _ ?a)) =>
      exact (not_live_after_fallback rt w (GetBookRecap a) t1 L)
  end.

Lemma text_or_not_empty (response_text : option string) (default : string) :
  default <> "" -> Gemini.text_or response_text default <> "".
Proof.
  intros D. unfold Gemini.text_or. destruct response_text as [s |]; [| exact D].
  destruct (String.eqb s "") eqn:E; [exact D |].
  apply String.eqb_neq in E. exact E.
Qed.

(** X4. What a text operation other than [generateBookContent] answers
    when it is served without the static fallback.  The Groq module returns
    the content of the first choice of the completion unchanged, and the
    empty string when that content is missing or empty.  The Gemini module
    returns the text of the response, or a fixed non-empty sentence of the
    operation when the response has no text or an empty one: its answer is
    never the empty string. *)
Theorem live_text_answers (rt : Runtime) (w : World) (c : Call)
  (t : list Event) (v : JsVal) :
  declared_shape (operation c) = TextShape ->
  operation c <> OpGenerateBookContent ->
  live t ->
  (invoke (service rt w GroqAdapter) c = (t, Ok v) ->
   exists r contents,
     t = [PostGroq r]
     /\ fetch_groq w r = HttpSuccess (Some (Choices contents))
     /\ v = JStr (match contents with Some text :: _ => text | _ => "" end))
  /\ (invoke (service rt w GeminiAdapter) c = (t, Ok v) ->
      exists r response_text default,
        t = [CallGemini r]
        /\ generateContent w r = Ok response_text
        /\ default <> ""
        /\ v = JStr (Gemini.text_or response_text default)
        /\ v <> JStr "").
Proof.
  intros S N L. split.
  - destruct (present (VITE_GROQ_API_KEY (env w))) eqn:P.
    2:{ rewrite (groq_without_key rt w c P). intros E. exfalso.
        apply (not_live_after_fallback rt w c []). cbn [app]. rewrite E. exact L. }
    destruct c; try discriminate S; try (exfalso; apply N; reflexivity);
      unfold_services;
      unfold Groq.chatAboutBook, Groq.translateText, Groq.explainContext,
        Groq.getBookSummary, Groq.getBookRecap, Groq.API_KEY;
      rewrite P; cbn [negb]; intros E;
      apply text_outcome in E;
      (destruct E as [(x & C & ->) | (t1 & ->)];
       [ apply callGroq_success in C; destruct C as (r & contents & -> & F & ->);
         exists r, contents; repeat split; exact F
       | exfalso ]).
    all: after_fallback rt w t1 L.
  - destruct (present (process_env_API_KEY (env w))) eqn:P.
    2:{ rewrite (gemini_without_key rt w c P). intros E. exfalso.
        apply (not_live_after_fallback rt w c []). cbn [app]. rewrite E. exact L. }
    destruct c; try discriminate S; try (exfalso; apply N; reflexivity);
      unfold_services;
      unfold Gemini.chatAboutBook, Gemini.translateText, Gemini.explainContext,
        Gemini.getBookSummary, Gemini.getBookRecap, Gemini.API_KEY;
      rewrite P; cbn [negb]; intros E;
      apply text_outcome in E;
      (destruct E as [(x & C & ->) | (t1 & ->)];
       [ apply generate_success in C; destruct C as (r & -> & G);
         exists r, x; eexists; split; [reflexivity |]; split; [exact G |];
         assert (D : forall d : string, d <> "" ->
                       d <> "" /\ JStr (Gemini.text_or x d) = JStr (Gemini.text_or x d)
                       /\ JStr (Gemini.text_or x d) <> JStr "")
           by (intros d Hd; split; [exact Hd |]; split; [reflexivity |];
               intros Q; inversion Q as [Q']; exact (text_or_not_empty x d Hd Q'));
         apply D; discriminate
       | exfalso ]).
    all: after_fallback rt w t1 L.
Qed.

Lemma live_text_answers_witness :
  exists r response_text default,
    fst (invoke (service RefRuntime.runtime
                   (Example.answering Example.gemini_only "") GeminiAdapter)
           (GetBookSummary "Dune")) = [CallGemini r]
    /\ generateContent (Example.answering Example.gemini_only "") r = Ok response_text
    /\ default <> ""
    /\ JStr "Summary unavailable." = JStr (Gemini.text_or response_text default)
    /\ JStr "Summary unavailable." <> JStr "".
Proof.
  destruct (live_text_answers RefRuntime.runtime
              (Example.answering Example.gemini_only "") (GetBookSummary "Dune")
              (fst (invoke (service RefRuntime.runtime
                              (Example.answering Example.gemini_only "")
                              GeminiAdapter) (GetBookSummary "Dune")))
              (JStr "Summary unavailable.") eq_refl) as [_ H].
  - discriminate.
  - reflexivity.
  - exact (H eq_refl).
Defined.

(** ** The text of a chapter *)

Lemma fallback_content_not_empty (rt : Runtime) (w : World) (title author : string)
  (chapter : option JsNum) :
  exists s, snd (Fallback.generateBookContent rt w title author chapter) = Ok (JStr s)
            /\ s <> "".
Proof.
  unfold Fallback.generateBookContent.
  destruct (Fallback.callLLM w _ _) as [t [text | e]]; simpl.
  - destruct (String.eqb text "") eqn:E.
    + eexists. split; [reflexivity | discriminate].
    + exists text. split; [reflexivity |]. apply String.eqb_neq. exact E.
  - eexists. split; [reflexivity |]. unfold Fallback.content_unavailable.
    simpl. discriminate.
Qed.

(** X5. The Groq module and the static fallback never answer
    [generateBookContent] with an empty text: an empty completion is handed
    to the fallback, which replaces an empty generation by a fixed paragraph
    and a failure by a notice that names the chapter and the title.  The
    Gemini module gives no such guarantee: it removes the fence marks and
    trims after it has chosen between the response and its default, so a
    response made of fence marks only is answered with the empty string. *)
Theorem chapter_content_is_never_empty (rt : Runtime) (w : World)
  (title author : string) (chapter : option JsNum) :
  (exists s,
      snd (invoke (service rt w GroqAdapter) (GenerateBookContent title author chapter))
      = Ok (JStr s) /\ s <> "")
  /\ (exists s,
         snd (invoke (service rt w StaticFallback)
                (GenerateBookContent title author chapter))
         = Ok (JStr s) /\ s <> "")
  /\ snd (invoke (service RefRuntime.runtime
                    (Example.answering Example.gemini_only
                       (Text.fence ++ "html" ++ Text.fence)%string)
                    GeminiAdapter)
            (GenerateBookContent title author chapter))
     = Ok (JStr "").
Proof.
  split; [| split].
  - unfold_services. unfold Groq.generateBookContent.
    destruct (negb (present (Groq.API_KEY w))).
    + apply fallback_content_not_empty.
    + destruct (Groq.callGroq w _ false 6000) as [t [response | e]]; simpl.
      * destruct (String.eqb response "") eqn:E; simpl.
        -- destruct (fallback_content_not_empty rt w title author
                       (Some (match chapter with Some c => c | None => Fin 1 end)))
             as (s & Es & Hs).
           destruct (Fallback.generateBookContent rt w title author _) as [tf rf].
           simpl in *. exists s. split; assumption.
        -- exists response. split; [reflexivity |]. apply String.eqb_neq. exact E.
      * destruct (fallback_content_not_empty rt w title author
                    (Some (match chapter with Some c => c | None => Fin 1 end)))
          as (s & Es & Hs).
        destruct (Fallback.generateBookContent rt w title author _) as [tf rf].
        simpl in *. exists s. split; assumption.
  - unfold_services. apply fallback_content_not_empty.
  - reflexivity.
Qed.

(** ** Identifiers *)

Lemma append_assoc (a b c : string) :
  ((a ++ b) ++ c)%string = (a ++ (b ++ c))%string.
Proof. induction a as [| x a IH]; simpl; [reflexivity | rewrite IH; reflexivity]. Qed.

Lemma Z_to_string_inj (a b : Z) : Text.Z_to_string a = Text.Z_to_string b -> a = b.
Proof.
  unfold Text.Z_to_string. intros H.
  assert (N : forall z, Z.to_int z <> Decimal.Pos Decimal.Nil
                        /\ Z.to_int z <> Decimal.Neg Decimal.Nil).
  { intros [| p | p]; simpl; split; try discriminate;
      intros E; injection E as E; exact (Unsigned.to_uint_nonnil p E). }
  apply (f_equal NilZero.int_of_string) in H.
  rewrite !NilZero.isi in H by apply N.
  injection H as H. apply DecimalZ.to_int_inj. exact H.
Qed.

Lemma nat_to_string_inj (i j : nat) :
  Text.nat_to_string i = Text.nat_to_string j -> i = j.
Proof.
  unfold Text.nat_to_string. intros H. apply Z_to_string_inj in H. lia.
Qed.

Lemma uint_has_no_dash (d : Decimal.uint) (c : ascii) :
  In c (list_ascii_of_string (NilEmpty.string_of_uint d)) -> c <> "-"%char.
Proof.
  induction d; simpl; intros H; try (destruct H as [<- | H]; [discriminate | auto]).
  destruct H.
Qed.

Lemma nat_to_string_has_no_dash (n : nat) (c : ascii) :
  In c (list_ascii_of_string (Text.nat_to_string n)) -> c <> "-"%char.
Proof.
  unfold Text.nat_to_string, Text.Z_to_string.
  destruct (Z.of_nat n) as [| p | p] eqn:E; [| | lia]; simpl.
  - intros [<- | []]. discriminate.
  - unfold NilZero.string_of_uint.
    destruct (Pos.to_uint p) eqn:U;
      try (rewrite <- U; apply uint_has_no_dash).
    exfalso. exact (Unsigned.to_uint_nonnil p U).
Qed.

Lemma dash_occurs (x v : string) :
  In "-"%char (list_ascii_of_string (x ++ String "-" v)).
Proof. induction x; simpl; [left; reflexivity | right; exact IHx]. Qed.

(** Two texts that end in a dash followed by a number end in the same
    number when they are equal. *)
Lemma suffix_after_dash (x y u v : string) :
  (forall c, In c (list_ascii_of_string u) -> c <> "-"%char) ->
  (forall c, In c (list_ascii_of_string v) -> c <> "-"%char) ->
  (x ++ String "-" u)%string = (y ++ String "-" v)%string -> u = v.
Proof.
  intros Hu Hv. revert y. induction x as [| a x IH]; intros [| b y] E; simpl in E.
  - injection E as E. exact E.
  - injection E as _ E. exfalso. apply (Hu "-"%char); [| reflexivity].
    rewrite E. apply dash_occurs.
  - injection E as _ E. exfalso. apply (Hv "-"%char); [| reflexivity].
    rewrite <- E. apply dash_occurs.
  - injection E as _ E. exact (IH y E).
Qed.

Lemma indexed_id_inj (x y : string) (i j : nat) :
  (x ++ "-" ++ Text.nat_to_string i)%string = (y ++ "-" ++ Text.nat_to_string j)%string ->
  i = j.
Proof.
  intros E. apply nat_to_string_inj.
  apply (suffix_after_dash x y); [apply nat_to_string_has_no_dash .. | exact E].
Qed.

Lemma map_indexed_from_nth {A B} (f : A -> nat -> Completion B) (items : list A) :
  forall (i : nat) (outs : list B),
    AsyncNotations.map_indexed_from f i items = Ok outs ->
    forall k y, nth_error outs k = Some y ->
    exists x, nth_error items k = Some x /\ f x (i + k)%nat = Ok y.
Proof.
  induction items as [| x items IH]; intros i outs E k y Hk; simpl in E.
  - inversion E. subst. destruct k; discriminate Hk.
  - destruct (f x i) as [y0 |] eqn:F; [| discriminate].
    destruct (AsyncNotations.map_indexed_from f (S i) items) as [ys |] eqn:M;
      [| discriminate].
    inversion E. subst. destruct k as [| k]; simpl in Hk.
    + inversion Hk. subst. exists x. rewrite Nat.add_0_r. split; [reflexivity | exact F].
    + destruct (IH (S i) ys M k y Hk) as (x' & Hx & Fx).
      exists x'. split; [exact Hx |]. rewrite Nat.add_succ_r. exact Fx.
Qed.

(** A mapping whose identifiers end in the index of the item gives pairwise
    distinct identifiers. *)
Lemma indexed_ids_distinct (f : JsVal -> nat -> Completion JsVal) (data v : JsVal) :
  (forall item index out,
      f item index = Ok out ->
      exists x, field "id" out = JStr (x ++ "-" ++ Text.nat_to_string index)) ->
  AsyncNotations.array_map f data = Ok v ->
  NoDup (ids v).
Proof.
  intros Hid E. destruct data; try discriminate E. simpl in E.
  destruct (AsyncNotations.map_indexed f items) as [outs |] eqn:M; [| discriminate].
  inversion E. subst. simpl. apply NoDup_nth_error. intros i j Hi Hij.
  rewrite !nth_error_map in Hij. rewrite length_map in Hi.
  destruct (nth_error outs i) as [yi |] eqn:Ei.
  2:{ apply nth_error_None in Ei. lia. }
  destruct (nth_error outs j) as [yj |] eqn:Ej; [| discriminate].
  simpl in Hij. injection Hij as Hij.
  destruct (map_indexed_from_nth f items 0 outs M i yi Ei) as (xi & _ & Fi).
  destruct (map_indexed_from_nth f items 0 outs M j yj Ej) as (xj & _ & Fj).
  destruct (Hid _ _ _ Fi) as (a & Ia). destruct (Hid _ _ _ Fj) as (b & Ib).
  rewrite Ia, Ib in Hij. injection Hij as Hij.
  exact (indexed_id_inj a b i j Hij).
Qed.

#[local] Ltac item_id E x :=
  unfold Groq.search_item, Groq.suggestion_item, Groq.review_item,
    Gemini.search_item, Gemini.suggestion_item, Gemini.review_item in E;
  cbn [AsyncNotations.and_then] in E;
  repeat match type of E with
         | AsyncNotations.and_then ?c _ = _ =>
             destruct c; cbn [AsyncNotations.and_then] in E; [| discriminate E]
         end;
  inversion E; subst; cbn [field lookup String.eqb Ascii.eqb Bool.eqb];
  exists x; rewrite ?append_assoc; reflexivity.

Lemma groq_search_item_id (rt : Runtime) (w : World)
  (item : JsVal) (index : nat) (out : JsVal) :
  Groq.search_item rt w item index = Ok out ->
  exists x, field "id" out = JStr (x ++ "-" ++ Text.nat_to_string index).
Proof.
  intros E.
  item_id E ("groq-search-" ++ Text.Z_to_string (Date_now w index))%string.
Qed.

Lemma groq_suggestion_item_id (rt : Runtime) (w : World) (prefix color : string)
  (item : JsVal) (index : nat) (out : JsVal) :
  Groq.suggestion_item rt w prefix color item index = Ok out ->
  exists x, field "id" out = JStr (x ++ "-" ++ Text.nat_to_string index).
Proof.
  intros E. item_id E (prefix ++ Text.Z_to_string (Date_now w index))%string.
Qed.

Lemma groq_review_item_id (rt : Runtime)
  (item : JsVal) (index : nat) (out : JsVal) :
  Groq.review_item rt item index = Ok out ->
  exists x, field "id" out = JStr (x ++ "-" ++ Text.nat_to_string index).
Proof. intros E. item_id E "groq-review". Qed.

Lemma gemini_search_item_id (w : World)
  (item : JsVal) (index : nat) (out : JsVal) :
  Gemini.search_item w item index = Ok out ->
  exists x, field "id" out = JStr (x ++ "-" ++ Text.nat_to_string index).
Proof.
  intros E.
  item_id E ("gemini-search-" ++ Text.Z_to_string (Date_now w index))%string.
Qed.

Lemma gemini_suggestion_item_id (w : World) (prefix : string)
  (item : JsVal) (index : nat) (out : JsVal) :
  Gemini.suggestion_item w prefix item index = Ok out ->
  exists x, field "id" out = JStr (x ++ "-" ++ Text.nat_to_string index).
Proof.
  intros E. item_id E (prefix ++ Text.Z_to_string (Date_now w index))%string.
Qed.

Lemma gemini_review_item_id (item : JsVal) (index : nat) (out : JsVal) :
  Gemini.review_item item index = Ok out ->
  exists x, field "id" out = JStr (x ++ "-" ++ Text.nat_to_string index).
Proof. intros E. item_id E "review". Qed.

Lemma list_has_distinct_ids (f : JsVal -> nat -> Completion JsVal) (data v : JsVal) :
  (forall item index out,
      f item index = Ok out ->
      exists x, field "id" out = JStr (x ++ "-" ++ Text.nat_to_string index)) ->
  AsyncNotations.array_map f data = Ok v ->
  distinct_ids v.
Proof.
  intros Hid E. split; [exact (indexed_ids_distinct f data v Hid E) |].
  destruct (array_map_yields_array _ _ _ E) as [items ->]. constructor.
Qed.

Lemma concierge_has_distinct_ids (f : JsVal -> nat -> Completion JsVal)
  (data reply suggestions : JsVal) :
  (forall item index out,
      f item index = Ok out ->
      exists x, field "id" out = JStr (x ++ "-" ++ Text.nat_to_string index)) ->
  AsyncNotations.array_map f data = Ok suggestions ->
  distinct_ids (JObj [("reply", reply); ("suggestions", suggestions)]).
Proof.
  intros Hid E. split; [constructor |].
  exact (indexed_ids_distinct f data suggestions Hid E).
Qed.

Lemma text_has_distinct_ids (s : string) : distinct_ids (JStr s).
Proof. split; constructor. Qed.

Lemma offline_results_have_distinct_ids :
  distinct_ids Fallback.offline_books
  /\ distinct_ids Fallback.offline_concierge
  /\ distinct_ids Fallback.offline_recommendations
  /\ distinct_ids Fallback.offline_reviews.
Proof.
  unfold distinct_ids. cbn.
  repeat split; repeat constructor; cbn; intuition discriminate.
Qed.

Lemma fallback_has_distinct_ids (rt : Runtime) (w : World) (c : Call)
  (v : JsVal) :
  snd (invoke (service rt w StaticFallback) c) = Ok v -> distinct_ids v.
Proof.
  destruct offline_results_have_distinct_ids as (O1 & O2 & O3 & O4).
  destruct c; unfold_services.
  - (* searchBooks *)
    unfold Fallback.searchBooks.
    destruct (Fallback.callLLM w _ _) as [t [text | e]]; cbn.
    2:{ intros E. inversion E. exact O1. }
    destruct (truthy _ && isArray _); cbn.
    + match goal with
      | |- context [AsyncNotations.array_map ?f ?d] =>
          destruct (AsyncNotations.array_map f d) as [books | e] eqn:M; cbn;
          intros E; inversion E; subst; [| exact O1];
          apply (list_has_distinct_ids f d); [| exact M]
      end.
      intros item index out. cbn beta.
      destruct (get item "categories") as [categories | e]; [| discriminate].
      intros E'. inversion E'. subst. cbn [field].
      rewrite lookup_set_prop_other, lookup_set_prop_other, lookup_set_prop_same
        by discriminate.
      exists ("fallback-" ++ Text.Z_to_string (Date_now w index))%string.
      rewrite ?append_assoc. reflexivity.
    + intros E. inversion E. exact O1.
  - (* consultConcierge *)
    unfold Fallback.consultConcierge.
    destruct (Fallback.callLLM w _ _) as [t [text | e]]; cbn.
    2:{ intros E. inversion E. exact O2. }
    match goal with
    | |- context [match (if ?b then ?x else ?y) with Ok _ => _ | Throw _ => _ end] =>
        destruct (if b then x else y) as [reply | e]; cbn;
        [| intros E; inversion E; exact O2]
    end.
    destruct (truthy _ && truthy reply); cbn.
    2:{ intros E. inversion E. split; constructor. }
    destruct (get _ "suggestions") as [suggestions | e]; cbn;
      [| intros E; inversion E; exact O2].
    destruct (isArray suggestions); cbn.
    + match goal with
      | |- context [AsyncNotations.array_map ?f ?d] =>
          destruct (AsyncNotations.array_map f d) as [mapped | e] eqn:M; cbn;
          intros E; inversion E; subst; [| exact O2];
          apply (concierge_has_distinct_ids f d); [| exact M]
      end.
      intros item index out E'. inversion E'. subst. cbn [field].
      rewrite lookup_set_prop_other, lookup_set_prop_other, lookup_set_prop_other,
        lookup_set_prop_same by discriminate.
      exists "fb-con". reflexivity.
    + intros E. inversion E. split; constructor.
  - cbn. intros E. inversion E. exact O3.
  - cbn. intros E. inversion E. exact O4.
  - unfold Fallback.chatAboutBook.
    destruct (Fallback.callLLM w _ _) as [t [x | e]]; cbn;
      intros E; inversion E; apply text_has_distinct_ids.
  - unfold Fallback.translateText.
    destruct (Fallback.callLLM w _ _) as [t [x | e]]; cbn;
      intros E; inversion E; apply text_has_distinct_ids.
  - unfold Fallback.explainContext.
    destruct (Fallback.callLLM w _ _) as [t [x | e]]; cbn;
      intros E; inversion E; apply text_has_distinct_ids.
  - unfold Fallback.generateBookContent.
    destruct (Fallback.callLLM w _ _) as [t [x | e]]; cbn;
      intros E; inversion E; apply text_has_distinct_ids.
  - unfold Fallback.getBookSummary.
    destruct (Fallback.callLLM w _ _) as [t [x | e]]; cbn;
      intros E; inversion E; apply text_has_distinct_ids.
  - unfold Fallback.getBookRecap.
    destruct (Fallback.callLLM w _ _) as [t [x | e]]; cbn;
      intros E; inversion E; apply text_has_distinct_ids.
Qed.

#[local] Ltac unfold_services_in E :=
  cbn [invoke service AIProvider.GroqService AIProvider.GeminiService
       AIProvider.FallbackService
       Service.searchBooks Service.consultConcierge
       Service.getOnboardingRecommendations Service.generateReviews
       Service.chatAboutBook Service.translateText
       Service.explainContext Service.generateBookContent
       Service.getBookSummary Service.getBookRecap] in E.

#[local] Ltac distinct_leaf :=
  first
    [ apply text_has_distinct_ids
    | eapply list_has_distinct_ids; [| eassumption];
      first [ apply groq_search_item_id | apply groq_suggestion_item_id
            | apply groq_review_item_id | apply gemini_search_item_id
            | apply gemini_suggestion_item_id | apply gemini_review_item_id ]
    | eapply concierge_has_distinct_ids; [| eassumption];
      first [ apply groq_suggestion_item_id | apply gemini_suggestion_item_id ]
    | split; constructor ].

#[local] Ltac from_fallback rt w F :=
  first
    [ exact (fallback_has_distinct_ids rt w (SearchBooks _) _ F)
    | exact (fallback_has_distinct_ids rt w (ConsultConcierge _ _) _ F)
    | exact (fallback_has_distinct_ids rt w (GetOnboardingRecommendations _) _ F)
    | exact (fallback_has_distinct_ids rt w (GenerateReviews _ _) _ F)
    | exact (fallback_has_distinct_ids rt w (ChatAboutBook _ _ _) _ F)
    | exact (fallback_has_distinct_ids rt w (TranslateText _ None) _ F)
    | exact (fallback_has_distinct_ids rt w (ExplainContext _ _) _ F)
    | exact (fallback_has_distinct_ids rt w (GenerateBookContent _ _ _) _ F)
    | exact (fallback_has_distinct_ids rt w (GetBookSummary _) _ F)
    | exact (fallback_has_distinct_ids rt w (GetBookRecap _) _ F) ].

(** X6. Whatever module serves it and whichever path it takes, a
    capability call returns items with pairwise distinct identifiers: the
    books of a search and of the onboarding recommendations, the reviews,
    and the suggestions of a concierge answer.  The identifiers built from
    [Date.now()] stay distinct when the clock does not advance between two
    items, because each ends in the index of its item. *)
Theorem returned_ids_are_distinct (rt : Runtime) (w : World) (a : Adapter)
  (c : Call) (v : JsVal) :
  snd (invoke (service rt w a) c) = Ok v ->
  NoDup (ids v) /\ NoDup (ids (field "suggestions" v)).
Proof.
  change (snd (invoke (service rt w a) c) = Ok v -> distinct_ids v).
  destruct a.
  - destruct (present (VITE_GROQ_API_KEY (env w))) eqn:P.
    2:{ rewrite (groq_without_key rt w c P). apply fallback_has_distinct_ids. }
    destruct (invoke (service rt w GroqAdapter) c) as [t r] eqn:E.
    cbn [snd]. intros ->.
    destruct c; unfold_services_in E;
      unfold Groq.searchBooks, Groq.consultConcierge,
        Groq.getOnboardingRecommendations, Groq.generateReviews,
        Groq.chatAboutBook, Groq.translateText, Groq.explainContext,
        Groq.generateBookContent, Groq.getBookSummary, Groq.getBookRecap,
        Groq.API_KEY in E;
      rewrite P in E; cbn [negb] in E;
      apply (outcome_adopt _ _ _ distinct_ids) in E;
      try (destruct E as [[_ Q] | [_ F]]; [exact Q | from_fallback rt w F]);
      try (intros ?; settles_with distinct_leaf).
  - destruct (present (process_env_API_KEY (env w))) eqn:P.
    2:{ rewrite (gemini_without_key rt w c P). apply fallback_has_distinct_ids. }
    destruct (invoke (service rt w GeminiAdapter) c) as [t r] eqn:E.
    cbn [snd]. intros ->.
    destruct c; unfold_services_in E;
      unfold Gemini.searchBooks, Gemini.consultConcierge,
        Gemini.getOnboardingRecommendations, Gemini.generateReviews,
        Gemini.chatAboutBook, Gemini.translateText, Gemini.explainContext,
        Gemini.generateBookContent, Gemini.getBookSummary, Gemini.getBookRecap,
        Gemini.API_KEY in E;
      rewrite P in E; cbn [negb] in E;
      apply (outcome_adopt _ _ _ distinct_ids) in E;
      try (destruct E as [[_ Q] | [_ F]]; [exact Q | from_fallback rt w F]);
      try (intros ?; settles_with distinct_leaf).
  - apply fallback_has_distinct_ids.
Qed.

Lemma returned_ids_are_distinct_witness :
  exists v,
    snd (invoke (service RefRuntime.runtime
                   (Example.answering Example.groq_only "[{},{}]") GroqAdapter)
           (SearchBooks "dune")) = Ok v
    /\ ids v = [JStr "groq-search-1700000000000-0"; JStr "groq-search-1700000000000-1"]
    /\ NoDup (ids v).
Proof.
  eexists. split; [reflexivity |]. split; [reflexivity |].
  apply (returned_ids_are_distinct RefRuntime.runtime
           (Example.answering Example.groq_only "[{},{}]") GroqAdapter
           (SearchBooks "dune")).
  reflexivity.
Defined.

(** ** The span the static fallback parses *)

Lemma chars_app (a b : string) :
  list_ascii_of_string (a ++ b)
  = (list_ascii_of_string a ++ list_ascii_of_string b)%list.
Proof. induction a as [| x a IH]; simpl; [reflexivity | rewrite IH; reflexivity]. Qed.

Lemma upto_last_none (c : ascii) (s : string) :
  Text.upto_last c s = None -> ~ In c (list_ascii_of_string s).
Proof.
  induction s as [| d r IH]; simpl; intros H; [tauto |].
  destruct (Text.upto_last c r) as [m |]; [discriminate |].
  destruct (Ascii.eqb d c) eqn:E; [discriminate |].
  apply Ascii.eqb_neq in E. intros [K | K]; [contradiction | exact (IH eq_refl K)].
Qed.

Lemma upto_last_some (c : ascii) (s m : string) :
  Text.upto_last c s = Some m ->
  exists body post,
    s = (m ++ post)%string
    /\ m = (body ++ String c "")%string
    /\ ~ In c (list_ascii_of_string post).
Proof.
  revert m. induction s as [| d r IH]; simpl; intros m H; [discriminate |].
  destruct (Text.upto_last c r) as [m' |] eqn:U.
  - inversion H. subst. destruct (IH m' eq_refl) as (body & post & -> & -> & N).
    exists (String d body), post. repeat split. exact N.
  - destruct (Ascii.eqb d c) eqn:E; [| discriminate].
    apply Ascii.eqb_eq in E. subst d. inversion H. subst.
    exists "", r. repeat split. exact (upto_last_none c r U).
Qed.

Lemma upto_last_found (c : ascii) (mid post : string) :
  Text.upto_last c (mid ++ String c post) <> None.
Proof.
  induction mid as [| d mid IH]; simpl.
  - destruct (Text.upto_last c post); [discriminate |].
    rewrite Ascii.eqb_refl. discriminate.
  - destruct (Text.upto_last c (mid ++ String c post)); [discriminate |].
    contradiction.
Qed.

Lemma match_between_some (o c : ascii) (s m : string) :
  Text.match_between o c s = Some m ->
  exists pre body post,
    s = (pre ++ m ++ post)%string
    /\ m = String o (body ++ String c "")
    /\ ~ In o (list_ascii_of_string pre)
    /\ ~ In c (list_ascii_of_string post).
Proof.
  revert m. induction s as [| d r IH]; simpl; intros m H; [discriminate |].
  destruct (Ascii.eqb d o) eqn:E.
  - apply Ascii.eqb_eq in E. subst d.
    destruct (Text.upto_last c r) as [m' |] eqn:U.
    + inversion H. subst.
      destruct (upto_last_some c r m' U) as (body & post & -> & -> & N).
      exists "", body, post. repeat split; [tauto | exact N].
    + exfalso. destruct (IH m H) as (pre & body & post & -> & -> & _ & _).
      apply (upto_last_none c _ U). rewrite !chars_app. simpl.
      rewrite !chars_app. simpl.
      apply in_or_app. right. right. apply in_or_app. left.
      apply in_or_app. right. left. reflexivity.
  - apply Ascii.eqb_neq in E.
    destruct (IH m H) as (pre & body & post & -> & -> & No & Nc).
    exists (String d pre), body, post. repeat split; [| exact Nc].
    intros [K | K]; [congruence | exact (No K)].
Qed.

Lemma match_between_none (o c : ascii) (s : string) :
  Text.match_between o c s = None ->
  forall pre mid post, s <> (pre ++ String o (mid ++ String c post))%string.
Proof.
  induction s as [| d r IH]; simpl; intros H pre mid post E.
  - destruct pre; discriminate E.
  - destruct pre as [| x pre]; simpl in E; inversion E; subst.
    + rewrite Ascii.eqb_refl in H.
      destruct (Text.upto_last c (mid ++ String c post)) eqn:U; [discriminate |].
      exact (upto_last_found c mid post U).
    + destruct (Ascii.eqb x o).
      * destruct (Text.upto_last c _); [discriminate |].
        exact (IH H pre mid post eq_refl).
      * exact (IH H pre mid post eq_refl).
Qed.

(** X7. The text [extractJSON] hands to [JSON.parse].  When the text has
    an opening bracket with a closing bracket somewhere after it, the span
    runs from the first opening bracket of the text to its last closing
    bracket, and the result is the parse of that span, [null] when the parse
    fails: the braces are then never tried.  A brace span, from the first
    opening brace to the last closing brace, is parsed only when the text has
    no such bracket pair, and the result is [null] when it has neither. *)
Theorem extractJSON_parses_the_widest_span (rt : Runtime) (text : string) :
  (forall span,
      Text.match_between "[" "]" text = Some span ->
      (exists pre body post,
          text = (pre ++ span ++ post)%string
          /\ span = ("[" ++ body ++ "]")%string
          /\ ~ In "["%char (list_ascii_of_string pre)
          /\ ~ In "]"%char (list_ascii_of_string post))
      /\ Fallback.extractJSON rt text
         = match JSON_parse rt span with Some v => v | None => JNull end)
  /\ (Text.match_between "[" "]" text = None ->
      (forall pre mid post, text <> (pre ++ "[" ++ mid ++ "]" ++ post)%string)
      /\ (forall span,
             Text.match_between "{" "}" text = Some span ->
             (exists pre body post,
                 text = (pre ++ span ++ post)%string
                 /\ span = ("{" ++ body ++ "}")%string
                 /\ ~ In "{"%char (list_ascii_of_string pre)
                 /\ ~ In "}"%char (list_ascii_of_string post))
             /\ Fallback.extractJSON rt text
                = match JSON_parse rt span with Some v => v | None => JNull end)
      /\ (Text.match_between "{" "}" text = None ->
          (forall pre mid post, text <> (pre ++ "{" ++ mid ++ "}" ++ post)%string)
          /\ Fallback.extractJSON rt text = JNull)).
Proof.
  split.
  - intros span M. split.
    + exact (match_between_some _ _ _ _ M).
    + unfold Fallback.extractJSON. rewrite M. reflexivity.
  - intros N. split; [exact (match_between_none _ _ _ N) |]. split.
    + intros span M. split.
      * exact (match_between_some _ _ _ _ M).
      * unfold Fallback.extractJSON. rewrite N, M. reflexivity.
    + intros N2. split; [exact (match_between_none _ _ _ N2) |].
      unfold Fallback.extractJSON. rewrite N, N2. reflexivity.
Qed.

Lemma extractJSON_parses_the_widest_span_witness :
  Fallback.extractJSON RefRuntime.runtime "Sure: [1] or {} and [2]!"
  = match JSON_parse RefRuntime.runtime "[1] or {} and [2]" with
    | Some v => v
    | None => JNull
    end
  /\ Fallback.extractJSON RefRuntime.runtime "Sure: [1] or {} and [2]!" = JNull.
Proof.
  split.
  - exact (proj2 (proj1 (extractJSON_parses_the_widest_span RefRuntime.runtime
                           "Sure: [1] or {} and [2]!")
                    "[1] or {} and [2]" eq_refl)).
  - reflexivity.
Defined.

(** ** The static fallback and structured replies *)




(** ** The books of the static fallback *)



(** ** The fields of the books of a provider *)

Lemma Forall2_right {A B} (R : A -> B -> Prop) (P : B -> Prop)
  (l1 : list A) (l2 : list B) :
  (forall a b, R a b -> P b) -> Forall2 R l1 l2 -> Forall P l2.
Proof.
  intros H F. induction F; constructor; eauto.
Qed.

#[local] Ltac item_fields E :=
  unfold Groq.search_item, Groq.suggestion_item, Groq.review_item,
    Gemini.search_item, Gemini.suggestion_item, Gemini.review_item in E;
  cbn [AsyncNotations.and_then] in E;
  repeat match type of E with
         | AsyncNotations.and_then ?c _ = _ =>
             destruct c; cbn [AsyncNotations.and_then] in E; [| discriminate E]
         end;
  inversion E; subst; repeat split; reflexivity.

(** X10. A book served by a provider holds the fields its module writes
    and no other, whatever the model put in the item: the Groq module writes
    ten fields (eleven with the match reason of a recommendation), with
    [source] set to [groq]; the Gemini module writes the same fields without
    [source] and with [fileUrl] set to [undefined].  In both the book is
    never local and has no file location and no content, so the text of a
    model cannot point the reader at a file. *)
Theorem live_books_hold_the_mapped_fields_only (rt : Runtime) (w : World)
  (t : list Event) (v : JsVal) :
  live t ->
  (forall query,
      Groq.searchBooks rt w query = (t, Ok v) ->
      exists books,
        v = JArr books
        /\ Forall (fun book =>
                     keys book = ["id"; "title"; "author"; "coverColor"; "isbn";
                                  "description"; "isLocal"; "publishedYear";
                                  "categories"; "source"]
                     /\ field "isLocal" book = JBool false
                     /\ field "source" book = JStr "groq"
                     /\ field "fileUrl" book = JUndefined
                     /\ field "content" book = JUndefined) books)
  /\ (forall prefs,
         Groq.getOnboardingRecommendations rt w prefs = (t, Ok v) ->
         exists books,
           v = JArr books
           /\ Forall (fun book =>
                        keys book = ["id"; "title"; "author"; "coverColor"; "isbn";
                                     "description"; "isLocal"; "publishedYear";
                                     "categories"; "matchReason"; "source"]
                        /\ field "isLocal" book = JBool false
                        /\ field "source" book = JStr "groq"
                        /\ field "fileUrl" book = JUndefined
                        /\ field "content" book = JUndefined) books)
  /\ (forall query,
         Gemini.searchBooks rt w query = (t, Ok v) ->
         exists books,
           v = JArr books
           /\ Forall (fun book =>
                        keys book = ["id"; "title"; "author"; "coverColor"; "isbn";
                                     "description"; "isLocal"; "publishedYear";
                                     "categories"; "fileUrl"]
                        /\ field "isLocal" book = JBool false
                        /\ field "fileUrl" book = JUndefined
                        /\ field "content" book = JUndefined) books)
  /\ (forall prefs,
         Gemini.getOnboardingRecommendations rt w prefs = (t, Ok v) ->
         exists books,
           v = JArr books
           /\ Forall (fun book =>
                        keys book = ["id"; "title"; "author"; "coverColor"; "isbn";
                                     "description"; "isLocal"; "publishedYear";
                                     "categories"; "matchReason"; "fileUrl"]
                        /\ field "isLocal" book = JBool false
                        /\ field "fileUrl" book = JUndefined
                        /\ field "content" book = JUndefined) books).
Proof.
  intros L. repeat match goal with |- _ /\ _ => split end.
  - intros query E.
    destruct (groq_list_live rt w _ (Groq.search_item rt w)
                (Fallback.searchBooks rt w query)
                (fallback_not_live rt w (SearchBooks query)) t v E L)
      as (items & books & -> & F).
    exists books. split; [reflexivity |].
    eapply Forall2_right; [| exact F]. cbv beta.
    intros a b [i H]. item_fields H.
  - intros prefs E.
    destruct (groq_list_live rt w _ (Groq.suggestion_item rt w "groq-rec-" "#e2e8f0")
                (Fallback.getOnboardingRecommendations prefs)
                (fallback_not_live rt w (GetOnboardingRecommendations prefs)) t v E L)
      as (items & books & -> & F).
    exists books. split; [reflexivity |].
    eapply Forall2_right; [| exact F]. cbv beta.
    intros a b [i H]. item_fields H.
  - intros query E.
    destruct (gemini_list_live rt w _ BookListSchema (Gemini.search_item w)
                (Fallback.searchBooks rt w query)
                (fallback_not_live rt w (SearchBooks query)) t v E L)
      as (items & books & -> & F).
    exists books. split; [reflexivity |].
    eapply Forall2_right; [| exact F]. cbv beta.
    intros a b [i H]. item_fields H.
  - intros prefs E.
    destruct (gemini_list_live rt w _ RecommendationListSchema
                (Gemini.suggestion_item w "gemini-onboarding-")
                (Fallback.getOnboardingRecommendations prefs)
                (fallback_not_live rt w (GetOnboardingRecommendations prefs)) t v E L)
      as (items & books & -> & F).
    exists books. split; [reflexivity |].
    eapply Forall2_right; [| exact F]. cbv beta.
    intros a b [i H]. item_fields H.
Qed.

Lemma live_books_hold_the_mapped_fields_only_witness :
  exists book,
    snd (Gemini.searchBooks RefRuntime.runtime
           (Example.answering Example.gemini_only Sample.book_with_location) "a")
    = Ok (JArr [book])
    /\ field "fileUrl" book = JUndefined
    /\ field "title" book = JStr "A".
Proof.
  set (w := Example.answering Example.gemini_only Sample.book_with_location).
  destruct (Gemini.searchBooks RefRuntime.runtime w "a") as [t [v | e]] eqn:E;
    [| vm_compute in E; discriminate E].
  assert (L : live t).
  { vm_compute in E. injection E as <- _. reflexivity. }
  destruct (proj1 (proj2 (proj2 (live_books_hold_the_mapped_fields_only
                                   RefRuntime.runtime w t v L))) "a" E)
    as (books & -> & F).
  vm_compute in E. injection E as _ E. subst books.
  eexists. split; [reflexivity |].
  inversion F as [| b l (_ & _ & U & _) _]. subst.
  split; [exact U | reflexivity].
Defined.

(** ** The Open Library client *)

Lemma books_from_nth (rt : Runtime) (net : OpenLibrary.Net) (first_draw : nat)
  (results : list OpenLibrary.OpenLibrarySearchResult) :
  forall index k,
    nth_error (OpenLibrary.books_from rt net first_draw index results) k
    = option_map (fun item => OpenLibrary.book_of rt net first_draw item (index + k))
        (nth_error results k).
Proof.
  induction results as [| item rest IH]; intros index k; simpl.
  - destruct k; reflexivity.
  - destruct k as [| k]; simpl.
    + rewrite Nat.add_0_r. reflexivity.
    + rewrite IH. rewrite Nat.add_succ_r. reflexivity.
Qed.

Lemma books_from_length (rt : Runtime) (net : OpenLibrary.Net) (first_draw : nat)
  (results : list OpenLibrary.OpenLibrarySearchResult) :
  forall index,
    length (OpenLibrary.books_from rt net first_draw index results) = length results.
Proof.
  induction results as [| item rest IH]; intros index; simpl;
    [reflexivity | rewrite IH; reflexivity].
Qed.


(** What [searchOpenLibrary] returns: the books of the documents of the
    reply, or nothing. *)
Lemma search_outcome (rt : Runtime) (net : OpenLibrary.Net) (first_draw : nat)
  (query : string) (limit : option JsNum) :
  OpenLibrary.searchOpenLibrary_after rt net first_draw query limit = []
  \/ exists data,
       fetch_search_succeeds
         net (OpenLibrary.search_url rt query
                (match limit with Some l => l | None => Fin 20 end)) data
       /\ OpenLibrary.searchOpenLibrary_after rt net first_draw query limit
          = OpenLibrary.books_from rt net first_draw 0
              (match OpenLibrary.docs data with Some l => l | None => [] end).
Proof.
  unfold OpenLibrary.searchOpenLibrary_after, OpenLibrary.search_body,
    fetch_search_succeeds.
  destruct (OpenLibrary.fetch_search net _) as [| b | [data |]];
    try (left; reflexivity).
  right. exists data. split; reflexivity.
Qed.






(** X12. The books of a search come in the order of the documents, one
    per document, each carrying the key of its document as [openLibraryId],
    and their identifiers are pairwise distinct: the identifier ends in the
    position of the book, so two documents with the same key, mapped at the
    same instant, still get different identifiers. *)
Theorem open_library_ids_are_distinct (rt : Runtime) (net : OpenLibrary.Net)
  (first_draw : nat) (query : string) (limit : option JsNum) :
  NoDup (ids (JArr (OpenLibrary.searchOpenLibrary_after rt net first_draw query limit)))
  /\ (forall data,
         fetch_search_succeeds
           net (OpenLibrary.search_url rt query
                  (match limit with Some l => l | None => Fin 20 end)) data ->
         map (field "openLibraryId")
           (OpenLibrary.searchOpenLibrary_after rt net first_draw query limit)
         = map (fun item => JStr (OpenLibrary.key item)) (documents data)).
Proof.
  split.
  - destruct (search_outcome rt net first_draw query limit) as [-> | (data & _ & ->)];
      [constructor |].
    cbn [ids]. apply NoDup_nth_error. intros i j Hi E.
    rewrite !nth_error_map, !books_from_nth in E.
    rewrite length_map, books_from_length in Hi.
    destruct (nth_error _ i) as [a |] eqn:Ea; [| apply nth_error_None in Ea; lia].
    destruct (nth_error _ j) as [b |] eqn:Eb; [| discriminate].
    cbn in E. injection E as E.
    assert (D : forall x z n : string,
               (x ++ String "-" (z ++ String "-" n))%string
               = ((x ++ String "-" z) ++ String "-" n)%string)
      by (intros; rewrite append_assoc; reflexivity).
    rewrite !D in E. apply nat_to_string_inj.
    exact (suffix_after_dash _ _ _ _ (nat_to_string_has_no_dash i)
             (nat_to_string_has_no_dash j) E).
  - intros data S. unfold OpenLibrary.searchOpenLibrary_after,
      OpenLibrary.search_body, documents. unfold fetch_search_succeeds in S.
    rewrite S. generalize 0%nat.
    induction (match OpenLibrary.docs data with Some l => l | None => [] end)
      as [| item rest IH]; intros index; simpl; [reflexivity |].
    rewrite IH. reflexivity.
Qed.

Lemma open_library_ids_are_distinct_witness :
  ids (JArr (OpenLibrary.searchOpenLibrary RefRuntime.runtime SampleLibrary.net
               "dune" None))
  = [JStr "ol-OL893415W-1700000000000-0"; JStr "ol-OL1W-1700000000000-1"]
  /\ map (field "openLibraryId")
       (OpenLibrary.searchOpenLibrary RefRuntime.runtime SampleLibrary.net "dune" None)
     = [JStr "/works/OL893415W"; JStr "/works/OL1W"].
Proof.
  split; [reflexivity |].
  exact (proj2 (open_library_ids_are_distinct RefRuntime.runtime SampleLibrary.net
                  0 "dune" None)
           {| OpenLibrary.docs := Some [SampleLibrary.dune; SampleLibrary.bare] |}
           eq_refl).
Defined.

Lemma filter_books_from (rt : Runtime) (net : OpenLibrary.Net) (first_draw : nat)
  (results : list OpenLibrary.OpenLibrarySearchResult) :
  forall index,
    map (field "openLibraryId")
      (filter (fun book => truthy (field "hasFullText" book))
         (OpenLibrary.books_from rt net first_draw index results))
    = map (fun item => JStr (OpenLibrary.key item)) (filter is_readable results).
Proof.
  induction results as [| item rest IH]; intros index; simpl; [reflexivity |].
  unfold is_readable at 1.
  destruct (OpenLibrary.has_fulltext item) as [[|] |]; simpl; rewrite IH; reflexivity.
Qed.

(** X13. [searchReadableBooks] sends one search, for the query followed
    by [ has_fulltext:true], and keeps exactly the books of the documents
    that say their full text is available, in the order of the reply: a
    document the server returns without that flag, or with the flag set to
    false, is dropped.  Every book it returns has [hasFullText] set to
    [true]. *)
Theorem readable_books_are_the_full_text_documents (rt : Runtime)
  (net : OpenLibrary.Net) (query : string) (limit : option JsNum) :
  Forall (fun book => field "hasFullText" book = JBool true)
         (OpenLibrary.searchReadableBooks rt net query limit)
  /\ (forall data,
         fetch_search_succeeds
           net (OpenLibrary.search_url rt (query ++ " has_fulltext:true")
                  (match limit with Some l => l | None => Fin 10 end)) data ->
         map (field "openLibraryId")
           (OpenLibrary.searchReadableBooks rt net query limit)
         = map (fun item => JStr (OpenLibrary.key item))
             (filter is_readable (documents data)))
  /\ ((forall data,
          ~ fetch_search_succeeds
              net (OpenLibrary.search_url rt (query ++ " has_fulltext:true")
                     (match limit with Some l => l | None => Fin 10 end)) data) ->
      OpenLibrary.searchReadableBooks rt net query limit = []).
Proof.
  unfold OpenLibrary.searchReadableBooks, OpenLibrary.searchOpenLibrary.
  set (l := match limit with Some l => l | None => Fin 10 end).
  split; [| split].
  - apply Forall_forall. intros book K. apply filter_In in K. destruct K as [K T].
    destruct (search_outcome rt net 0 (query ++ " has_fulltext:true") (Some l))
      as [E | (data & _ & E)]; rewrite E in K; [destruct K |].
    apply In_nth_error in K. destruct K as [k K].
    rewrite books_from_nth in K.
    destruct (nth_error _ k) as [item |]; [| discriminate].
    cbn in K. injection K as <-. cbn in T |- *.
    destruct (OpenLibrary.has_fulltext item) as [[|] |];
      [reflexivity | discriminate T | discriminate T].
  - intros data S.
    destruct (search_outcome rt net 0 (query ++ " has_fulltext:true") (Some l))
      as [E | (data' & S' & E)].
    + unfold OpenLibrary.searchOpenLibrary_after, OpenLibrary.search_body in *.
      unfold fetch_search_succeeds in S. cbn beta iota in *. rewrite S in *.
      rewrite filter_books_from. reflexivity.
    + unfold fetch_search_succeeds in *. cbn beta iota in S'. rewrite S in S'.
      injection S' as <-. rewrite E. apply filter_books_from.
  - intros N.
    destruct (search_outcome rt net 0 (query ++ " has_fulltext:true") (Some l))
      as [E | (data & S & _)]; [rewrite E; reflexivity | destruct (N data S)].
Qed.

Lemma readable_books_are_the_full_text_documents_witness :
  map (field "openLibraryId")
    (OpenLibrary.searchReadableBooks RefRuntime.runtime SampleLibrary.net "dune" None)
  = [JStr "/works/OL893415W"].
Proof.
  exact (proj1 (proj2 (readable_books_are_the_full_text_documents
                         RefRuntime.runtime SampleLibrary.net "dune" None))
           {| OpenLibrary.docs := Some [SampleLibrary.dune; SampleLibrary.bare] |}
           eq_refl).
Defined.








(** X17. The cover a book card shows.  The cover image of the book wins
    when it has one; otherwise a book with an ISBN gets the ISBN cover of
    Open Library, the address [getCoverUrl] builds for an ISBN in size L;
    a book with neither gets no image.  For a book of an Open Library
    search whose document has a cover number, the card shows the address
    [getCoverUrl] builds for that number with its default type and size. *)
Theorem card_cover_of_a_book (rt : Runtime) (net : OpenLibrary.Net) (book : JsVal) :
  (truthy (field "coverImageUrl" book) = true ->
   BookCard.coverUrl rt book = Ok (field "coverImageUrl" book))
  /\ (truthy (field "coverImageUrl" book) = false ->
      forall isbn, field "isbn" book = JStr isbn -> isbn <> "" ->
      BookCard.coverUrl rt book
      = Ok (JStr (OpenLibrary.getCoverUrl isbn (Some OpenLibrary.TypeIsbn)
                    (Some OpenLibrary.SizeL))))
  /\ (truthy (field "coverImageUrl" book) = false ->
      truthy (field "isbn" book) = false ->
      BookCard.coverUrl rt book = Ok JNull)
  /\ (forall first_draw item index n,
         OpenLibrary.cover_i item = Some n -> num_truthy n = true ->
         BookCard.coverUrl rt (OpenLibrary.book_of rt net first_draw item index)
         = Ok (JStr (OpenLibrary.getCoverUrl (Number_toString rt n) None None))).
Proof.
  unfold BookCard.coverUrl. repeat split.
  - intros ->. reflexivity.
  - intros -> isbn -> N. cbn.
    destruct (String.eqb isbn "") eqn:E; [| reflexivity].
    apply String.eqb_eq in E. contradiction.
  - intros -> ->. reflexivity.
  - intros first_draw item index n C T. unfold OpenLibrary.book_of.
    cbn [field lookup String.eqb Ascii.eqb Bool.eqb]. rewrite C, T. reflexivity.
Qed.

Lemma card_cover_of_a_book_witness :
  map (BookCard.coverUrl RefRuntime.runtime)
    (OpenLibrary.searchOpenLibrary RefRuntime.runtime SampleLibrary.net "dune" None)
  = [Ok (JStr "https://covers.openlibrary.org/b/id/11481354-L.jpg"); Ok JNull]
  /\ BookCard.coverUrl RefRuntime.runtime
       (JObj [("coverImageUrl", JUndefined); ("isbn", JStr "9780441013593")])
     = Ok (JStr "https://covers.openlibrary.org/b/isbn/9780441013593-L.jpg").
Proof.
  split; [reflexivity |].
  refine (proj1 (proj2 (card_cover_of_a_book RefRuntime.runtime SampleLibrary.net
                          (JObj [("coverImageUrl", JUndefined);
                                 ("isbn", JStr "9780441013593")])))
            eq_refl "9780441013593" eq_refl _).
  discriminate.
Defined.

(** ** The storage service *)

Lemma split_at_last (c : ascii) (x y u v : string) :
  (forall d, In d (list_ascii_of_string u) -> d <> c) ->
  (forall d, In d (list_ascii_of_string v) -> d <> c) ->
  (x ++ String c u)%string = (y ++ String c v)%string -> x = y /\ u = v.
Proof.
  intros Hu Hv. revert y. induction x as [| a x IH]; intros [| b y] E; simpl in E.
  - injection E as E. split; [reflexivity | exact E].
  - injection E as _ E. exfalso. apply (Hu c); [| reflexivity].
    rewrite E, chars_app. apply in_or_app. right. left. reflexivity.
  - injection E as _ E. exfalso. apply (Hv c); [| reflexivity].
    rewrite <- E, chars_app. apply in_or_app. right. left. reflexivity.
  - injection E as -> E. destruct (IH y E) as [-> ->]. split; reflexivity.
Qed.

Lemma append_cancel_left (p a b : string) : (p ++ a)%string = (p ++ b)%string -> a = b.
Proof. induction p as [| c p IH]; simpl; intros E; [exact E | injection E as E; auto]. Qed.

Lemma getKey_inj (u u' : string) (k k' : Kind) :
  Storage.getKey u (kind_name k) = Storage.getKey u' (kind_name k') ->
  u = u' /\ k = k'.
Proof.
  unfold Storage.getKey. intros E. apply append_cancel_left in E.
  apply split_at_last in E.
  - destruct E as [-> E]. split; [reflexivity |].
    destruct k, k'; try reflexivity; discriminate E.
  - destruct k; simpl; intros d H;
      repeat (destruct H as [<- | H]; [discriminate |]); destruct H.
  - destruct k'; simpl; intros d H;
      repeat (destruct H as [<- | H]; [discriminate |]); destruct H.
Qed.

Lemma getItem_put_same (k v : string) (items : list (string * string)) :
  Storage.getItem (Storage.put k v items) k = Some v.
Proof.
  induction items as [| [k' v'] rest IH]; simpl.
  - rewrite String.eqb_refl. reflexivity.
  - destruct (String.eqb k k') eqn:E; simpl.
    + rewrite String.eqb_refl. reflexivity.
    + rewrite E. exact IH.
Qed.

Lemma getItem_put_other (k k' v : string) (items : list (string * string)) :
  k <> k' -> Storage.getItem (Storage.put k' v items) k = Storage.getItem items k.
Proof.
  intros N. induction items as [| [k0 v0] rest IH]; simpl.
  - destruct (String.eqb k k') eqn:E; [| reflexivity].
    apply String.eqb_eq in E. contradiction.
  - destruct (String.eqb k' k0) eqn:E0; simpl.
    + apply String.eqb_eq in E0. subst k0.
      destruct (String.eqb k k') eqn:E; [| reflexivity].
      apply String.eqb_eq in E. contradiction.
    + destruct (String.eqb k k0); [reflexivity | exact IH].
Qed.

Lemma getItem_removeItem_same (k : string) (items : list (string * string)) :
  Storage.getItem (Storage.removeItem k items) k = None.
Proof.
  unfold Storage.removeItem.
  induction items as [| [k' v'] rest IH]; simpl; [reflexivity |].
  destruct (String.eqb k k') eqn:E; simpl; [exact IH |].
  rewrite E. exact IH.
Qed.

Lemma getItem_removeItem_other (k k' : string) (items : list (string * string)) :
  k <> k' ->
  Storage.getItem (Storage.removeItem k' items) k = Storage.getItem items k.
Proof.
  intros N. unfold Storage.removeItem.
  induction items as [| [k0 v0] rest IH]; simpl; [reflexivity |].
  destruct (String.eqb k' k0) eqn:E0; simpl.
  - apply String.eqb_eq in E0. subst k0.
    destruct (String.eqb k k') eqn:E; [| exact IH].
    apply String.eqb_eq in E. contradiction.
  - destruct (String.eqb k k0); [reflexivity | exact IH].
Qed.

(** What a write does to the items: nothing, or it sets the item of its
    kind; clearing removes the three items of the user. *)
Lemma try_setItem_items (fits : list (string * string) -> bool) (k : string)
  (text : Completion string) (b : Storage.Browser) :
  Storage.try_setItem fits k text b = b
  \/ exists s, Storage.localStorage (Storage.try_setItem fits k text b)
               = Storage.put k s (Storage.localStorage b).
Proof.
  unfold Storage.try_setItem, Storage.setItem.
  destruct text as [s | e]; [| left; reflexivity].
  destruct (fits _); [| left; reflexivity].
  right. exists s. reflexivity.
Qed.

Lemma load_reads_one_item (rt : Runtime) (k : Kind) (u : string)
  (b : Storage.Browser) :
  load rt k u b
  = Storage.parse_or rt (nothing_stored k)
      (Storage.getItem (Storage.localStorage b) (Storage.getKey u (kind_name k))).
Proof. destruct k; reflexivity. Qed.

(** X18. The data of one user and of one kind is out of reach of every
    write made for another user or for another kind.  The keys
    [suitcase_<user>_prefs], [suitcase_<user>_library] and
    [suitcase_<user>_wallet] determine the user and the kind, also when a
    user identifier itself contains an underscore, so saving preferences, a
    library or a wallet for one user changes nothing of what is loaded for
    another user or for another kind of the same user, and clearing the data
    of one user leaves every other user's data as it was. *)
Theorem storage_is_kept_apart (rt : Runtime)
  (fits : list (string * string) -> bool) (u u' : string) (w : Write) (k : Kind)
  (b : Storage.Browser) :
  u <> u' \/ touches w k = false ->
  load rt k u' (write rt fits u w b) = load rt k u' b.
Proof.
  intros H. rewrite !load_reads_one_item. f_equal.
  assert (P : forall k0 text,
             (u <> u' \/ k0 <> k) ->
             Storage.getItem
               (Storage.localStorage
                  (Storage.try_setItem fits (Storage.getKey u (kind_name k0)) text b))
               (Storage.getKey u' (kind_name k))
             = Storage.getItem (Storage.localStorage b)
                 (Storage.getKey u' (kind_name k))).
  { intros k0 text D.
    destruct (try_setItem_items fits (Storage.getKey u (kind_name k0)) text b)
      as [-> | [s ->]]; [reflexivity |].
    apply getItem_put_other. intros E. apply getKey_inj in E.
    destruct E as [-> ->]. destruct D as [D | D]; apply D; reflexivity. }
  destruct w; cbn [write].
  - apply (P Prefs). destruct H as [H | H]; [left; exact H |].
    right. destruct k; [discriminate H | discriminate | discriminate].
  - apply (P Library). destruct H as [H | H]; [left; exact H |].
    right. destruct k; [discriminate | discriminate H | discriminate].
  - apply (P Wallet). destruct H as [H | H]; [left; exact H |].
    right. destruct k; [discriminate | discriminate | discriminate H].
  - destruct H as [H | H]; [| destruct k; discriminate H].
    unfold Storage.clearUserData. cbn [Storage.localStorage].
    rewrite !getItem_removeItem_other; [reflexivity | ..];
      intros E;
      [ apply (getKey_inj u' u k Prefs) in E
      | apply (getKey_inj u' u k Library) in E
      | apply (getKey_inj u' u k Wallet) in E ];
      destruct E as [E _]; apply H; symmetry; exact E.
Qed.

Lemma storage_is_kept_apart_witness :
  load RefRuntime.runtime Wallet "ada_lovelace"
    (write RefRuntime.runtime SampleData.always "ada" (SaveWallet SampleData.wallet)
       (write RefRuntime.runtime SampleData.always "ada_lovelace"
          (SaveWallet Storage.empty_wallet) SampleData.empty_browser))
  = Storage.empty_wallet.
Proof.
  rewrite (storage_is_kept_apart RefRuntime.runtime SampleData.always
             "ada" "ada_lovelace" (SaveWallet SampleData.wallet) Wallet).
  - reflexivity.
  - left. discriminate.
Defined.

(** X19. What is saved is what the next load parses.  When the browser
    accepts the write, loading the preferences, the library or the wallet of
    a user after saving them gives the parse of the text that
    [JSON.stringify] wrote (for the library, of the list without the file
    locations of local books), and the default of the kind when that text
    does not parse.  When the browser refuses the write, as it does when the
    quota is exceeded, the save changes nothing and the next load still
    gives the older data.  After [clearUserData] the three loads of the user
    give their defaults ([null], the empty list, the empty wallet) and the
    page has been asked to reload once. *)
Theorem saved_data_is_read_back (rt : Runtime)
  (fits : list (string * string) -> bool) (u : string) (b : Storage.Browser) :
  (forall prefs,
      fits (Storage.put (Storage.getKey u "prefs") (Storage.stored_text rt prefs)
              (Storage.localStorage b)) = true ->
      Storage.loadPreferences rt u (Storage.savePreferences rt fits u prefs b)
      = Storage.parse_or rt JNull (Some (Storage.stored_text rt prefs)))
  /\ (forall library safe,
         Storage.safeLibrary library = Ok safe ->
         fits (Storage.put (Storage.getKey u "library")
                 (Storage.stored_text rt (JArr safe)) (Storage.localStorage b)) = true ->
         Storage.loadLibrary rt u (Storage.saveLibrary rt fits u library b)
         = Storage.parse_or rt (JArr []) (Some (Storage.stored_text rt (JArr safe))))
  /\ (forall wallet,
         fits (Storage.put (Storage.getKey u "wallet") (Storage.stored_text rt wallet)
                 (Storage.localStorage b)) = true ->
         Storage.loadWallet rt u (Storage.saveWallet rt fits u wallet b)
         = Storage.parse_or rt Storage.empty_wallet
             (Some (Storage.stored_text rt wallet)))
  /\ (forall w,
         (forall items, fits items = false) -> w <> ClearUserData ->
         write rt fits u w b = b)
  /\ (forall k, load rt k u (Storage.clearUserData u b) = nothing_stored k)
  /\ Storage.reloads (Storage.clearUserData u b) = S (Storage.reloads b).
Proof.
  repeat match goal with |- _ /\ _ => split end.
  - intros prefs A. unfold Storage.loadPreferences, Storage.savePreferences,
      Storage.try_setItem, Storage.setItem. rewrite A. cbn [Storage.localStorage].
    rewrite getItem_put_same. reflexivity.
  - intros library safe S A. unfold Storage.loadLibrary, Storage.saveLibrary,
      Storage.try_setItem, Storage.setItem. rewrite S, A. cbn [Storage.localStorage].
    rewrite getItem_put_same. reflexivity.
  - intros wallet A. unfold Storage.loadWallet, Storage.saveWallet,
      Storage.try_setItem, Storage.setItem. rewrite A. cbn [Storage.localStorage].
    rewrite getItem_put_same. reflexivity.
  - intros w F N. destruct w; cbn [write];
      unfold Storage.savePreferences, Storage.saveLibrary, Storage.saveWallet,
        Storage.try_setItem, Storage.setItem;
      try (destruct (Storage.safeLibrary library)); rewrite ?F; try reflexivity.
    contradiction.
  - intros k. rewrite load_reads_one_item. unfold Storage.clearUserData.
    cbn [Storage.localStorage].
    destruct k; cbn [kind_name].
    + rewrite (getItem_removeItem_other (Storage.getKey u "prefs")
                 (Storage.getKey u "wallet")).
      * rewrite (getItem_removeItem_other (Storage.getKey u "prefs")
                   (Storage.getKey u "library")).
        -- rewrite getItem_removeItem_same. reflexivity.
        -- intros E. apply (getKey_inj u u Prefs Library) in E.
           destruct E; discriminate.
      * intros E. apply (getKey_inj u u Prefs Wallet) in E. destruct E; discriminate.
    + rewrite getItem_removeItem_other.
      * rewrite getItem_removeItem_same. reflexivity.
      * intros E. apply (getKey_inj u u Library Wallet) in E. destruct E; discriminate.
    + rewrite getItem_removeItem_same. reflexivity.
  - reflexivity.
Qed.

Lemma saved_data_is_read_back_witness :
  Storage.loadWallet RefRuntime.runtime "ada"
    (Storage.saveWallet RefRuntime.runtime SampleData.always "ada" SampleData.wallet
       SampleData.empty_browser)
  = SampleData.wallet
  /\ Storage.loadWallet RefRuntime.runtime "ada"
       (Storage.saveWallet RefRuntime.runtime SampleData.never "ada" SampleData.wallet
          SampleData.empty_browser)
     = Storage.empty_wallet.
Proof.
  split.
  - rewrite (proj1 (proj2 (proj2 (saved_data_is_read_back RefRuntime.runtime
                                    SampleData.always "ada"
                                    SampleData.empty_browser)))
               SampleData.wallet eq_refl).
    reflexivity.
  - reflexivity.
Defined.

Lemma set_prop_absent (k : string) (v : JsVal) (fields : list (string * JsVal)) :
  lookup k fields = None -> set_prop k v fields = (fields ++ [(k, v)])%list.
Proof.
  induction fields as [| [k0 v0] rest IH]; simpl; intros L; [reflexivity |].
  destruct (String.eqb k k0); [discriminate L |].
  rewrite (IH L). reflexivity.
Qed.

(** X20. What [saveLibrary] writes.  Each book is stored with all its
    properties, except that the file location of a local book is replaced by
    [undefined], which [JSON.stringify] leaves out: the address of an
    uploaded file is never written to the storage, while the address of a
    book that is not local is kept.  A library with a [null] entry is not
    saved at all: the mapping throws, the error is logged, and the storage
    keeps the library saved before. *)
Theorem local_file_locations_are_not_stored (rt : Runtime)
  (fits : list (string * string) -> bool) (u : string)
  (library : list JsVal) (b : Storage.Browser) :
  (In JNull library \/ In JUndefined library ->
   Storage.saveLibrary rt fits u library b = b)
  /\ (~ In JNull library -> ~ In JUndefined library ->
      exists safe,
        Storage.safeLibrary library = Ok safe
        /\ Forall2 stored_book_of library safe
        /\ (Storage.saveLibrary rt fits u library b = b
            \/ Storage.localStorage (Storage.saveLibrary rt fits u library b)
               = Storage.put (Storage.getKey u "library")
                   (Storage.stored_text rt (JArr safe)) (Storage.localStorage b)))
  /\ (forall fields,
         lookup "fileUrl" fields = None ->
         Storage.JSON_stringify_value rt
           (JObj (set_prop "fileUrl" JUndefined fields))
         = Storage.JSON_stringify_value rt (JObj fields)).
Proof.
  split; [| split].
  - intros K. unfold Storage.saveLibrary, Storage.safeLibrary.
    assert (T : exists x, In x library
                          /\ forall j, exists e, Storage.safe_book x j = Throw e).
    { destruct K as [K | K]; eexists; (split; [exact K |]);
        intros j; exists TypeError; reflexivity. }
    destruct T as (x & Kx & T).
    destruct (map_indexed_from_throws Storage.safe_book library x Kx T 0) as [e E].
    unfold AsyncNotations.map_indexed. rewrite E. reflexivity.
  - intros N1 N2.
    assert (T : forall x j, In x library -> exists y, Storage.safe_book x j = Ok y).
    { intros x j K. unfold Storage.safe_book.
      destruct x; cbn; try (eexists; reflexivity); try contradiction;
        match goal with
        | |- context [if ?c then _ else _] => destruct c; eexists; reflexivity
        end. }
    destruct (map_indexed_from_total Storage.safe_book library T 0) as [safe E].
    exists safe. split; [exact E |]. split.
    + eapply Forall2_impl; [| exact (map_indexed_items Storage.safe_book library safe 0 E)].
      cbv beta. intros book stored [i H]. unfold Storage.safe_book in H.
      destruct (get book "isLocal") as [isLocal |] eqn:G1; [| discriminate H].
      apply get_is_field in G1. subst isLocal. unfold stored_book_of.
      destruct (truthy (field "isLocal" book)).
      * inversion H. subst stored. split.
        -- cbn [field]. rewrite lookup_set_prop_same. reflexivity.
        -- intros k K. cbn [field]. rewrite lookup_set_prop_other by exact K.
           reflexivity.
      * destruct (get book "fileUrl") as [fileUrl |] eqn:G2; [| discriminate H].
        apply get_is_field in G2. subst fileUrl.
        inversion H. subst stored. split.
        -- cbn [field]. rewrite lookup_set_prop_same. reflexivity.
        -- intros k K. cbn [field]. rewrite lookup_set_prop_other by exact K.
           reflexivity.
    + unfold Storage.saveLibrary. unfold Storage.safeLibrary in *.
      unfold AsyncNotations.map_indexed. rewrite E.
      destruct (try_setItem_items fits (Storage.getKey u "library")
                  (Ok (Storage.stored_text rt (JArr safe))) b) as [-> | [s P]];
        [left; reflexivity |].
      unfold Storage.try_setItem, Storage.setItem in *.
      destruct (fits _); [right; reflexivity | left; reflexivity].
  - intros fields L. rewrite (set_prop_absent "fileUrl" JUndefined fields L).
    cbn [Storage.JSON_stringify_value]. rewrite flat_map_app.
    cbn [flat_map Storage.JSON_stringify_value snd app]. rewrite app_nil_r.
    reflexivity.
Qed.

Lemma local_file_locations_are_not_stored_witness :
  Storage.localStorage
    (Storage.saveLibrary RefRuntime.runtime SampleData.always "ada"
       [SampleData.uploaded; SampleData.online] SampleData.empty_browser)
  = [("suitcase_ada_library",
      Storage.stored_text RefRuntime.runtime
        (JArr [JObj [("id", JStr "local-1"); ("title", JStr "Notes");
                     ("isLocal", JBool true)];
               SampleData.online]))]
  /\ Storage.saveLibrary RefRuntime.runtime SampleData.always "ada"
       [SampleData.uploaded; JNull] SampleData.empty_browser
     = SampleData.empty_browser.
Proof.
  split; [reflexivity |].
  apply (local_file_locations_are_not_stored RefRuntime.runtime SampleData.always
           "ada" [SampleData.uploaded; JNull] SampleData.empty_browser).
  left. right. left. reflexivity.
Defined.

(** ** The authentication service *)

Lemma cleaned_message_is_known (code : option string) :
  In (Auth.cleanFirebaseError code) auth_messages.
Proof.
  unfold Auth.cleanFirebaseError, auth_messages. destruct code as [c |]; simpl.
  - repeat match goal with
           | |- context [if ?b then _ else _] => destruct b
           end; auto 10.
  - auto 10.
Qed.

(** X21. A failed sign-up or sign-in is reported in the service's own
    words: the promise rejects with an [Error] whose message is one of five
    fixed sentences, never with the error or the code of Firebase.  An
    unknown account, a wrong password and an invalid credential are
    reported with the same sentence, so the message of a failed sign-in
    does not tell whether the address is registered; a code the service does
    not know, or an error without a code, gives the generic sentence.
    Signing out never rejects, also when Firebase fails. *)
Theorem auth_failures_are_reworded (fb : Auth.Firebase)
  (name email password : string) :
  (forall e, Auth.signup fb name email password = Throw e ->
             exists m, e = Error m /\ In m auth_messages)
  /\ (forall e, Auth.login fb email password = Throw e ->
                exists m, e = Error m /\ In m auth_messages)
  /\ (forall code,
         Auth.signInWithEmailAndPassword fb email password = Auth.Rejects (Some code) ->
         In code ["auth/user-not-found"; "auth/wrong-password";
                  "auth/invalid-credential"] ->
         Auth.login fb email password = Throw (Error "Invalid email or password."))
  /\ (forall code,
         Auth.signInWithEmailAndPassword fb email password = Auth.Rejects code ->
         (forall c, code = Some c ->
                    ~ In c ["auth/email-already-in-use"; "auth/invalid-email";
                            "auth/user-not-found"; "auth/wrong-password";
                            "auth/invalid-credential"; "auth/weak-password"]) ->
         Auth.login fb email password
         = Throw (Error "Authentication failed. Please try again."))
  /\ Auth.logout fb = Ok tt.
Proof.
  repeat match goal with |- _ /\ _ => split end.
  - unfold Auth.signup. intros e.
    destruct (Auth.createUserWithEmailAndPassword fb email password) as [user | code].
    + destruct (Auth.updateProfile fb user name) as [[] | code]; [discriminate |].
      intros E. inversion E. eexists. split; [reflexivity |].
      apply cleaned_message_is_known.
    + intros E. inversion E. eexists. split; [reflexivity |].
      apply cleaned_message_is_known.
  - unfold Auth.login. intros e.
    destruct (Auth.signInWithEmailAndPassword fb email password) as [user | code];
      [discriminate |].
    intros E. inversion E. eexists. split; [reflexivity |].
    apply cleaned_message_is_known.
  - intros code R K. unfold Auth.login. rewrite R.
    destruct K as [<- | [<- | [<- | []]]]; reflexivity.
  - intros code R K. unfold Auth.login. rewrite R. f_equal. f_equal.
    destruct code as [c |]; [| reflexivity].
    specialize (K c eq_refl). unfold Auth.cleanFirebaseError.
    repeat match goal with
           | |- context [String.eqb c ?s] =>
               let E := fresh "E" in
               destruct (String.eqb c s) eqn:E;
               [apply String.eqb_eq in E; subst c; exfalso; apply K; simpl; tauto |]
           end.
    reflexivity.
  - unfold Auth.logout. destruct (Auth.signOut fb); reflexivity.
Qed.

Lemma auth_failures_are_reworded_witness :
  Auth.login SampleFirebase.backend "ada@example.org" "difference"
  = Throw (Error "Invalid email or password.")
  /\ Auth.login SampleFirebase.backend "eve@example.org" "difference"
     = Throw (Error "Invalid email or password.")
  /\ Auth.logout SampleFirebase.backend = Ok tt.
Proof.
  split; [| split].
  - apply (proj1 (proj2 (proj2 (auth_failures_are_reworded SampleFirebase.backend
                                  "" "ada@example.org" "difference")))
             "auth/wrong-password").
    + reflexivity.
    + right. left. reflexivity.
  - apply (proj1 (proj2 (proj2 (auth_failures_are_reworded SampleFirebase.backend
                                  "" "eve@example.org" "difference")))
             "auth/user-not-found").
    + reflexivity.
    + left. reflexivity.
  - apply (auth_failures_are_reworded SampleFirebase.backend "" "" "").
Defined.

(** X22. The user the authentication service hands to the application
    always has a name: the name given at sign-up, the display name of the
    Firebase account at sign-in and for the current user, and [Traveler]
    when that name is missing or empty.  At sign-up the display name
    Firebase returns is not read, the name passed to the call is used
    instead.  The identifier is the uid of Firebase, and a missing address
    becomes the empty text. *)
Theorem app_user_always_has_a_name (fb : Auth.Firebase)
  (name email password : string) (user : Auth.User) :
  (Auth.signup fb name email password = Ok user ->
   exists fbUser,
     Auth.createUserWithEmailAndPassword fb email password = Auth.Resolves fbUser
     /\ Auth.id user = Auth.uid fbUser
     /\ Auth.name user = (if String.eqb name "" then "Traveler" else name)
     /\ Auth.name user <> "")
  /\ (Auth.login fb email password = Ok user ->
      exists fbUser,
        Auth.signInWithEmailAndPassword fb email password = Auth.Resolves fbUser
        /\ user = Auth.mapFirebaseUser fbUser
        /\ Auth.id user = Auth.uid fbUser
        /\ Auth.name user <> "")
  /\ (Auth.getCurrentUser fb = Some user ->
      exists fbUser,
        Auth.currentUser fb = Some fbUser
        /\ user = Auth.mapFirebaseUser fbUser
        /\ Auth.name user <> "")
  /\ (forall fbUser,
         Auth.name (Auth.mapFirebaseUser fbUser)
         = match Auth.displayName fbUser with
           | Some n => if String.eqb n "" then "Traveler" else n
           | None => "Traveler"
           end
         /\ Auth.email (Auth.mapFirebaseUser fbUser)
            = match Auth.fb_email fbUser with Some a => a | None => "" end).
Proof.
  assert (N : forall fbUser, Auth.name (Auth.mapFirebaseUser fbUser) <> "").
  { intros fbUser. unfold Auth.mapFirebaseUser, Auth.text_or. cbn [Auth.name].
    destruct (Auth.displayName fbUser) as [n |]; [| discriminate].
    destruct (String.eqb n "") eqn:E; [discriminate |].
    apply String.eqb_neq. exact E. }
  repeat match goal with |- _ /\ _ => split end.
  - unfold Auth.signup.
    destruct (Auth.createUserWithEmailAndPassword fb email password) as [fbUser | code];
      [| discriminate].
    destruct (Auth.updateProfile fb fbUser name) as [[] | code]; [| discriminate].
    intros E. inversion E. exists fbUser. split; [reflexivity |].
    split; [reflexivity |]. split; [reflexivity |]. apply N.
  - unfold Auth.login.
    destruct (Auth.signInWithEmailAndPassword fb email password) as [fbUser | code];
      [| discriminate].
    intros E. inversion E. exists fbUser. split; [reflexivity |].
    split; [reflexivity |]. split; [reflexivity |]. apply N.
  - unfold Auth.getCurrentUser.
    destruct (Auth.currentUser fb) as [fbUser |]; [| discriminate].
    intros E. inversion E. exists fbUser. split; [reflexivity |].
    split; [reflexivity |]. apply N.
  - intros fbUser. unfold Auth.mapFirebaseUser, Auth.text_or.
    cbn [Auth.name Auth.email]. split; [reflexivity |].
    destruct (Auth.fb_email fbUser) as [a |]; [| reflexivity].
    destruct (String.eqb a "") eqn:E; [| reflexivity].
    apply String.eqb_eq in E. subst a. reflexivity.
Qed.

Lemma app_user_always_has_a_name_witness :
  Auth.signup SampleFirebase.backend "" "eve@example.org" "difference"
  = Ok {| Auth.id := "u-2"; Auth.email := "eve@example.org"; Auth.name := "Traveler" |}
  /\ exists fbUser,
       Auth.signInWithEmailAndPassword SampleFirebase.backend "ada@example.org"
         "analytical" = Auth.Resolves fbUser
       /\ {| Auth.id := "u-1"; Auth.email := "ada@example.org";
             Auth.name := "Traveler" |} = Auth.mapFirebaseUser fbUser
       /\ Auth.id {| Auth.id := "u-1"; Auth.email := "ada@example.org";
                     Auth.name := "Traveler" |} = Auth.uid fbUser
       /\ Auth.name {| Auth.id := "u-1"; Auth.email := "ada@example.org";
                       Auth.name := "Traveler" |} <> "".
Proof.
  split; [reflexivity |].
  exact (proj1 (proj2 (app_user_always_has_a_name SampleFirebase.backend ""
                         "ada@example.org" "analytical"
                         {| Auth.id := "u-1"; Auth.email := "ada@example.org";
                            Auth.name := "Traveler" |}))
           eq_refl).
Defined.

(** ** The onboarding wizard *)

Lemma includes_In (g : string) (l : list string) :
  Onboarding.includes g l = true <-> In g l.
Proof.
  unfold Onboarding.includes. rewrite existsb_exists. split.
  - intros (x & K & E). apply String.eqb_eq in E. subst x. exact K.
  - intros K. exists g. split; [exact K | apply String.eqb_refl].
Qed.

Lemma NoDup_snoc {A} (l : list A) (x : A) : NoDup l -> ~ In x l -> NoDup (l ++ [x]).
Proof.
  intros N K. induction N as [| y l Hy N IH]; simpl.
  - constructor; [intros [] | constructor].
  - constructor.
    + intros H. apply in_app_or in H. destruct H as [H | [H | []]].
      * exact (Hy H).
      * subst y. apply K. left. reflexivity.
    + apply IH. intros H. apply K. right. exact H.
Qed.

Lemma goal_label_is_known (goal : Onboarding.Goal) :
  existsb (Onboarding.goal_eqb goal) Onboarding.GOALS = true ->
  In (Onboarding.label goal) (map Onboarding.label Onboarding.GOALS).
Proof.
  rewrite existsb_exists. intros (x & K & E). unfold Onboarding.goal_eqb in E.
  apply andb_true_iff in E. destruct E as [E _].
  apply andb_true_iff in E. destruct E as [_ E].
  apply String.eqb_eq in E. rewrite E. apply in_map. exact K.
Qed.

#[local] Ltac invariant_parts :=
  unfold wizard_invariant; cbn [Onboarding.step Onboarding.selectedGenres
    Onboarding.selectedGoal Onboarding.name Onboarding.setStep Onboarding.setName
    Onboarding.setSelectedGoal];
  split; [| split; [| split; [| split; [| split; [| split]]]]].

Lemma dispatch_keeps_the_invariant (now : Z) (a : Onboarding.Action)
  (s : Onboarding.State) :
  wizard_invariant s ->
  wizard_invariant (fst (Onboarding.dispatch now a s))
  /\ forall p, snd (Onboarding.dispatch now a s) = Some p -> complete_preferences p.
Proof.
  intros I. pose proof I as (S1 & L & N & C & T & G & O).
  unfold Onboarding.dispatch.
  destruct (Onboarding.rendered s a) eqn:R; [| split; [exact I | discriminate]].
  destruct a as [value | genre | goal |]; cbn [Onboarding.rendered] in R.
  - (* the name field *)
    apply Nat.eqb_eq in R. split; [| discriminate]. cbn [fst].
    invariant_parts; try assumption.
    + intros H. lia.
  - (* a genre button *)
    apply andb_true_iff in R. destruct R as [R K].
    apply Nat.eqb_eq in R. apply includes_In in K.
    split; [| discriminate]. cbn [fst]. unfold Onboarding.toggleGenre.
    destruct (Onboarding.includes genre (Onboarding.selectedGenres s)) eqn:E.
    + invariant_parts; try assumption.
      * pose proof (filter_length_le
                      (fun item => negb (String.eqb item genre))
                      (Onboarding.selectedGenres s)). lia.
      * apply NoDup_filter. exact N.
      * intros x H. apply filter_In in H. apply C. exact (proj1 H).
      * intros H. lia.
    + destruct (length (Onboarding.selectedGenres s) <? 3)%nat eqn:B;
        [| exact I].
      apply Nat.ltb_lt in B. invariant_parts; try assumption.
      * rewrite length_app. simpl. lia.
      * apply NoDup_snoc; [exact N |]. intros H. apply includes_In in H.
        rewrite H in E. discriminate E.
      * intros x H. apply in_app_or in H. destruct H as [H | [<- | []]];
          [exact (C x H) | exact K].
      * intros H. lia.
  - (* a goal button *)
    apply andb_true_iff in R. destruct R as [R K].
    split; [| discriminate]. cbn [fst]. invariant_parts; try assumption.
    right. exact (goal_label_is_known goal K).
  - (* the last button *)
    unfold Onboarding.handleNext.
    destruct (Onboarding.step s =? 1)%nat eqn:E1.
    { apply Nat.eqb_eq in E1. cbn [andb].
      destruct (negb (String.eqb (Text.trim (Onboarding.name s)) "")) eqn:Q.
      - split; [| discriminate]. cbn [fst]. invariant_parts; try assumption.
        + lia.
        + intros _. apply negb_true_iff in Q. apply String.eqb_neq. exact Q.
        + intros H. discriminate H.
      - cbn [andb]. destruct (Onboarding.step s =? 2)%nat eqn:E2;
          [apply Nat.eqb_eq in E2; lia |].
        destruct (Onboarding.step s =? 3)%nat eqn:E3;
          [apply Nat.eqb_eq in E3; lia |].
        split; [exact I | discriminate]. }
    cbn [andb]. destruct (Onboarding.step s =? 2)%nat eqn:E2.
    { apply Nat.eqb_eq in E2. cbn [andb].
      destruct (0 <? length (Onboarding.selectedGenres s))%nat eqn:Q.
      - split; [| discriminate]. apply Nat.ltb_lt in Q. cbn [fst].
        invariant_parts; try assumption.
        + lia.
        + intros _. apply T. lia.
        + intros _ H. rewrite H in Q. simpl in Q. lia.
      - cbn [andb]. destruct (Onboarding.step s =? 3)%nat eqn:E3;
          [apply Nat.eqb_eq in E3; lia |].
        split; [exact I | discriminate]. }
    cbn [andb]. destruct (Onboarding.step s =? 3)%nat eqn:E3; cbn [andb];
      [| split; [exact I | discriminate]].
    apply Nat.eqb_eq in E3.
    destruct (negb (String.eqb (Onboarding.selectedGoal s) "")) eqn:Q;
      [| split; [exact I | discriminate]].
    split; [exact I |]. intros p H. inversion H. subst p.
    apply negb_true_iff in Q. apply String.eqb_neq in Q.
    unfold complete_preferences.
    cbn [name genres readingGoal onboardingComplete].
    split; [| split; [| split; [| split; [| split]]]]; try assumption.
    + exists (Onboarding.name s). split; [reflexivity |]. apply T. lia.
    + specialize (G E3). destruct (Onboarding.selectedGenres s);
        [contradiction | simpl in *; lia].
    + destruct O as [O | O]; [contradiction | exact O].
    + reflexivity.
Qed.

(** X23. Whatever the user does in the onboarding wizard, the preferences
    it hands over are complete: the name is not blank, there are between
    one and three genres, all different and all from the wizard's list, the
    reading goal is one of its three goals and the completion flag is set.
    This holds for every sequence of typing and clicking, at every value of
    the clock, and for every time the wizard finishes; along the way the
    step stays between 1 and 3 and never more than three genres are
    selected. *)
Theorem wizard_hands_over_complete_preferences (clock : nat -> Z)
  (actions : list Onboarding.Action) :
  Forall complete_preferences
         (snd (Onboarding.run clock 0 actions Onboarding.initial))
  /\ wizard_invariant (fst (Onboarding.run clock 0 actions Onboarding.initial)).
Proof.
  assert (I0 : wizard_invariant Onboarding.initial).
  { invariant_parts.
    - cbn. lia.
    - cbn. lia.
    - constructor.
    - intros x [].
    - cbn. lia.
    - intros H. discriminate H.
    - left. reflexivity. }
  revert I0. generalize Onboarding.initial as s. generalize 0%nat as i.
  induction actions as [| a rest IH]; intros i s I; cbn [Onboarding.run].
  - split; [constructor | exact I].
  - destruct (dispatch_keeps_the_invariant (clock i) a s I) as [I1 P].
    destruct (Onboarding.dispatch (clock i) a s) as [s1 completed].
    cbn [fst snd] in *.
    destruct (IH (S i) s1 I1) as [F I2].
    destruct (Onboarding.run clock (S i) rest s1) as [s2 later].
    cbn [fst snd] in *. split; [| exact I2].
    destruct completed as [p |]; [| exact F].
    constructor; [exact (P p eq_refl) | exact F].
Qed.

(** A session that finishes: a name, one genre, the first goal. *)
Lemma wizard_hands_over_complete_preferences_witness :
  exists p,
    snd (Onboarding.run (fun _ => 0%Z) 0
           ([Onboarding.ChangeName "Ada"; Onboarding.ClickNext;
             Onboarding.ClickGenre "Sci-Fi"; Onboarding.ClickNext]
            ++ map Onboarding.ClickGoal (firstn 1 Onboarding.GOALS)
            ++ [Onboarding.ClickNext])
           Onboarding.initial) = [p]
    /\ complete_preferences p.
Proof.
  eexists. split; [reflexivity |].
  exact (Forall_inv
           (proj1 (wizard_hands_over_complete_preferences (fun _ => 0%Z)
                     ([Onboarding.ChangeName "Ada"; Onboarding.ClickNext;
                       Onboarding.ClickGenre "Sci-Fi"; Onboarding.ClickNext]
                      ++ map Onboarding.ClickGoal (firstn 1 Onboarding.GOALS)
                      ++ [Onboarding.ClickNext])))).
Defined.

(** ** The earlier Gemini service *)

Section LegacyRules.
Context (rt : Runtime) (sdk : LegacyGemini.Sdk).

Lemma legacy_list_operation (prompt : string) (schema : LegacyGemini.Schema)
  (item : JsVal -> nat -> Completion JsVal) :
  let op := LegacyGemini.list_operation rt sdk prompt schema item in
  exists items,
    snd op = Ok (JArr items)
    /\ (present (LegacyGemini.API_KEY sdk) = false -> fst op = [] /\ items = [])
    /\ (present (LegacyGemini.API_KEY sdk) = true ->
        exists request,
          fst op = [request]
          /\ LegacyGemini.contents request = prompt
          /\ LegacyGemini.responseSchema request = Some schema
          /\ (forall e, LegacyGemini.generateContent sdk request = Throw e ->
              items = [])).
Proof.
  cbv zeta. unfold LegacyGemini.list_operation.
  destruct (present (LegacyGemini.API_KEY sdk)) eqn:K; cbn [negb fst snd].
  - set (request := {| LegacyGemini.contents := prompt;
                       LegacyGemini.responseSchema := Some schema |}).
    destruct (LegacyGemini.generateContent sdk request) as [text | e] eqn:G;
      cbn [AsyncNotations.and_then AsyncNotations.catch].
    + destruct (LegacyGemini.parseJSON rt text) as [data | e] eqn:P;
        cbn [AsyncNotations.and_then AsyncNotations.catch].
      * destruct (AsyncNotations.array_map item data) as [v | e] eqn:M;
          cbn [AsyncNotations.catch].
        -- destruct (array_map_yields_array _ _ _ M) as (items & ->).
           exists items. split; [reflexivity |]. split; [discriminate |].
           intros _. exists request.
           repeat (split; [reflexivity |]). intros e E. congruence.
        -- exists []. split; [reflexivity |]. split; [discriminate |].
           intros _. exists request.
           repeat (split; [reflexivity |]). reflexivity.
      * exists []. split; [reflexivity |]. split; [discriminate |].
        intros _. exists request. repeat (split; [reflexivity |]). reflexivity.
    + exists []. split; [reflexivity |]. split; [discriminate |].
      intros _. exists request. repeat (split; [reflexivity |]). reflexivity.
  - exists []. split; [reflexivity |]. split; [| discriminate].
    intros _. split; reflexivity.
Qed.

Lemma legacy_text_or_not_empty (response_text : option string)
  (fallbackText : string) :
  fallbackText <> "" -> LegacyGemini.text_or response_text fallbackText <> "".
Proof.
  intros N. unfold LegacyGemini.text_or.
  destruct response_text as [t |]; [| exact N].
  destruct (String.eqb t "") eqn:E; [exact N |].
  apply String.eqb_neq. exact E.
Qed.

Lemma legacy_text_operation (missing prompt : string)
  (finish : option string -> string) :
  missing <> "" ->
  (forall response_text, finish response_text <> "") ->
  let op := LegacyGemini.text_operation sdk missing prompt finish in
  if present (LegacyGemini.API_KEY sdk)
  then exists request,
         fst op = [request]
         /\ LegacyGemini.contents request = prompt
         /\ LegacyGemini.responseSchema request = None
         /\ match LegacyGemini.generateContent sdk request with
            | Throw e => snd op = Throw e
            | Ok response_text =>
                exists answer, snd op = Ok (JStr answer) /\ answer <> ""
            end
  else fst op = [] /\ snd op = Ok (JStr missing).
Proof.
  intros N F. cbv zeta. unfold LegacyGemini.text_operation.
  destruct (present (LegacyGemini.API_KEY sdk)) eqn:K; cbn [negb fst snd].
  - set (request := {| LegacyGemini.contents := prompt;
                       LegacyGemini.responseSchema := None |}).
    exists request. repeat (split; [reflexivity |]).
    destruct (LegacyGemini.generateContent sdk request) as [text | e];
      cbn [AsyncNotations.and_then].
    + exists (finish text). split; [reflexivity | apply F].
    + reflexivity.
  - split; reflexivity.
Qed.

End LegacyRules.

(** X24. The four list operations of the earlier Gemini service
    (searchBooks, getMoodRecommendations, getOnboardingRecommendations,
    generateReviews) never reject and always give an array.  Without
    process.env.API_KEY they send no request and give the empty array; with
    it they send exactly one request, which carries a response schema, and
    an exception of the SDK gives the empty array. *)
Theorem legacy_lists_never_reject (rt : Runtime) (sdk : LegacyGemini.Sdk)
  (query mood title author : string) (prefs : UserPreferences) :
  Forall
    (fun op : LegacyGemini.Calls JsVal =>
       exists items,
         snd op = Ok (JArr items)
         /\ (present (LegacyGemini.API_KEY sdk) = false ->
             fst op = [] /\ items = [])
         /\ (present (LegacyGemini.API_KEY sdk) = true ->
             exists request,
               fst op = [request]
               /\ LegacyGemini.responseSchema request <> None
               /\ (forall e,
                     LegacyGemini.generateContent sdk request = Throw e ->
                     items = [])))
    [LegacyGemini.searchBooks rt sdk query;
     LegacyGemini.getMoodRecommendations rt sdk mood;
     LegacyGemini.getOnboardingRecommendations rt sdk prefs;
     LegacyGemini.generateReviews rt sdk title author].
Proof.
  repeat constructor;
    match goal with
    | |- exists items, snd (?f _ _ _ _) = _ /\ _ => unfold f
    | |- exists items, snd (?f _ _ _) = _ /\ _ => unfold f
    end;
    match goal with
    | |- context [LegacyGemini.list_operation ?r ?s ?p ?sc ?it] =>
        destruct (legacy_list_operation r s p sc it) as (items & R & A & B)
    end;
    exists items; (split; [exact R |]); (split; [exact A |]);
    intros K; destruct (B K) as (request & T & _ & S & G);
    exists request; (split; [exact T |]); (split; [| exact G]);
    rewrite S; discriminate.
Qed.

(** X25. The six text operations of the earlier Gemini service (chatAboutBook,
    translateText, explainContext, generateBookContent, getBookSummary,
    getBookRecap) have no error handling.  With process.env.API_KEY set they
    send exactly one request, without a response schema; an exception of the
    SDK rejects the promise with that same exception, and any reply resolves
    it with a text that is not empty.  Without the key they send nothing and
    resolve with a fixed notice. *)
Theorem legacy_text_operations_pass_sdk_errors_on (rt : Runtime)
  (sdk : LegacyGemini.Sdk) (bookTitle userMessage text title : string)
  (chatHistory : list HistoryEntry) (targetLang : option string) :
  Forall
    (fun op : LegacyGemini.Calls JsVal =>
       if present (LegacyGemini.API_KEY sdk)
       then exists request,
              fst op = [request]
              /\ LegacyGemini.responseSchema request = None
              /\ match LegacyGemini.generateContent sdk request with
                 | Throw e => snd op = Throw e
                 | Ok response_text =>
                     exists answer, snd op = Ok (JStr answer) /\ answer <> ""
                 end
       else fst op = []
            /\ exists notice,
                 snd op = Ok (JStr notice)
                 /\ In notice ["API Key missing."; "API Key missing";
                               "Loading content..."])
    [LegacyGemini.chatAboutBook rt sdk bookTitle userMessage chatHistory;
     LegacyGemini.translateText sdk text targetLang;
     LegacyGemini.explainContext sdk text bookTitle;
     LegacyGemini.generateBookContent sdk title;
     LegacyGemini.getBookSummary sdk title;
     LegacyGemini.getBookRecap sdk title].
Proof.
  repeat apply Forall_cons; [.. | apply Forall_nil];
    match goal with
    | |- context [snd (?f _ _ _ _ _)] => unfold f
    | |- context [snd (?f _ _ _)] => unfold f
    | |- context [snd (?f _ _)] => unfold f
    end;
    match goal with
    | |- context [LegacyGemini.text_operation ?s ?m ?p ?f] =>
        pose proof (legacy_text_operation s m p f) as R
    end;
    cbv zeta in R;
    (lapply R; [clear R; intros R | discriminate]);
    (lapply R;
     [clear R; intros R
     | intros response_text; apply legacy_text_or_not_empty; discriminate]);
    destruct (present (LegacyGemini.API_KEY sdk));
    try (destruct R as (request & T & _ & S & G); exists request;
         repeat (split; [assumption |]); exact G);
    destruct R as (T & S); (split; [exact T |]);
    eexists; (split; [exact S |]); cbn; tauto.
Qed.

(** ** The darker shade of a cover colour *)

Section ColourRules.
#[local] Open Scope Z_scope.

Lemma length_append (a b : string) :
  String.length (a ++ b) = (String.length a + String.length b)%nat.
Proof. induction a as [| c a IH]; simpl; [reflexivity | rewrite IH; reflexivity]. Qed.

Lemma zeros_snoc (k : nat) :
  (BookCard.zeros k ++ "0")%string = BookCard.zeros (S k).
Proof. induction k as [| k IH]; simpl; [reflexivity | rewrite IH; reflexivity]. Qed.

Lemma hex_digits_length (k : nat) (n : Z) :
  String.length (BookCard.hex_digits k n) = k.
Proof.
  revert n. induction k as [| k IH]; intros n; simpl; [reflexivity |].
  rewrite length_append, IH. simpl. lia.
Qed.

Lemma hex_digits_of_zero (k : nat) : BookCard.hex_digits k 0 = BookCard.zeros k.
Proof.
  induction k as [| k IH]; [reflexivity |].
  cbn [BookCard.hex_digits]. change (0 / 16) with 0. rewrite IH.
  apply zeros_snoc.
Qed.

(** Digits beyond the size of the number are zeros. *)
Lemma hex_digits_pad (j k : nat) (n : Z) :
  0 <= n < 16 ^ Z.of_nat k ->
  BookCard.hex_digits (j + k) n
  = (BookCard.zeros j ++ BookCard.hex_digits k n)%string.
Proof.
  revert n. induction k as [| k IH]; intros n B.
  - change (16 ^ Z.of_nat 0) with 1 in B. assert (n = 0) as -> by lia.
    rewrite Nat.add_0_r, hex_digits_of_zero. cbn [BookCard.hex_digits].
    clear. induction j as [| j IH]; simpl; [reflexivity | rewrite <- IH; reflexivity].
  - rewrite Nat.add_succ_r. cbn [BookCard.hex_digits].
    rewrite IH.
    + apply append_assoc.
    + rewrite Nat2Z.inj_succ, Z.pow_succ_r in B by lia.
      split; [apply Z.div_pos; lia |].
      apply Z.div_lt_upper_bound; lia.
Qed.

Lemma toString16_padded (n : Z) :
  0 <= n < 16 ^ 6 ->
  BookCard.padStart 6 (BookCard.toString16 n) = BookCard.hex_digits 6 n.
Proof.
  intros B. unfold BookCard.toString16, BookCard.padStart.
  replace (n <? 0) with false by (symmetry; apply Z.ltb_ge; lia).
  rewrite Z.abs_eq by lia. rewrite hex_digits_length.
  set (k := (Z.to_nat (Z.log2 n / 4) + 1)%nat).
  assert (L : 0 <= Z.log2 n < 24).
  { split; [apply Z.log2_nonneg |].
    destruct (Z.eq_dec n 0) as [-> | P]; [cbn; lia |].
    apply Z.log2_lt_pow2; lia. }
  assert (Q : 0 <= Z.log2 n / 4 <= 5).
  { split; [apply Z.div_pos; lia |].
    apply Z.lt_succ_r. apply Z.div_lt_upper_bound; lia. }
  assert (K : (k <= 6)%nat) by (unfold k; lia).
  assert (S : 0 <= n < 16 ^ Z.of_nat k).
  { split; [lia |].
    destruct (Z.eq_dec n 0) as [-> | P]; [apply Z.pow_pos_nonneg; lia |].
    destruct (Z.log2_spec n) as [_ U]; [lia |].
    eapply Z.lt_le_trans; [exact U |].
    replace (16 ^ Z.of_nat k) with (2 ^ (4 * Z.of_nat k)).
    - apply Z.pow_le_mono_r; [lia |].
      unfold k. rewrite Nat2Z.inj_add, Z2Nat.id by lia.
      pose proof (Z.mod_pos_bound (Z.log2 n) 4).
      pose proof (Z.div_mod (Z.log2 n) 4). lia.
    - rewrite Z.pow_mul_r by lia. reflexivity. }
  rewrite <- (hex_digits_pad (6 - k) k n S).
  replace (6 - k + k)%nat with 6%nat by lia. reflexivity.
Qed.

Lemma lor_of_disjoint (a b : Z) : Z.land a b = 0 -> Z.lor a b = a + b.
Proof.
  intros D. rewrite <- (Z.lxor_lor a b D). symmetry.
  apply Z.add_nocarry_lxor. exact D.
Qed.

Lemma land_of_low_bits (y x k : Z) :
  0 <= k -> 0 <= x < 2 ^ k -> Z.land (y * 2 ^ k) x = 0.
Proof.
  intros K B. apply Z.bits_inj'. intros n N.
  rewrite Z.land_spec, Z.bits_0.
  destruct (Z.lt_ge_cases n k) as [L | G].
  - rewrite Z.mul_pow2_bits_low by exact L. reflexivity.
  - rewrite <- (Z.mod_small x (2 ^ k)) by exact B.
    rewrite Z.mod_pow2_bits_high by lia. apply andb_false_r.
Qed.

(** The three channels are put together without overlap. *)
Lemma colour_value (r g b : Z) :
  0 <= r <= 255 -> 0 <= g <= 255 -> 0 <= b <= 255 ->
  Z.lor (Z.lor (Z.shiftl r 16) (Z.shiftl g 8)) b = r * 65536 + g * 256 + b.
Proof.
  intros R G B.
  rewrite !Z.shiftl_mul_pow2 by lia.
  rewrite (lor_of_disjoint (r * 2 ^ 16) (g * 2 ^ 8)).
  - change (2 ^ 16) with 65536. change (2 ^ 8) with 256.
    replace (r * 65536 + g * 256) with ((r * 256 + g) * 2 ^ 8)
      by (change (2 ^ 8) with 256; lia).
    rewrite lor_of_disjoint.
    + change (2 ^ 8) with 256. lia.
    + apply land_of_low_bits; [lia |]. change (2 ^ 8) with 256. lia.
  - apply land_of_low_bits; [lia |].
    change (2 ^ 16) with 65536. change (2 ^ 8) with 256. lia.
Qed.

Lemma hex_step (a d : Z) :
  0 <= d < 16 -> (a * 16 + d) / 16 = a /\ (a * 16 + d) mod 16 = d.
Proof.
  intros D. split; symmetry.
  - apply Z.div_unique with d; lia.
  - apply Z.mod_unique with a; lia.
Qed.

Lemma two_digits (x : Z) :
  0 <= x <= 255 ->
  exists high low,
    x = high * 16 + low /\ 0 <= high < 16 /\ 0 <= low < 16
    /\ x / 16 = high /\ x mod 16 = low.
Proof.
  intros B. exists (x / 16), (x mod 16).
  pose proof (Z.div_mod x 16). pose proof (Z.mod_pos_bound x 16).
  repeat split; lia.
Qed.

Lemma hex_digits_of_channels (r g b : Z) :
  0 <= r <= 255 -> 0 <= g <= 255 -> 0 <= b <= 255 ->
  BookCard.hex_digits 6 (r * 65536 + g * 256 + b)
  = (hex_pair r ++ hex_pair g ++ hex_pair b)%string.
Proof.
  intros R G B. unfold hex_pair.
  destruct (two_digits r R) as (r1 & r0 & Er & Br1 & Br0 & -> & ->).
  destruct (two_digits g G) as (g1 & g0 & Eg & Bg1 & Bg0 & -> & ->).
  destruct (two_digits b B) as (b1 & b0 & Eb & Bb1 & Bb0 & -> & ->).
  replace (r * 65536 + g * 256 + b)
    with (((((r1 * 16 + r0) * 16 + g1) * 16 + g0) * 16 + b1) * 16 + b0)
    by lia.
  cbn [BookCard.hex_digits].
  rewrite !(proj2 (hex_step _ b0 Bb0)), !(proj1 (hex_step _ b0 Bb0)).
  rewrite !(proj2 (hex_step _ b1 Bb1)), !(proj1 (hex_step _ b1 Bb1)).
  rewrite !(proj2 (hex_step _ g0 Bg0)), !(proj1 (hex_step _ g0 Bg0)).
  rewrite !(proj2 (hex_step _ g1 Bg1)), !(proj1 (hex_step _ g1 Bg1)).
  rewrite !(proj2 (hex_step _ r0 Br0)), !(proj1 (hex_step _ r0 Br0)).
  rewrite (Z.mod_small r1 16) by lia.
  reflexivity.
Qed.

Lemma lower_hex_digit_is_lower_hex (d : Z) :
  0 <= d < 16 -> is_lower_hex (BookCard.lower_hex_digit d) = true.
Proof.
  intros D.
  assert (d = 0 \/ d = 1 \/ d = 2 \/ d = 3 \/ d = 4 \/ d = 5 \/ d = 6 \/ d = 7
          \/ d = 8 \/ d = 9 \/ d = 10 \/ d = 11 \/ d = 12 \/ d = 13 \/ d = 14
          \/ d = 15) as C by lia.
  repeat (destruct C as [-> | C]; [reflexivity |]). subst d. reflexivity.
Qed.

Lemma hex_digits_are_lower_hex (k : nat) (n : Z) :
  Forall (fun c => is_lower_hex c = true)
    (list_ascii_of_string (BookCard.hex_digits k n)).
Proof.
  revert n. induction k as [| k IH]; intros n; cbn [BookCard.hex_digits].
  - constructor.
  - rewrite chars_app. apply Forall_app. split; [apply IH |].
    constructor; [| constructor].
    apply lower_hex_digit_is_lower_hex. apply Z.mod_pos_bound. lia.
Qed.

Lemma shade_in_range (channel percent : Z) : 0 <= shade channel percent <= 255.
Proof. unfold shade. lia. Qed.

(** What [adjustColor] makes of a text, in terms of the number read. *)
Lemma adjustColor_of_text (h : string) (percent : Z) :
  let num := BookCard.ToInt32
               (BookCard.parseInt16 (Builtins.remove_first "#" h)) in
  BookCard.adjustColor (JStr h) percent
  = JStr ("#" ++ hex_pair (shade (Z.shiftr num 16) percent)
              ++ hex_pair (shade (Z.land (Z.shiftr num 8) 255) percent)
              ++ hex_pair (shade (Z.land num 255) percent)).
Proof.
  cbv zeta. unfold BookCard.adjustColor.
  set (num := BookCard.ToInt32 _).
  fold (shade (Z.shiftr num 16) percent).
  fold (shade (Z.land (Z.shiftr num 8) 255) percent).
  fold (shade (Z.land num 255) percent).
  pose proof (shade_in_range (Z.shiftr num 16) percent) as R.
  pose proof (shade_in_range (Z.land (Z.shiftr num 8) 255) percent) as G.
  pose proof (shade_in_range (Z.land num 255) percent) as B.
  rewrite (colour_value _ _ _ R G B).
  rewrite toString16_padded by (change (16 ^ 6) with 16777216; lia).
  rewrite (hex_digits_of_channels _ _ _ R G B). reflexivity.
Qed.

Lemma hex_pair_is_two_digits (channel : Z) :
  0 <= channel <= 255 ->
  String.length (hex_pair channel) = 2%nat
  /\ Forall (fun c => is_lower_hex c = true)
       (list_ascii_of_string (hex_pair channel)).
Proof.
  intros C. split; [reflexivity |].
  unfold hex_pair. cbn [list_ascii_of_string].
  constructor; [| constructor; [| constructor]];
    apply lower_hex_digit_is_lower_hex.
  - split; [apply Z.div_pos; lia | apply Z.div_lt_upper_bound; lia].
  - apply Z.mod_pos_bound. lia.
Qed.

Lemma hex_char (c : ascii) (d : N) :
  RefRuntime.hex_val c = Some d ->
  Text.is_space c = false /\ Ascii.eqb c "-" = false
  /\ Ascii.eqb c "+" = false /\ Ascii.eqb "x" c = false
  /\ Ascii.eqb "X" c = false /\ (d < 16)%N.
Proof.
  destruct c as [[] [] [] [] [] [] [] []]; vm_compute; intros H;
    try discriminate H; injection H as <-; repeat split; reflexivity.
Qed.

Lemma hex_char_starts_no_space (c : ascii) (d : N) :
  RefRuntime.hex_val c = Some d ->
  (forall b, Text.is_space2 c b = false)
  /\ (forall b e, Text.is_space3 c b e = false).
Proof.
  destruct c as [[] [] [] [] [] [] [] []]; intros H;
    (vm_compute in H; try discriminate H); split; intros; reflexivity.
Qed.

Lemma ToInt32_of_small (n : Z) :
  0 <= n < 2 ^ 31 -> BookCard.ToInt32 (Fin (inject_Z n)) = n.
Proof.
  intros B. unfold BookCard.ToInt32. cbn [inject_Z Qnum Qden].
  rewrite Z.quot_1_r.
  rewrite Z.mod_small by (change (2 ^ 32) with 4294967296;
                          change (2 ^ 31) with 2147483648 in B; lia).
  replace (2 ^ 31 <=? n) with false by (symmetry; apply Z.leb_gt; lia).
  reflexivity.
Qed.

End ColourRules.

Section SixDigits.
#[local] Open Scope Z_scope.
Context (c1 c2 c3 c4 c5 c6 : ascii) (d1 d2 d3 d4 d5 d6 : N).
Hypothesis (H1 : RefRuntime.hex_val c1 = Some d1)
           (H2 : RefRuntime.hex_val c2 = Some d2)
           (H3 : RefRuntime.hex_val c3 = Some d3)
           (H4 : RefRuntime.hex_val c4 = Some d4)
           (H5 : RefRuntime.hex_val c5 = Some d5)
           (H6 : RefRuntime.hex_val c6 = Some d6).

Lemma parseInt16_of_six_digits :
  BookCard.parseInt16 (six_digits c1 c2 c3 c4 c5 c6)
  = Fin (inject_Z (channel_of d1 d2 * 65536 + channel_of d3 d4 * 256
                   + channel_of d5 d6)).
Proof.
  destruct (hex_char _ _ H1) as (S1 & M1 & P1 & _ & _ & B1).
  destruct (hex_char _ _ H2) as (_ & _ & _ & X2 & Y2 & B2).
  destruct (hex_char _ _ H3) as (_ & _ & _ & _ & _ & B3).
  destruct (hex_char _ _ H4) as (_ & _ & _ & _ & _ & B4).
  destruct (hex_char _ _ H5) as (_ & _ & _ & _ & _ & B5).
  destruct (hex_char _ _ H6) as (_ & _ & _ & _ & _ & B6).
  unfold BookCard.parseInt16, six_digits.
  destruct (hex_char_starts_no_space _ _ H1) as (T1 & U1).
  cbn [Text.skip_spaces]. rewrite S1, T1, U1, M1, P1.
  cbn [Text.strip_prefix]. rewrite X2, Y2.
  destruct (Ascii.eqb "0" c1);
    cbn [BookCard.hex_prefix]; rewrite H1, H2, H3, H4, H5, H6;
    unfold BookCard.Number_of_integer, channel_of;
    set (n := 1 * _);
    (assert (N : 0 <= n < 2 ^ 24)
      by (change (2 ^ 24) with 16777216; unfold n; lia));
    (assert (L : Z.log2 (Z.abs n) + 1 <= 53)
      by (rewrite Z.abs_eq by lia;
          destruct (Z.eq_dec n 0) as [-> | P]; [cbn; lia |];
          assert (Z.log2 n < 24) by (apply Z.log2_lt_pow2; lia); lia));
    apply Z.leb_le in L; rewrite L; f_equal; f_equal; unfold n; lia.
Qed.

End SixDigits.

(** X26. Whatever text adjustColor is given, a colour or not, it returns a
    number sign followed by exactly six lower-case hexadecimal digits; a
    value that is not a text is returned as it is. *)
Theorem adjusted_colour_is_well_formed (hex : JsVal) (percent : Z) :
  match hex with
  | JStr h =>
      exists digits,
        BookCard.adjustColor hex percent = JStr ("#" ++ digits)
        /\ String.length digits = 6%nat
        /\ Forall (fun c => is_lower_hex c = true)
             (list_ascii_of_string digits)
  | _ => BookCard.adjustColor hex percent = hex
  end.
Proof.
  destruct hex as [| | | | h | |]; try reflexivity.
  rewrite adjustColor_of_text. cbv zeta.
  set (num := BookCard.ToInt32 _).
  destruct (hex_pair_is_two_digits _ (shade_in_range (Z.shiftr num 16) percent))
    as (Lr & Fr).
  destruct (hex_pair_is_two_digits _
              (shade_in_range (Z.land (Z.shiftr num 8) 255) percent))
    as (Lg & Fg).
  destruct (hex_pair_is_two_digits _ (shade_in_range (Z.land num 255) percent))
    as (Lb & Fb).
  eexists. split; [reflexivity |]. split.
  - rewrite !length_append, Lr, Lg, Lb. reflexivity.
  - rewrite !chars_app. repeat (apply Forall_app; split); assumption.
Qed.

(** X27. For a colour written as a number sign and six hexadecimal digits,
    in either case, adjustColor moves each of the three channels by percent,
    keeps it between 0 and 255, and writes the result in lower case. *)
Theorem adjustColor_shades_each_channel (c1 c2 c3 c4 c5 c6 : ascii)
  (d1 d2 d3 d4 d5 d6 : N) (percent : Z) :
  RefRuntime.hex_val c1 = Some d1 -> RefRuntime.hex_val c2 = Some d2 ->
  RefRuntime.hex_val c3 = Some d3 -> RefRuntime.hex_val c4 = Some d4 ->
  RefRuntime.hex_val c5 = Some d5 -> RefRuntime.hex_val c6 = Some d6 ->
  BookCard.adjustColor (JStr (String "#" (six_digits c1 c2 c3 c4 c5 c6)))
    percent
  = JStr ("#" ++ hex_pair (shade (channel_of d1 d2) percent)
              ++ hex_pair (shade (channel_of d3 d4) percent)
              ++ hex_pair (shade (channel_of d5 d6) percent)).
Proof.
  intros H1 H2 H3 H4 H5 H6.
  rewrite adjustColor_of_text. cbv zeta.
  change (Builtins.remove_first "#" (String "#" (six_digits c1 c2 c3 c4 c5 c6)))
    with (six_digits c1 c2 c3 c4 c5 c6).
  rewrite (parseInt16_of_six_digits _ _ _ _ _ _ _ _ _ _ _ _ H1 H2 H3 H4 H5 H6).
  destruct (hex_char _ _ H1) as (_ & _ & _ & _ & _ & B1).
  destruct (hex_char _ _ H2) as (_ & _ & _ & _ & _ & B2).
  destruct (hex_char _ _ H3) as (_ & _ & _ & _ & _ & B3).
  destruct (hex_char _ _ H4) as (_ & _ & _ & _ & _ & B4).
  destruct (hex_char _ _ H5) as (_ & _ & _ & _ & _ & B5).
  destruct (hex_char _ _ H6) as (_ & _ & _ & _ & _ & B6).
  set (r := channel_of d1 d2). set (g := channel_of d3 d4).
  set (b := channel_of d5 d6).
  assert (R : (0 <= r <= 255)%Z) by (unfold r, channel_of; lia).
  assert (G : (0 <= g <= 255)%Z) by (unfold g, channel_of; lia).
  assert (B : (0 <= b <= 255)%Z) by (unfold b, channel_of; lia).
  rewrite ToInt32_of_small
    by (change (2 ^ 31)%Z with 2147483648%Z; lia).
  rewrite !Z.shiftr_div_pow2 by lia.
  change 255%Z with (Z.ones 8). rewrite !Z.land_ones by lia.
  change (2 ^ 16)%Z with 65536%Z. change (2 ^ 8)%Z with 256%Z.
  replace ((r * 65536 + g * 256 + b) / 65536)%Z with r
    by (apply Z.div_unique with (g * 256 + b)%Z; lia).
  replace (((r * 65536 + g * 256 + b) / 256) mod 256)%Z with g.
  - replace ((r * 65536 + g * 256 + b) mod 256)%Z with b
      by (apply Z.mod_unique with (r * 256 + g)%Z; lia).
    reflexivity.
  - replace ((r * 65536 + g * 256 + b) / 256)%Z with (r * 256 + g)%Z
      by (apply Z.div_unique with b; lia).
    apply Z.mod_unique with r; lia.
Qed.

(** The default cover colour, made darker as on the card. *)
Lemma adjustColor_shades_each_channel_witness :
  BookCard.adjustColor (JStr "#E2E8F0") (-20) = JStr "#ced4dc".
Proof.
  exact (adjustColor_shades_each_channel "E" "2" "E" "8" "F" "0"
           14 2 14 8 15 0 (-20)
           eq_refl eq_refl eq_refl eq_refl eq_refl eq_refl).
Defined.

(** ** The highlights of the reader *)

Lemma strip_prefix_some (p s rest : string) :
  Text.strip_prefix p s = Some rest <-> s = (p ++ rest)%string.
Proof.
  revert s. induction p as [| a p IH]; intros s; cbn [Text.strip_prefix].
  - split; [intros H; injection H as <-; reflexivity | intros ->; reflexivity].
  - destruct s as [| b s]; [split; discriminate |].
    destruct (Ascii.eqb a b) eqn:E.
    + apply Ascii.eqb_eq in E. subst b. rewrite IH. cbn [append].
      split; [intros ->; reflexivity | intros H; injection H as ->; reflexivity].
    + apply Ascii.eqb_neq in E. split; [discriminate |].
      cbn [append]. intros H. injection H as H _. congruence.
Qed.

Lemma find_first_sound (p s before after : string) :
  Reader.find_first p s = Some (before, after) ->
  s = (before ++ p ++ after)%string.
Proof.
  revert before. induction s as [| c s IH]; intros before; cbn [Reader.find_first].
  - destruct (Text.strip_prefix p "") as [rest |] eqn:E; [| discriminate].
    intros H. injection H as <- <-. exact (proj1 (strip_prefix_some _ _ _) E).
  - destruct (Text.strip_prefix p (String c s)) as [rest |] eqn:E.
    + intros H. injection H as <- <-. exact (proj1 (strip_prefix_some _ _ _) E).
    + destruct (Reader.find_first p s) as [[b a] |]; [| discriminate].
      intros H. injection H as <- <-. cbn [append]. f_equal. apply IH. reflexivity.
Qed.

Lemma find_first_none (p s : string) :
  Reader.find_first p s = None ->
  forall before after, s <> (before ++ p ++ after)%string.
Proof.
  induction s as [| c s IH]; cbn [Reader.find_first]; intros H before after E.
  - destruct (Text.strip_prefix p "") as [rest |] eqn:S; [discriminate |].
    destruct before as [| x before]; [| discriminate E].
    cbn [append] in E. apply (proj2 (strip_prefix_some _ _ _)) in E. congruence.
  - destruct (Text.strip_prefix p (String c s)) as [rest |] eqn:S; [discriminate |].
    destruct (Reader.find_first p s) as [[b a] |] eqn:F; [discriminate |].
    destruct before as [| x before].
    + cbn [append] in E. apply (proj2 (strip_prefix_some _ _ _)) in E. congruence.
    + cbn [append] in E. injection E as _ E. exact (IH eq_refl before after E).
Qed.

Lemma find_first_is_first (p s before after : string) :
  Reader.find_first p s = Some (before, after) ->
  forall before' after',
    s = (before' ++ p ++ after')%string ->
    (String.length before <= String.length before')%nat.
Proof.
  revert before. induction s as [| c s IH]; intros before; cbn [Reader.find_first].
  - destruct (Text.strip_prefix p "") as [rest |]; [| discriminate].
    intros H. injection H as <- <-. intros. cbn. lia.
  - destruct (Text.strip_prefix p (String c s)) as [rest |] eqn:S.
    + intros H. injection H as <- <-. intros. cbn. lia.
    + destruct (Reader.find_first p s) as [[b a] |] eqn:F; [| discriminate].
      intros H. injection H as <- <-. intros before' after' E.
      destruct before' as [| x before'].
      * cbn [append] in E. apply (proj2 (strip_prefix_some _ _ _)) in E. congruence.
      * cbn [append] in E. injection E as _ E. cbn [String.length].
        apply le_n_S. exact (IH b eq_refl before' after' E).
Qed.

(** A template without a dollar sign stands for itself. *)
Lemma GetSubstitution_plain (matched before after template : string) :
  no_dollar template ->
  Reader.GetSubstitution matched before after template = template.
Proof.
  unfold no_dollar.
  induction template as [| c r IH]; cbn [Reader.GetSubstitution]; [reflexivity |].
  cbn [list_ascii_of_string]. intros N.
  destruct (Ascii.eqb c "$") eqn:E.
  - apply Ascii.eqb_eq in E. exfalso. apply N. left. exact E.
  - f_equal. apply IH. intros I. apply N. right. exact I.
Qed.

Lemma no_dollar_app (a b : string) :
  no_dollar a -> no_dollar b -> no_dollar (a ++ b).
Proof.
  unfold no_dollar. rewrite chars_app. intros A B I.
  apply in_app_or in I. tauto.
Qed.

Lemma mark_is_plain (h : Reader.Highlight) :
  no_dollar (Reader.text h) -> no_dollar (Reader.color h) ->
  no_dollar (Reader.mark h).
Proof.
  intros T C. unfold Reader.mark.
  repeat (apply no_dollar_app; [| try assumption]); try assumption;
    unfold no_dollar; cbn; intros I;
    repeat (destruct I as [I | I]; [discriminate I |]); exact I.
Qed.

(** X28. How [applyHighlightsToText] treats a highlight whose text and
    colour hold no dollar sign.  When the text of the highlight occurs in the
    chapter, its first occurrence, and only that one, is wrapped in a [mark]
    element with the colour of the highlight and everything around it is
    kept; when it does not occur the chapter is left as it is.  The
    remaining highlights are then applied to the result, so they also see
    the element just inserted. *)
Theorem plain_highlight_wraps_first_occurrence (html : string)
  (h : Reader.Highlight) (others : list Reader.Highlight) :
  no_dollar (Reader.text h) -> no_dollar (Reader.color h) ->
  ((forall before, ~ occurs_after before (Reader.text h) html) ->
   Reader.applyHighlightsToText html (h :: others)
   = Reader.applyHighlightsToText html others)
  /\ (forall before, occurs_after before (Reader.text h) html ->
      exists first after,
        html = (first ++ Reader.text h ++ after)%string
        /\ (String.length first <= String.length before)%nat
        /\ Reader.applyHighlightsToText html (h :: others)
           = Reader.applyHighlightsToText
               (first ++ Reader.mark h ++ after)%string others).
Proof.
  intros T C. unfold Reader.applyHighlightsToText. cbn [fold_left].
  unfold Reader.apply_highlight, Reader.includes, Reader.replace.
  destruct (Reader.find_first (Reader.text h) html) as [[first after] |] eqn:F.
  - split.
    + intros N. exfalso. apply (N first). exists after.
      exact (find_first_sound _ _ _ _ F).
    + intros before [after' E]. exists first, after.
      split; [exact (find_first_sound _ _ _ _ F) |].
      split; [exact (find_first_is_first _ _ _ _ F before after' E) |].
      rewrite GetSubstitution_plain by (apply mark_is_plain; assumption).
      reflexivity.
  - split; [reflexivity |].
    intros before [after E]. exfalso.
    exact (find_first_none _ _ F before after E).
Qed.

(** The first of two occurrences is the one that is marked. *)
Lemma plain_highlight_wraps_first_occurrence_witness :
  exists first after,
    "<p>the sea, the sea</p>"%string = (first ++ "sea" ++ after)%string
    /\ (String.length first <= 16)%nat
    /\ Reader.applyHighlightsToText "<p>the sea, the sea</p>"
         [{| Reader.id := "1"; Reader.text := "sea"; Reader.color := "#ff0" |}]
       = Reader.applyHighlightsToText
           (first
            ++ Reader.mark {| Reader.id := "1"; Reader.text := "sea";
                              Reader.color := "#ff0" |}
            ++ after)%string [].
Proof.
  refine (proj2 (plain_highlight_wraps_first_occurrence
                   "<p>the sea, the sea</p>"
                   {| Reader.id := "1"; Reader.text := "sea";
                      Reader.color := "#ff0" |} [] _ _)
            "<p>the sea, the "%string
            (ex_intro _ "</p>"%string eq_refl)).
  - cbn. intros I. repeat (destruct I as [I | I]; [discriminate I |]). exact I.
  - cbn. intros I. repeat (destruct I as [I | I]; [discriminate I |]). exact I.
Defined.
